(** * Membership Initiation System API: issuance workflow and session gateway

    A shallow embedding of [backend/mis-api/main.py]: the REST handlers that
    drive an invitation to an issued membership, the key validation
    endpoints, and the WebSocket connection manager with its per-connection
    message loop.  Handlers are written in a state-and-exception monad over
    an explicit world (record store, entropy source, clock), so that "what
    was written" and "what was generated" are observable. *)

From Stdlib Require Import List String Ascii ZArith Lia Bool Arith.
From Stdlib.Strings Require Import Byte.
From Stdlib Require Import DecimalString DecimalZ DecimalPos.
Import ListNotations.
Open Scope string_scope.

Set Implicit Arguments.
Set Warnings "-register-all".

(** ** JSON values and Python views of them *)

(** Values as [json.loads] produces them and as the record store returns
    them.  Objects are association lists; [dict_get] reads the first binding
    of a key. *)
Inductive Json : Type :=
| JNull
| JBool (b : bool)
| JNum (n : Z)
| JStr (s : string)
| JArr (items : list Json)
| JObj (fields : list (string * Json)).

(** A row of a collection, and any Python [dict] of JSON values. *)
Definition Row : Type := list (string * Json).

(** [d.get(key)]: [None] when the key is absent. *)
Fixpoint dict_get {V : Type} (key : string) (d : list (string * V))
  : option V :=
  match d with
  | [] => None
  | (k, v) :: rest => if String.eqb k key then Some v else dict_get key rest
  end.

(** Python truthiness of a JSON value. *)
Definition truthy (v : Json) : bool :=
  match v with
  | JNull => false
  | JBool b => b
  | JNum n => negb (n =? 0)%Z
  | JStr s => negb (String.eqb s "")
  | JArr items => match items with [] => false | _ => true end
  | JObj fields => match fields with [] => false | _ => true end
  end.

(** Truthiness of the result of [d.get(key)], where a missing key gives
    Python's [None]. *)
Definition truthy_opt (v : option Json) : bool :=
  match v with
  | None => false
  | Some j => truthy j
  end.

(** [v == s] for a Python value against a string literal. *)
Definition is_str (s : string) (v : option Json) : bool :=
  match v with
  | Some (JStr t) => String.eqb t s
  | _ => false
  end.

(** [str(n)] for an integer. *)
Definition str_of_int (n : Z) : string :=
  NilZero.string_of_int (Z.to_int n).

(** ** Exceptions and handler results *)

(** The exceptions the modelled code raises or lets through. *)
Inductive Exn : Type :=
| HTTPException (status_code : Z) (detail : string)
| HTTPError (msg : string)
| KeyError (key : string)
| AttributeError (attr : string)
| ValidationError
| JSONDecodeError
| WebSocketDisconnect
| RuntimeError (msg : string).

Inductive Result (A : Type) : Type :=
| Return (a : A)
| Raise (e : Exn).

Arguments Return {A} a.
Arguments Raise {A} e.

(** ** The record store

    The store is reached over a REST protocol.  It is modelled as three
    collections of rows; a GET applies the equality filters of its query
    string and answers with the matching rows, a POST appends the posted
    row.  What the store puts in its reply to a POST is not fixed by the
    protocol, and the handlers read it: the world scripts it. *)

Record Store : Type := mkStore {
  invitations : list Row;
  onboarding : list Row;
  memberships : list Row
}.

(** A [datetime] value, through the two observations the handlers make of
    it: [int(dt.timestamp())] and [dt.isoformat()]. *)
Record DateTime : Type := mkDateTime {
  timestamp : Z;
  isoformat : string
}.

(** The outcome the transport has in stock for one request. *)
Inductive Transport : Type :=
| Healthy
| Failing (msg : string).

(** The body of the store's 2xx reply to an insert, as [response.json()]
    finds it: the stored row in a list, some other JSON value, or a body
    that is not JSON (an empty one, for instance). *)
Inductive Reply : Type :=
| Representation
| Body (body : Json)
| NoBody.

(** What the credential validator reports for a key it accepts to look at:
    the truthiness of [user_data.get("valid")] and the value under
    ["user_name"], if the dict has one.  A missing or empty dict is the
    [None] of [option UserData]. *)
Record UserData : Type := mkUserData {
  ud_valid : bool;
  ud_user_name : option string
}.

(** Effects of a run that leave the process, in the order they happened:
    a call of the credential validator, a call of the chat responder, a
    text frame accepted by a WebSocket. *)
Inductive Event : Type :=
| ValidatorCalled (presented : Json)
| ResponderCalled (prompt : string) (user : option UserData)
| Sent (ws : nat) (frame : Json).

(** The world a handler runs in.  [faults] scripts the transport outcome of
    the coming store requests (an exhausted script means healthy);
    [replies] scripts the bodies of the store's replies to the coming
    inserts that the transport carries out (an exhausted script means the
    stored row in a list);
    [entropy], [clock] and [dice] are the successive outputs of the system's
    random source, of [datetime.utcnow()] and of the [random] module, read
    at their cursors; [events] is the log of effects so far. *)
Record World : Type := mkWorld {
  store : Store;
  faults : list Transport;
  replies : list Reply;
  entropy : nat -> byte;
  entropy_pos : nat;
  clock : nat -> DateTime;
  clock_pos : nat;
  dice : nat -> nat;
  dice_pos : nat;
  events : list Event
}.

Definition set_store (s : Store) (w : World) : World :=
  mkWorld s (faults w) (replies w) (entropy w) (entropy_pos w) (clock w)
          (clock_pos w) (dice w) (dice_pos w) (events w).

Definition set_faults (f : list Transport) (w : World) : World :=
  mkWorld (store w) f (replies w) (entropy w) (entropy_pos w) (clock w)
          (clock_pos w) (dice w) (dice_pos w) (events w).

Definition set_replies (r : list Reply) (w : World) : World :=
  mkWorld (store w) (faults w) r (entropy w) (entropy_pos w) (clock w)
          (clock_pos w) (dice w) (dice_pos w) (events w).

Definition set_entropy_pos (p : nat) (w : World) : World :=
  mkWorld (store w) (faults w) (replies w) (entropy w) p (clock w)
          (clock_pos w) (dice w) (dice_pos w) (events w).

Definition set_clock_pos (p : nat) (w : World) : World :=
  mkWorld (store w) (faults w) (replies w) (entropy w) (entropy_pos w)
          (clock w) p (dice w) (dice_pos w) (events w).

Definition set_dice_pos (p : nat) (w : World) : World :=
  mkWorld (store w) (faults w) (replies w) (entropy w) (entropy_pos w)
          (clock w) (clock_pos w) (dice w) p (events w).

(** Appends one event to the log. *)
Definition log_event (e : Event) (w : World) : World :=
  mkWorld (store w) (faults w) (replies w) (entropy w) (entropy_pos w)
          (clock w) (clock_pos w) (dice w) (dice_pos w) (events w ++ [e]).

(** *** The handler monad: state passing with exceptions *)

Definition M (A : Type) : Type := World -> Result A * World.

Definition ret {A : Type} (a : A) : M A := fun w => (Return a, w).

Definition raise {A : Type} (e : Exn) : M A := fun w => (Raise e, w).

Definition bind {A B : Type} (m : M A) (k : A -> M B) : M B :=
  fun w =>
    match m w with
    | (Return a, w') => k a w'
    | (Raise e, w') => (Raise e, w')
    end.

(** [try: m except Exception as e: h e]. *)
Definition try_except {A : Type} (m : M A) (h : Exn -> M A) : M A :=
  fun w =>
    match m w with
    | (Return a, w') => (Return a, w')
    | (Raise e, w') => h e w'
    end.

Declare Scope handler_scope.
Delimit Scope handler_scope with handler.
Notation "x <- m ;; k" := (bind m (fun x => k))
  (at level 61, m at next level, right associativity) : handler_scope.
Notation "m ;;; k" := (bind m (fun _ => k))
  (at level 61, right associativity) : handler_scope.
Open Scope handler_scope.

(** *** Query strings *)

(** [s] without the prefix [p], when it has it. *)
Fixpoint strip_prefix (p s : string) : option string :=
  match p with
  | EmptyString => Some s
  | String a p' =>
      match s with
      | EmptyString => None
      | String b s' => if Ascii.eqb a b then strip_prefix p' s' else None
      end
  end.

(** Whether a stored value satisfies the filter [column=eq.text]: a text
    column holds the very text, a boolean column its literal, a number its
    decimal form.  A null or missing column satisfies no equality. *)
Definition eq_filter (text : string) (v : option Json) : bool :=
  match v with
  | Some (JStr s) => String.eqb s text
  | Some (JBool b) => String.eqb (if b then "true" else "false") text
  | Some (JNum n) => String.eqb (str_of_int n) text
  | _ => false
  end.

(** One query parameter against one row.  [select] chooses columns and
    [limit] bounds the answer; every other parameter of the form
    [column=eq.text] is an equality filter, and these are the only ones the
    handlers send. *)
Definition param_holds (row : Row) (p : string * string) : bool :=
  let (column, value) := p in
  if String.eqb column "select" || String.eqb column "limit" then true
  else match strip_prefix "eq." value with
       | Some text => eq_filter text (dict_get column row)
       | None => true
       end.

(** The rows of a collection that satisfy all the parameters. *)
Definition select_rows (params : list (string * string)) (rows : list Row)
  : list Row :=
  filter (fun row => forallb (param_holds row) params) rows.

(** The collection behind an endpoint path. *)
Definition collection (endpoint : string) (s : Store) : list Row :=
  if String.eqb endpoint "rest/v1/invitations" then invitations s
  else if String.eqb endpoint "rest/v1/onboarding" then onboarding s
  else if String.eqb endpoint "rest/v1/memberships" then memberships s
  else [].

(** The store after a row is appended to the collection behind a path. *)
Definition append_row (endpoint : string) (row : Row) (s : Store) : Store :=
  if String.eqb endpoint "rest/v1/invitations"
  then mkStore (invitations s ++ [row]) (onboarding s) (memberships s)
  else if String.eqb endpoint "rest/v1/onboarding"
  then mkStore (invitations s) (onboarding s ++ [row]) (memberships s)
  else if String.eqb endpoint "rest/v1/memberships"
  then mkStore (invitations s) (onboarding s) (memberships s ++ [row])
  else s.

(** The transport outcome of the next store request, consumed. *)
Definition next_transport : M Transport :=
  fun w => (Return (hd Healthy (faults w)), set_faults (tl (faults w)) w).

(** [safe_get_from_supabase]: the matching rows, or [HTTPException 500]
    when the request raises [httpx.HTTPError]. *)
Definition safe_get_from_supabase (endpoint : string)
    (params : list (string * string)) : M (list Row) :=
  t <- next_transport ;;
  match t with
  | Failing msg => raise (HTTPException 500 ("Supabase error: " ++ msg))
  | Healthy =>
      fun w => (Return (select_rows params (collection endpoint (store w))), w)
  end.

(** The body of the store's reply to the next insert that is carried
    out, consumed. *)
Definition next_reply : M Reply :=
  fun w => (Return (hd Representation (replies w)),
            set_replies (tl (replies w)) w).

(** [response.json()] on the reply to the insert of [data]: the value the
    body holds, or [json.JSONDecodeError] when the body is not JSON. *)
Definition response_json (r : Reply) (data : Row) : Result Json :=
  match r with
  | Representation => Return (JArr [JObj data])
  | Body body => Return body
  | NoBody => Raise JSONDecodeError
  end.

(** [safe_post_to_supabase]: [HTTPException 500] when the request raises
    [httpx.HTTPError] (nothing is stored then); otherwise the row is
    appended and the result is [response.json()], whatever value the reply
    holds.  A reply that is not JSON raises [json.JSONDecodeError], which
    [except httpx.HTTPError] does not catch: it leaves the helper with the
    row stored. *)
Definition safe_post_to_supabase (endpoint : string) (data : Row) : M Json :=
  t <- next_transport ;;
  match t with
  | Failing msg => raise (HTTPException 500 ("Supabase error: " ++ msg))
  | Healthy =>
      r <- next_reply ;;
      fun w =>
        (response_json r data,
         set_store (append_row endpoint data (store w)) w)
  end.

(** ** Entropy and time *)

(** The digit of a nibble, lowercase as [bytes.hex] prints it. *)
Definition hex_digit (n : N) : ascii :=
  match n with
  | 0%N => "0" | 1%N => "1" | 2%N => "2" | 3%N => "3"
  | 4%N => "4" | 5%N => "5" | 6%N => "6" | 7%N => "7"
  | 8%N => "8" | 9%N => "9" | 10%N => "a" | 11%N => "b"
  | 12%N => "c" | 13%N => "d" | 14%N => "e" | _ => "f"
  end%char.

Definition hex_of_byte (b : byte) : string :=
  let n := Byte.to_N b in
  String (hex_digit (n / 16)) (String (hex_digit (n mod 16)) EmptyString).

(** [bytes.hex()]. *)
Fixpoint hex (bs : list byte) : string :=
  match bs with
  | [] => EmptyString
  | b :: rest => hex_of_byte b ++ hex rest
  end.

(** [c.upper()] on one character: ASCII lowercase letters move up. *)
Definition upper_ascii (c : ascii) : ascii :=
  let n := nat_of_ascii c in
  if (97 <=? n)%nat && (n <=? 122)%nat then ascii_of_nat (n - 32) else c.

(** [s.upper()]. *)
Fixpoint upper (s : string) : string :=
  match s with
  | EmptyString => EmptyString
  | String c rest => String (upper_ascii c) (upper rest)
  end.

(** [secrets.token_bytes(n)]: the next [n] bytes of the entropy source. *)
Fixpoint token_bytes (n : nat) : M (list byte) :=
  match n with
  | O => ret []
  | S n' =>
      b <- (fun w => (Return (entropy w (entropy_pos w)),
                      set_entropy_pos (S (entropy_pos w)) w)) ;;
      rest <- token_bytes n' ;;
      ret (b :: rest)
  end.

(** [secrets.token_hex(n)]. *)
Definition token_hex (n : nat) : M string :=
  bs <- token_bytes n ;;
  ret (hex bs).

(** [datetime.utcnow()]: the next reading of the clock. *)
Definition utcnow : M DateTime :=
  fun w => (Return (clock w (clock_pos w)), set_clock_pos (S (clock_pos w)) w).

(** ** Requests and responses of the REST surface *)

Record OnboardingRequest : Type := mkOnboardingRequest {
  ob_code : string;
  ob_voice_consent : bool;
  ob_responses : Json
}.

Record OnboardingResponse : Type := mkOnboardingResponse {
  ob_status : string;
  ob_resp_code : string
}.

(** [user_name] is [None] when the request object carries no such
    attribute, so that [getattr] falls back to its default. *)
Record ApproveMembershipRequest : Type := mkApproveMembershipRequest {
  invitation_code : string;
  user_name : option Json
}.

Record ApproveMembershipResponse : Type := mkApproveMembershipResponse {
  success : bool;
  message : string;
  membership_key : string;
  membership_code : string
}.

Record ValidateKeyRequest : Type := mkValidateKeyRequest {
  key : string
}.

Record ValidateKeyResponse : Type := mkValidateKeyResponse {
  valid : bool;
  vk_key : string
}.

(** ** The issuance handlers *)

(** [POST /submit-onboarding]. *)
Definition submit_onboarding (request : OnboardingRequest)
  : M OnboardingResponse :=
  invitation <- safe_get_from_supabase "rest/v1/invitations"
                  [("code", "eq." ++ ob_code request)] ;;
  match invitation with
  | [] => raise (HTTPException 404 "Invitation not found")
  | _ :: _ =>
      let onboarding_data :=
        [("invitation_code", JStr (ob_code request));
         ("voice_consent", JBool (ob_voice_consent request));
         ("responses", ob_responses request)] in
      safe_post_to_supabase "rest/v1/onboarding" onboarding_data ;;;
      ret (mkOnboardingResponse "submitted" (ob_code request))
  end.

(** [POST /admin/approve-membership], after the administrator has been
    authenticated. *)
Definition approve_membership (request : ApproveMembershipRequest)
  : M ApproveMembershipResponse :=
  (* 0. Replay prevention *)
  existing_membership <- safe_get_from_supabase "rest/v1/memberships"
      [("invitation_code", "eq." ++ invitation_code request);
       ("active", "eq.true")] ;;
  match existing_membership with
  | _ :: _ =>
      raise (HTTPException 409
               "Membership already exists for this invitation code.")
  | [] =>
      (* 1. Fetch invitation and check onboarding status *)
      invitation <- safe_get_from_supabase "rest/v1/invitations"
          [("code", "eq." ++ invitation_code request); ("select", "*")] ;;
      match invitation with
      | [] => raise (HTTPException 404 "Invitation not found.")
      | inv :: _ =>
          if negb (is_str "onboarded" (dict_get "status" inv))
          then raise (HTTPException 400 "Invitation not onboarded yet.")
          else
            let issued_to :=
              match user_name request with
              | Some name => name
              | None =>
                  match dict_get "invited_name" inv with
                  | Some name => name
                  | None => JStr ""
                  end
              end in
            (* 2. Generate secure membership code and key *)
            token <- token_hex 3 ;;
            let membership_code := "MEMBER-" ++ upper token in
            now <- utcnow ;;
            let membership_key :=
              membership_code ++ "-" ++ str_of_int (timestamp now) in
            (* 3. Insert membership record *)
            issued_at <- utcnow ;;
            let payload :=
              [("invitation_code", JStr (invitation_code request));
               ("membership_code", JStr membership_code);
               ("membership_key", JStr membership_key);
               ("issued_to", issued_to);
               ("active", JBool true);
               ("issued_at", JStr (isoformat issued_at))] in
            insert_result <- safe_post_to_supabase "rest/v1/memberships"
                               payload ;;
            if negb (truthy insert_result)
            then raise (HTTPException 500 "Error saving membership record.")
            else ret (mkApproveMembershipResponse true "Membership approved."
                        membership_key membership_code)
      end
  end.

(** [POST /validate-key]. *)
Definition validate_key (request : ValidateKeyRequest)
  : M ValidateKeyResponse :=
  results <- safe_get_from_supabase "rest/v1/memberships"
      [("membership_code", "eq." ++ key request); ("status", "eq.active")] ;;
  match results with
  | [] => raise (HTTPException 404 "Invalid membership key")
  | _ :: _ => ret (mkValidateKeyResponse true (key request))
  end.

(** ** The credential validator and the chat endpoint *)

(** The client object [supabase] of the [database] module, as far as the
    handlers use it: [validate_key] looks a presented key up in the store
    and either raises or returns the user's data ([None] for Python's
    [None] and for an empty dict). *)
Record SupabaseClient : Type := mkSupabaseClient {
  supabase_validate_key : Store -> Json -> Result (option UserData)
}.

(** [await supabase.validate_key(key)], logged. *)
Definition call_validate_key (supabase : SupabaseClient) (presented : Json)
  : M (option UserData) :=
  fun w =>
    (supabase_validate_key supabase (store w) presented,
     log_event (ValidatorCalled presented) w).

(** [str(e)]: the text an exception prints as.  The handlers quote it only
    for the [KeyError] of a missing ["user_name"]. *)
Definition exn_str (e : Exn) : string :=
  match e with
  | HTTPException _ detail => detail
  | HTTPError msg => msg
  | KeyError k => "'" ++ k ++ "'"
  | AttributeError attr => "'dict' object has no attribute '" ++ attr ++ "'"
  | ValidationError => "validation error"
  | JSONDecodeError => "Expecting value"
  | WebSocketDisconnect => ""
  | RuntimeError msg => msg
  end.

(** [get_current_user]: [credentials] is [None] when the request carries no
    bearer credential. *)
Definition get_current_user (supabase : SupabaseClient)
    (credentials : option string) : M (option UserData) :=
  match credentials with
  | None => ret None
  | Some k =>
      user_data <- try_except (call_validate_key supabase (JStr k))
                     (fun _ => raise (HTTPException 500
                                        "Supabase validation failed")) ;;
      match user_data with
      | None => ret None
      | Some d => ret (Some d)
      end
  end.

Record ChatRequest : Type := mkChatRequest {
  prompt : string
}.

Definition anonymous_responses : list string :=
  ["I'm SpaceWH AI. How can I assist you today?";
   "That's an interesting question. Let me think about it...";
   "Based on my knowledge, I would recommend the following approach...";
   "I don't have enough information to answer that fully. Can you provide more details?";
   "That's beyond my current capabilities, but I'm constantly learning."].

Definition personal_responses (name : string) : list string :=
  ["Hello " ++ name ++ ", I'm SpaceWH AI. How can I assist you today?";
   "Thanks for your question, " ++ name ++ ". Let me think about it...";
   "Based on my knowledge, " ++ name
     ++ ", I would recommend the following approach...";
   "I'd need more information to answer that fully, " ++ name
     ++ ". Can you provide more details?";
   "That's an interesting query, " ++ name
     ++ ", but it's beyond my current capabilities."].

(** [random.choice(options)] on a non-empty list. *)
Definition random_choice (options : list string) : M string :=
  fun w =>
    (Return (nth (dice w (dice_pos w) mod List.length options) options ""),
     set_dice_pos (S (dice_pos w)) w).

(** [gpt_chat]: the function behind [POST /gpt-chat].  It returns a dict. *)
Definition gpt_chat (request : ChatRequest) (user_data : option UserData)
  : M Row :=
  fun w0 =>
    try_except
      (responses <-
         match user_data with
         | Some d =>
             match ud_user_name d with
             | Some name => ret (personal_responses name)
             | None => raise (KeyError "user_name")
             end
         | None => ret anonymous_responses
         end ;;
       response <- random_choice responses ;;
       ret [("response", JStr response)])
      (fun e => raise (HTTPException 500
                         ("Failed to generate chat response: " ++ exn_str e)))
      (log_event (ResponderCalled (prompt request) user_data) w0).

(** The route [POST /gpt-chat]: the dependency [get_current_user] is
    resolved from the bearer credential, then the function runs. *)
Definition gpt_chat_route (supabase : SupabaseClient)
    (credentials : option string) (request : ChatRequest) : M Row :=
  user_data <- get_current_user supabase credentials ;;
  gpt_chat request user_data.

(** The status code a route answers with. *)
Definition http_status {A : Type} (r : Result A) : Z :=
  match r with
  | Return _ => 200
  | Raise (HTTPException status_code _) => status_code
  | Raise _ => 500
  end.

(** Attribute access [d.attr] on a dict: a dict has no data attributes. *)
Definition dict_getattr (attr : string) (d : Row) : Result Json :=
  Raise (AttributeError attr).

(** [ChatRequest(prompt=content)]: the prompt must be a string. *)
Definition make_ChatRequest (content : Json) : Result ChatRequest :=
  match content with
  | JStr s => Return (mkChatRequest s)
  | _ => Raise ValidationError
  end.

Definition of_result {A : Type} (r : Result A) : M A := fun w => (r, w).

(** [process_chat_message]: the payload of the [chat_response] frame. *)
Definition process_chat_message (supabase : SupabaseClient)
    (content auth_token : Json) : M Row :=
  try_except
    (user_data <- call_validate_key supabase auth_token ;;
     match user_data with
     | None => ret [("error", JStr "Invalid authentication token")]
     | Some d =>
         if negb (ud_valid d)
         then ret [("error", JStr "Invalid authentication token")]
         else
           chat_request <- of_result (make_ChatRequest content) ;;
           response <- gpt_chat chat_request (Some d) ;;
           text <- of_result (dict_getattr "response" response) ;;
           ret [("content", text)]
     end)
    (fun _ => ret [("error", JStr "Failed to process message")]).

(** ** The connection manager *)

(** A WebSocket handle: its identity and whether sending on it raises. *)
Record WebSocket : Type := mkWebSocket {
  ws_id : nat;
  ws_broken : bool
}.

(** The gateway's state: the world, the registry [active_connections] (a
    dict, in insertion order) and whether [_lock] is held. *)
Record Gateway : Type := mkGateway {
  world : World;
  active_connections : list (string * WebSocket);
  locked : bool
}.

Definition set_world (w : World) (g : Gateway) : Gateway :=
  mkGateway w (active_connections g) (locked g).

Definition set_connections (c : list (string * WebSocket)) (g : Gateway)
  : Gateway :=
  mkGateway (world g) c (locked g).

Definition set_locked (b : bool) (g : Gateway) : Gateway :=
  mkGateway (world g) (active_connections g) b.

(** How a coroutine of the gateway ends: it returns, it raises, or it is
    suspended on [_lock] while the lock is held.  [asyncio.Lock] is not
    reentrant, so a coroutine that waits for a lock taken further up its own
    call chain waits for ever. *)
Inductive Outcome (A : Type) : Type :=
| Done (a : A) (g : Gateway)
| Raised (e : Exn) (g : Gateway)
| Blocked (g : Gateway).

Arguments Done {A} a g.
Arguments Raised {A} e g.
Arguments Blocked {A} g.

Definition G (A : Type) : Type := Gateway -> Outcome A.

Definition gret {A : Type} (a : A) : G A := fun g => Done a g.

Definition graise {A : Type} (e : Exn) : G A := fun g => Raised e g.

Definition gbind {A B : Type} (m : G A) (k : A -> G B) : G B :=
  fun g =>
    match m g with
    | Done a g' => k a g'
    | Raised e g' => Raised e g'
    | Blocked g' => Blocked g'
    end.

(** [try: m except Exception: h]. *)
Definition gtry {A : Type} (m : G A) (h : Exn -> G A) : G A :=
  fun g =>
    match m g with
    | Done a g' => Done a g'
    | Raised e g' => h e g'
    | Blocked g' => Blocked g'
    end.

(** A handler of the REST layer run inside the gateway. *)
Definition lift {A : Type} (m : M A) : G A :=
  fun g =>
    match m (world g) with
    | (Return a, w) => Done a (set_world w g)
    | (Raise e, w) => Raised e (set_world w g)
    end.

Declare Scope gateway_scope.
Delimit Scope gateway_scope with gateway.
Notation "x <~ m ;; k" := (gbind m (fun x => k))
  (at level 61, m at next level, right associativity) : gateway_scope.
Notation "m ~> k" := (gbind m (fun _ => k))
  (at level 61, right associativity) : gateway_scope.
Open Scope gateway_scope.

(** [async with self._lock: body]: taken when free and released however
    the body ends; suspended when the lock is held. *)
Definition with_lock {A : Type} (body : G A) : G A :=
  fun g =>
    if locked g then Blocked g
    else match body (set_locked true g) with
         | Done a g' => Done a (set_locked false g')
         | Raised e g' => Raised e (set_locked false g')
         | Blocked g' => Blocked g'
         end.

(** [key in d]. *)
Definition dict_mem {V : Type} (k : string) (d : list (string * V)) : bool :=
  match dict_get k d with
  | Some _ => true
  | None => false
  end.

(** [d[key] = v]: a present key keeps its place, a new one goes last. *)
Fixpoint dict_set {V : Type} (k : string) (v : V) (d : list (string * V))
  : list (string * V) :=
  match d with
  | [] => [(k, v)]
  | (k', v') :: rest =>
      if String.eqb k' k then (k, v) :: rest
      else (k', v') :: dict_set k v rest
  end.

(** [del d[key]]. *)
Fixpoint dict_del {V : Type} (k : string) (d : list (string * V))
  : list (string * V) :=
  match d with
  | [] => []
  | (k', v') :: rest =>
      if String.eqb k' k then rest else (k', v') :: dict_del k rest
  end.

(** [await websocket.send_text(message)]. *)
Definition send_text (websocket : WebSocket) (message : Json) : G unit :=
  fun g =>
    if ws_broken websocket
    then Raised (RuntimeError "send on a closed connection") g
    else Done tt (set_world (log_event (Sent (ws_id websocket) message)
                               (world g)) g).

(** [ConnectionManager.connect], after [websocket.accept()]. *)
Definition connect (websocket : WebSocket) (client_id : string) : G unit :=
  with_lock (fun g =>
    Done tt (set_connections
               (dict_set client_id websocket (active_connections g)) g)).

(** [ConnectionManager.disconnect]. *)
Definition disconnect (client_id : string) : G unit :=
  with_lock (fun g =>
    if dict_mem client_id (active_connections g)
    then Done tt (set_connections
                    (dict_del client_id (active_connections g)) g)
    else Done tt g).

(** [ConnectionManager.send_personal_message]. *)
Definition send_personal_message (message : Json) (client_id : string)
  : G unit :=
  fun g =>
    match dict_get client_id (active_connections g) with
    | Some websocket =>
        gtry (send_text websocket message)
             (fun _ => disconnect client_id) g
    | None => Done tt g
    end.

(** The loop of [broadcast] over the snapshot taken of the registry. *)
Fixpoint broadcast_loop (message : Json) (exclude : option string)
    (snapshot : list (string * WebSocket)) : G unit :=
  match snapshot with
  | [] => gret tt
  | (client_id, connection) :: rest =>
      (if match exclude with
          | Some x => negb (String.eqb client_id x)
          | None => true
          end
       then gtry (send_text connection message)
                 (fun _ => disconnect client_id)
       else gret tt) ~>
      broadcast_loop message exclude rest
  end.

(** [ConnectionManager.broadcast]. *)
Definition broadcast (message : Json) (exclude : option string) : G unit :=
  with_lock (fun g =>
    broadcast_loop message exclude (active_connections g) g).

(** ** The WebSocket endpoint *)

(** What [await websocket.receive_text()] followed by [json.loads] gives:
    the peer has gone, or a text frame arrived, whose parse is [None] when
    [json.loads] raises [JSONDecodeError]. *)
Inductive Inbound : Type :=
| Disconnect
| Text (parsed : option Json).

(** The frame [{"type": type, "payload": payload}] handed to
    [json.dumps]. *)
Definition envelope (type : string) (payload : Row) : Json :=
  JObj [("type", JStr type); ("payload", JObj payload)].

(** [message.get(key)]: only a dict has [get]. *)
Definition message_get (k : string) (message : Json)
  : Result (option Json) :=
  match message with
  | JObj fields => Return (dict_get k fields)
  | _ => Raise (AttributeError "get")
  end.

(** [message.get("payload", {}).get(key)]. *)
Definition payload_get (k : string) (message : Json)
  : Result (option Json) :=
  match message with
  | JObj fields =>
      match dict_get "payload" fields with
      | None => Return None
      | Some (JObj payload) => Return (dict_get k payload)
      | Some _ => Raise (AttributeError "get")
      end
  | _ => Raise (AttributeError "get")
  end.

(** The body of the inner [try] of the [while True] loop of
    [websocket_endpoint]: the value of [auth_token] after it, unless an
    exception leaves it. *)
Definition ws_turn (supabase : SupabaseClient) (client_id : string)
    (auth_token : option Json) (frame : Inbound) : G (option Json) :=
  match frame with
  | Disconnect => graise WebSocketDisconnect
  | Text None => graise JSONDecodeError
  | Text (Some message) =>
      type <~ lift (of_result (message_get "type" message)) ;;
      if is_str "auth" type then
        (* Handle authentication *)
        let auth_failed :=
          send_personal_message
            (envelope "auth_failed"
               [("error", JStr "Invalid authentication token")])
            client_id ~>
          gret auth_token in
        token <~ lift (of_result (payload_get "token" message)) ;;
        match token with
        | Some t =>
            if truthy t then
              user_data <~ lift (call_validate_key supabase t) ;;
              match user_data with
              | Some d =>
                  if ud_valid d then
                    (* auth_token = token *)
                    match ud_user_name d with
                    | Some name =>
                        send_personal_message
                          (envelope "auth_success"
                             [("user_name", JStr name)])
                          client_id ~>
                        gret (Some t)
                    | None => graise (KeyError "user_name")
                    end
                  else auth_failed
              | None => auth_failed
              end
            else auth_failed
        | None => auth_failed
        end
      else if is_str "chat_message" type then
        (* Handle chat messages (requires auth) *)
        let auth_required :=
          send_personal_message
            (envelope "error" [("error", JStr "Authentication required")])
            client_id ~>
          gret auth_token in
        match auth_token with
        | None => auth_required
        | Some tok =>
            if negb (truthy tok) then auth_required
            else
              content <~ lift (of_result (payload_get "content" message)) ;;
              match content with
              | Some c =>
                  if truthy c then
                    response <~ lift (process_chat_message supabase c tok) ;;
                    send_personal_message
                      (envelope "chat_response" response) client_id ~>
                    gret auth_token
                  else gret auth_token
              | None => gret auth_token
              end
        end
      else
        (* any other message type is only logged *)
        gret auth_token
  end.

(** One turn of the loop: the [try] body under
    [except json.JSONDecodeError], which answers "Invalid message format"
    and lets the loop go on with the token it had, wherever in the body
    the exception was raised.  The result is the value of [auth_token] the
    next turn starts with, unless another exception leaves the loop. *)
Definition ws_message (supabase : SupabaseClient) (client_id : string)
    (auth_token : option Json) (frame : Inbound) : G (option Json) :=
  gtry (ws_turn supabase client_id auth_token frame)
       (fun e =>
          match e with
          | JSONDecodeError =>
              send_personal_message
                (envelope "error" [("error", JStr "Invalid message format")])
                client_id ~>
              gret auth_token
          | _ => graise e
          end).

(** The loop over the frames the peer sends. *)
Fixpoint ws_loop (supabase : SupabaseClient) (client_id : string)
    (auth_token : option Json) (frames : list Inbound) : G (option Json) :=
  match frames with
  | [] => gret auth_token
  | frame :: rest =>
      a <~ ws_message supabase client_id auth_token frame ;;
      ws_loop supabase client_id a rest
  end.

(** A session as the endpoint leaves it: still in its loop with the token
    it holds, or closed. *)
Inductive Session : Type :=
| Open (auth_token : option Json)
| Closed.

(** [websocket_endpoint] for a connection registered as [client_id], run
    over the frames received so far. *)
Definition websocket_endpoint (supabase : SupabaseClient)
    (websocket : WebSocket) (client_id : string) (frames : list Inbound)
  : G Session :=
  gtry (connect websocket client_id ~>
        a <~ ws_loop supabase client_id None frames ;;
        gret (Open a))
       (fun _ => disconnect client_id ~> gret Closed).

(** ** The credential validator of the design *)

(** Modelled from the spec: [supabase.validate_key] of the [database]
    module, which is not part of the sources.  It looks up the active
    memberships whose [membership_code] equals the presented key, returns
    the bound identity ([issued_to]) on a single match and nothing
    otherwise. *)
Definition spec_validate_key (s : Store) (presented : Json)
  : Result (option UserData) :=
  match presented with
  | JStr k =>
      match filter (fun row =>
                      is_str k (dict_get "membership_code" row)
                      && truthy_opt (dict_get "active" row))
                   (memberships s) with
      | [row] =>
          Return (Some (mkUserData true
                          (match dict_get "issued_to" row with
                           | Some (JStr name) => Some name
                           | _ => Some ""
                           end)))
      | _ => Return None
      end
  | _ => Return None
  end.

Definition spec_client : SupabaseClient :=
  mkSupabaseClient spec_validate_key.

(** ** Notions of the design, read off the store *)

(** The column [column] of a row reads [text]. *)
Definition field_is (column text : string) (row : Row) : bool :=
  eq_filter text (dict_get column row).

(** An active membership issued for an invitation code. *)
Definition active_membership_of (code : string) (row : Row) : bool :=
  field_is "invitation_code" code row && field_is "active" "true" row.

Definition has_active_membership (code : string) (s : Store) : bool :=
  existsb (active_membership_of code) (memberships s).

(** The invitation stored under a code: the first one, should the store
    hold several. *)
Definition find_invitation (code : string) (s : Store) : option Row :=
  find (field_is "code" code) (invitations s).

(** An active membership whose public code is [k]. *)
Definition active_member_with_code (k : string) (row : Row) : bool :=
  field_is "membership_code" k row && field_is "active" "true" row.

(** Every membership row carries the status [active] exactly when its
    [active] flag is set. *)
Definition status_consistent (s : Store) : bool :=
  forallb (fun row => Bool.eqb (field_is "status" "active" row)
                               (field_is "active" "true" row))
          (memberships s).

(** The next [n] store requests are answered. *)
Definition store_answers (n : nat) (w : World) : bool :=
  forallb (fun t => match t with Healthy => true | Failing _ => false end)
          (firstn n (faults w)).

(** The store's replies to the next [n] inserts it carries out hold JSON. *)
Definition replies_parse (n : nat) (w : World) : bool :=
  forallb (fun r => match r with NoBody => false | _ => true end)
          (firstn n (replies w)).

(** The store's reply to the next insert it carries out holds a JSON value
    that Python takes for true. *)
Definition insert_acknowledged (w : World) : bool :=
  match hd Representation (replies w) with
  | Representation => true
  | Body body => truthy body
  | NoBody => false
  end.

(** The three bytes and the clock reading an approval started in [w] uses
    for its credential. *)
Definition drawn_token (w : World) : list byte :=
  [entropy w (entropy_pos w); entropy w (S (entropy_pos w));
   entropy w (S (S (entropy_pos w)))].

Definition drawn_timestamp (w : World) : Z :=
  timestamp (clock w (clock_pos w)).

(** A digit of upper-case hexadecimal. *)
Definition is_upper_hex (c : ascii) : bool :=
  match String.index 0 (String c EmptyString) "0123456789ABCDEF" with
  | Some _ => true
  | None => false
  end.

Fixpoint string_forallb (p : ascii -> bool) (s : string) : bool :=
  match s with
  | EmptyString => true
  | String c rest => p c && string_forallb p rest
  end.

(** The frame is an [auth] message whose key the validator accepts on the
    store [s]: the key it carries, if so. *)
Definition accepted_auth (supabase : SupabaseClient) (s : Store)
    (frame : Inbound) : option Json :=
  match frame with
  | Text (Some message) =>
      match message_get "type" message, payload_get "token" message with
      | Return type, Return (Some t) =>
          if is_str "auth" type && truthy t then
            match supabase_validate_key supabase s t with
            | Return (Some d) => if ud_valid d then Some t else None
            | _ => None
            end
          else None
      | _, _ => None
      end
  | _ => None
  end.

(** The validator no longer vouches for a key on the store [s]. *)
Definition rejected (supabase : SupabaseClient) (s : Store) (k : Json)
  : bool :=
  match supabase_validate_key supabase s k with
  | Return None => true
  | Return (Some d) => negb (ud_valid d)
  | Raise _ => false
  end.

(** Whether [broadcast] addresses a registry entry, given its exclusion. *)
Definition addressed (exclude : option string)
    (entry : string * WebSocket) : bool :=
  match exclude with
  | Some x => negb (String.eqb (fst entry) x)
  | None => true
  end.

Definition is_validator_call (e : Event) : bool :=
  match e with
  | ValidatorCalled _ => true
  | _ => false
  end.

(** ** Reading hexadecimal back *)

(** The value of an upper-case hexadecimal digit. *)
Definition hex_value (c : ascii) : N :=
  match String.index 0 (String c EmptyString) "0123456789ABCDEF" with
  | Some i => N.of_nat i
  | None => 0
  end.

(** The bytes an upper-case hexadecimal string spells, read two digits at
    a time. *)
Fixpoint unhex (s : string) : option (list byte) :=
  match s with
  | EmptyString => Some []
  | String hi (String lo rest) =>
      match Byte.of_N (16 * hex_value hi + hex_value lo), unhex rest with
      | Some b, Some bs => Some (b :: bs)
      | _, _ => None
      end
  | String _ EmptyString => None
  end.

(** ** Administrator authentication and the invitation handlers *)

(** The two settings the administrator check reads. *)
Record Settings : Type := mkSettings {
  ADMIN_USERNAME : string;
  ADMIN_PASSWORD : string
}.

Record HTTPBasicCredentials : Type := mkHTTPBasicCredentials {
  username : string;
  password : string
}.

Definition is_ascii_char (c : ascii) : bool := (nat_of_ascii c <? 128)%nat.

(** [secrets.compare_digest] on two [str]: equality, and a [TypeError]
    (carried here with its message) when either holds a character outside
    ASCII. *)
Definition compare_digest (a b : string) : Result bool :=
  if string_forallb is_ascii_char a && string_forallb is_ascii_char b
  then Return (String.eqb a b)
  else Raise (RuntimeError
                "comparing strings with non-ASCII characters is not supported").

(** [verify_admin]: the dependency of every [/admin] route. *)
Definition verify_admin (settings : Settings)
    (credentials : HTTPBasicCredentials) : M string :=
  correct_username <- of_result (compare_digest (username credentials)
                                   (ADMIN_USERNAME settings)) ;;
  correct_password <- of_result (compare_digest (password credentials)
                                   (ADMIN_PASSWORD settings)) ;;
  if negb (correct_username && correct_password)
  then raise (HTTPException 401 "Incorrect username or password")
  else ret (username credentials).

Definition ascii_letters : string :=
  "abcdefghijklmnopqrstuvwxyzABCDEFGHIJKLMNOPQRSTUVWXYZ".

Definition digits : string := "0123456789".

(** One draw of [random.choices] from a population. *)
Definition random_char (population : string) : M ascii :=
  fun w =>
    (Return (match String.get (dice w (dice_pos w)
                               mod String.length population) population with
             | Some c => c
             | None => zero
             end),
     set_dice_pos (S (dice_pos w)) w).

(** [''.join(random.choices(population, k=k))]. *)
Fixpoint random_choices (population : string) (k : nat) : M string :=
  match k with
  | O => ret EmptyString
  | S k' =>
      c <- random_char population ;;
      rest <- random_choices population k' ;;
      ret (String c rest)
  end.

Record InvitationRequest : Type := mkInvitationRequest {
  ir_invited_name : string
}.

Record InvitationResponse : Type := mkInvitationResponse {
  ires_code : string;
  ires_pin : string;
  ires_invited_name : string
}.

Record ValidateInvitationRequest : Type := mkValidateInvitationRequest {
  vi_code : string;
  vi_pin : string
}.

Record ValidateInvitationResponse : Type := mkValidateInvitationResponse {
  vi_valid : bool;
  vi_resp_code : string
}.

(** [POST /admin/create-invitation], after the administrator has been
    authenticated. *)
Definition create_invitation (request : InvitationRequest)
  : M InvitationResponse :=
  code <- random_choices (ascii_letters ++ digits) 18 ;;
  pin <- random_choices digits 4 ;;
  let data :=
    [("code", JStr code); ("pin", JStr pin);
     ("invited_name", JStr (ir_invited_name request));
     ("status", JStr "pending")] in
  safe_post_to_supabase "rest/v1/invitations" data ;;;
  ret (mkInvitationResponse code pin (ir_invited_name request)).

(** [POST /validate-invitation]. *)
Definition validate_invitation (request : ValidateInvitationRequest)
  : M ValidateInvitationResponse :=
  results <- safe_get_from_supabase "rest/v1/invitations"
      [("code", "eq." ++ vi_code request); ("pin", "eq." ++ vi_pin request);
       ("status", "eq.pending")] ;;
  match results with
  | [] => raise (HTTPException 404 "Invalid or expired invitation")
  | _ :: _ => ret (mkValidateInvitationResponse true (vi_code request))
  end.

(** The two [/admin] routes that write: the dependency [verify_admin] is
    resolved first, then the handler runs. *)
Definition create_invitation_route (settings : Settings)
    (credentials : HTTPBasicCredentials) (request : InvitationRequest)
  : M InvitationResponse :=
  verify_admin settings credentials ;;;
  create_invitation request.

Definition approve_membership_route (settings : Settings)
    (credentials : HTTPBasicCredentials) (request : ApproveMembershipRequest)
  : M ApproveMembershipResponse :=
  verify_admin settings credentials ;;;
  approve_membership request.

(** A pending invitation with a given code and PIN. *)
Definition pending_invitation (code pin : string) (row : Row) : bool :=
  field_is "code" code row && field_is "pin" pin row
  && field_is "status" "pending" row.

(** Whether a character occurs in a string. *)
Fixpoint string_mem (c : ascii) (s : string) : bool :=
  match s with
  | EmptyString => false
  | String d rest => Ascii.eqb c d || string_mem c rest
  end.

(** The string [random_choices] builds from the draws at and after a
    cursor. *)
Fixpoint picked (population : string) (k : nat) (draws : nat -> nat)
    (pos : nat) : string :=
  match k with
  | O => EmptyString
  | S k' =>
      String (match String.get (draws pos mod String.length population)
                      population with
              | Some c => c
              | None => zero
              end)
             (picked population k' draws (S pos))
  end.

(** The membership row an approval writes. *)
Definition issued_row (request : ApproveMembershipRequest) (inv : Row)
    (w : World) : Row :=
  let member := "MEMBER-" ++ upper (hex (drawn_token w)) in
  [("invitation_code", JStr (invitation_code request));
   ("membership_code", JStr member);
   ("membership_key",
    JStr (member ++ "-" ++ str_of_int (drawn_timestamp w)));
   ("issued_to",
    match user_name request with
    | Some name => name
    | None =>
        match dict_get "invited_name" inv with
        | Some name => name
        | None => JStr ""
        end
    end);
   ("active", JBool true);
   ("issued_at", JStr (isoformat (clock w (S (clock_pos w)))))].

(** At most one active membership per invitation code. *)
Definition single_active (s : Store) : Prop :=
  forall code : string,
    (List.length (filter (active_membership_of code) (memberships s)) <= 1)%nat.

(** An event that is a frame sent to a connection other than [ws]. *)
Definition sent_elsewhere (ws : nat) (e : Event) : bool :=
  match e with
  | Sent target _ => negb (target =? ws)%nat
  | _ => false
  end.

Definition is_sent (e : Event) : bool :=
  match e with
  | Sent _ _ => true
  | _ => false
  end.

Definition is_responder_call (e : Event) : bool :=
  match e with
  | ResponderCalled _ _ => true
  | _ => false
  end.

(** The state a coroutine of the gateway ended or stopped in. *)
Definition outcome_state {A : Type} (o : Outcome A) : Gateway :=
  match o with
  | Done _ g => g
  | Raised _ g => g
  | Blocked g => g
  end.

(** Whether a coroutine of the gateway is left suspended on the lock. *)
Definition is_blocked {A : Type} (o : Outcome A) : bool :=
  match o with
  | Blocked _ => true
  | _ => false
  end.

(** The registry holds a session id at most once, as a dict does. *)
Definition registry_ok (g : Gateway) : Prop :=
  NoDup (map fst (active_connections g)).

(** What one turn, or a run, of the session [client_id] may have done to
    the gateway between [g] and [g']: the lock is free, the store is as it
    was, the registry is as it was or has lost [client_id], and the frames
    sent went to the connection registered under [client_id], if any. *)
Definition session_effect (client_id : string) (g g' : Gateway) : Prop :=
  locked g' = false
  /\ store (world g') = store (world g)
  /\ exists new : list Event,
       events (world g') = (events (world g) ++ new)%list
       /\ match dict_get client_id (active_connections g) with
          | None =>
              active_connections g' = active_connections g
              /\ existsb is_sent new = false
          | Some ws =>
              (active_connections g' = active_connections g
               \/ active_connections g'
                  = dict_del client_id (active_connections g))
              /\ existsb (sent_elsewhere (ws_id ws)) new = false
          end.

(** A coroutine of the session ended, by returning or raising, with such
    an effect. *)
Definition ends_with {A : Type} (client_id : string) (g : Gateway)
    (o : Outcome A) : Prop :=
  is_blocked o = false /\ session_effect client_id g (outcome_state o).

(** ** Sample data *)

Definition sample_invitation (code status : string) : Row :=
  [("code", JStr code); ("pin", JStr "4821"); ("invited_name", JStr "Ada");
   ("status", JStr status)].

(** A membership row that carries both an [active] flag and a [status]
    column. *)
Definition sample_membership (code member name : string) (active : bool)
  : Row :=
  [("invitation_code", JStr code); ("membership_code", JStr member);
   ("membership_key", JStr (member ++ "-1700000000"));
   ("issued_to", JStr name); ("active", JBool active);
   ("status", JStr (if active then "active" else "revoked"))].

(** Two onboarded invitations and a pending one, nothing issued yet. *)
Definition store_invited : Store :=
  mkStore [sample_invitation "ABC123" "onboarded";
           sample_invitation "XYZ789" "onboarded";
           sample_invitation "PPP000" "pending"] [] [].

(** Two active memberships with the same public code. *)
Definition store_twins : Store :=
  mkStore [] []
    [sample_membership "ABC123" "MEMBER-0A0A0A" "Ada" true;
     sample_membership "XYZ789" "MEMBER-0A0A0A" "Bob" true].

(** Two members; in [store_revoked] the first has been deactivated. *)
Definition store_members : Store :=
  mkStore [] []
    [sample_membership "ABC123" "MEMBER-AAAAAA" "Ada" true;
     sample_membership "XYZ789" "MEMBER-BBBBBB" "Bob" true].

Definition store_revoked : Store :=
  mkStore [] []
    [sample_membership "ABC123" "MEMBER-AAAAAA" "Ada" false;
     sample_membership "XYZ789" "MEMBER-BBBBBB" "Bob" true].

(** A world over a store: a healthy transport, inserts answered with the
    stored row, an entropy source stuck on one byte and a clock stuck on
    one second. *)
Definition world_of (s : Store) : World :=
  mkWorld s [] [] (fun _ => x0a) 0
          (fun _ => mkDateTime 1700000000 "2023-11-14T22:13:20") 0
          (fun _ => 0%nat) 0 [].

Definition peer_a : WebSocket := mkWebSocket 1 false.
Definition peer_b : WebSocket := mkWebSocket 2 true.
Definition peer_c : WebSocket := mkWebSocket 3 false.

(** Three registered sessions, the second with a broken connection. *)
Definition gateway_of (s : Store) : Gateway :=
  mkGateway (world_of s) [("a", peer_a); ("b", peer_b); ("c", peer_c)] false.

Definition auth_frame (k : string) : Inbound :=
  Text (Some (envelope "auth" [("token", JStr k)])).

Definition chat_frame (content : string) : Inbound :=
  Text (Some (envelope "chat_message" [("content", JStr content)])).

(** A world over a store with a scripted transport. *)
Definition world_with (s : Store) (script : list Transport) : World :=
  mkWorld s script [] (fun _ => x0a) 0
          (fun _ => mkDateTime 1700000000 "2023-11-14T22:13:20") 0
          (fun _ => 0%nat) 0 [].

(** A world over a store with a healthy transport and scripted replies to
    its inserts. *)
Definition world_replying (s : Store) (bodies : list Reply) : World :=
  mkWorld s [] bodies (fun _ => x0a) 0
          (fun _ => mkDateTime 1700000000 "2023-11-14T22:13:20") 0
          (fun _ => 0%nat) 0 [].

(** A validator client that cannot reach the store. *)
Definition failing_client : SupabaseClient :=
  mkSupabaseClient (fun _ _ => Raise (HTTPError "connection refused")).

(** A validator client that gets an answer it cannot decode. *)
Definition garbled_client : SupabaseClient :=
  mkSupabaseClient (fun _ _ => Raise JSONDecodeError).

Definition sample_settings : Settings :=
  mkSettings "admin" "Str0ng!Passw0rd".

(** Two registered sessions, both over working connections. *)
Definition gateway_healthy (s : Store) : Gateway :=
  mkGateway (world_of s) [("a", peer_a); ("c", peer_c)] false.

(** * Properties *)

(** ** Store requests *)

Lemma safe_get_run (endpoint : string) (params : list (string * string))
    (w : World) :
  safe_get_from_supabase endpoint params w =
  match hd Healthy (faults w) with
  | Healthy =>
      (Return (select_rows params (collection endpoint (store w))),
       set_faults (tl (faults w)) w)
  | Failing msg =>
      (Raise (HTTPException 500 ("Supabase error: " ++ msg)),
       set_faults (tl (faults w)) w)
  end.
Proof.
  unfold safe_get_from_supabase, bind, next_transport, raise.
  destruct (hd Healthy (faults w)); reflexivity.
Qed.

Lemma safe_post_run (endpoint : string) (data : Row) (w : World) :
  safe_post_to_supabase endpoint data w =
  match hd Healthy (faults w) with
  | Healthy =>
      (response_json (hd Representation (replies w)) data,
       set_store (append_row endpoint data (store w))
                 (set_replies (tl (replies w))
                              (set_faults (tl (faults w)) w)))
  | Failing msg =>
      (Raise (HTTPException 500 ("Supabase error: " ++ msg)),
       set_faults (tl (faults w)) w)
  end.
Proof.
  unfold safe_post_to_supabase, bind, next_transport, next_reply, raise.
  destruct (hd Healthy (faults w)); reflexivity.
Qed.

Lemma store_answers_hd (n : nat) (w : World) :
  store_answers (S n) w = true -> hd Healthy (faults w) = Healthy.
Proof.
  unfold store_answers.
  destruct (faults w) as [|[|msg] rest]; simpl; congruence.
Qed.

Lemma store_answers_tl (n : nat) (w : World) :
  store_answers (S n) w = true ->
  store_answers n (set_faults (tl (faults w)) w) = true.
Proof.
  unfold store_answers.
  destruct (faults w) as [|[|msg] rest]; simpl; try congruence;
    destruct n; auto.
Qed.

Lemma guard_query (code : string) (rows : list Row) :
  select_rows [("invitation_code", "eq." ++ code); ("active", "eq.true")]
              rows
  = filter (active_membership_of code) rows.
Proof.
  unfold select_rows. apply filter_ext. intros row.
  cbn. unfold active_membership_of, field_is.
  now rewrite andb_true_r.
Qed.

Lemma invitation_query (code : string) (rows : list Row) :
  select_rows [("code", "eq." ++ code); ("select", "*")] rows
  = filter (field_is "code" code) rows.
Proof.
  unfold select_rows. apply filter_ext. intros row.
  cbn. unfold field_is. now rewrite andb_true_r.
Qed.

Lemma filter_existsb_false {A : Type} (f : A -> bool) (l : list A) :
  existsb f l = false -> filter f l = [].
Proof.
  induction l as [|x l IH]; simpl; [reflexivity|].
  destruct (f x); simpl; [discriminate|exact IH].
Qed.

Lemma filter_existsb_true {A : Type} (f : A -> bool) (l : list A) :
  existsb f l = true -> exists x rest, filter f l = x :: rest.
Proof.
  induction l as [|x l IH]; simpl; [discriminate|].
  destruct (f x); simpl; [eauto|exact IH].
Qed.

Lemma filter_head_find {A : Type} (f : A -> bool) (l : list A) :
  hd_error (filter f l) = find f l.
Proof.
  induction l as [|x l IH]; simpl; [reflexivity|].
  destruct (f x); simpl; [reflexivity|exact IH].
Qed.

(** ** Replay prevention *)

(** A successful approval leaves an active membership for its invitation
    code in the store. *)
Lemma approve_success_leaves_membership
    (request : ApproveMembershipRequest) (w w' : World)
    (resp : ApproveMembershipResponse) :
  approve_membership request w = (Return resp, w') ->
  has_active_membership (invitation_code request) (store w') = true.
Proof.
  unfold approve_membership, bind at 1.
  rewrite safe_get_run.
  destruct (hd Healthy (faults w)); [|discriminate].
  destruct (select_rows _ _); [|discriminate].
  unfold bind at 1. rewrite safe_get_run. cbn [faults set_faults].
  destruct (hd Healthy (tl (faults w))); [|discriminate].
  destruct (select_rows _ _) as [|inv rest]; [discriminate|].
  destruct (negb _); [discriminate|].
  unfold token_hex, token_bytes, utcnow, bind, ret.
  rewrite safe_post_run. cbn [faults set_faults set_entropy_pos set_clock_pos].
  destruct (hd Healthy _); [|discriminate].
  destruct (response_json _ _) as [insert_result|e]; [|discriminate].
  destruct (truthy insert_result); [|discriminate].
  cbn [negb]. intros H. inversion H; subst; clear H.
  unfold has_active_membership. cbn.
  rewrite existsb_app. apply orb_true_iff. right.
  cbn. unfold active_membership_of, field_is. cbn.
  now rewrite String.eqb_refl.
Qed.

Lemma store_answers_hd2 (n : nat) (w : World) :
  store_answers (S (S n)) w = true ->
  hd Healthy (tl (faults w)) = Healthy.
Proof.
  intros Hup.
  exact (store_answers_hd _ _ (store_answers_tl _ _ Hup)).
Qed.

Arguments store_answers_hd2 : clear implicits.

(** Past the guard and the invitation check, an approval draws its
    credential and posts the membership row.  The third transport outcome
    decides whether the row is stored; the body of the store's reply then
    decides between success, the 500 of a reply that is false in Python,
    and the [json.JSONDecodeError] of a reply that is not JSON. *)
Lemma approve_commit (request : ApproveMembershipRequest) (w : World)
    (inv : Row) :
  has_active_membership (invitation_code request) (store w) = false ->
  find_invitation (invitation_code request) (store w) = Some inv ->
  is_str "onboarded" (dict_get "status" inv) = true ->
  store_answers 2 w = true ->
  approve_membership request w
  = match hd Healthy (tl (tl (faults w))) with
    | Healthy =>
        (match response_json (hd Representation (replies w))
                 (issued_row request inv w) with
         | Return insert_result =>
             if truthy insert_result
             then Return (mkApproveMembershipResponse true
                            "Membership approved."
                            ("MEMBER-" ++ upper (hex (drawn_token w)) ++ "-"
                             ++ str_of_int (drawn_timestamp w))
                            ("MEMBER-" ++ upper (hex (drawn_token w))))
             else Raise (HTTPException 500
                           "Error saving membership record.")
         | Raise e => Raise e
         end,
         mkWorld (append_row "rest/v1/memberships" (issued_row request inv w)
                    (store w))
                 (tl (tl (tl (faults w)))) (tl (replies w)) (entropy w)
                 (S (S (S (entropy_pos w)))) (clock w)
                 (S (S (clock_pos w))) (dice w) (dice_pos w) (events w))
    | Failing msg =>
        (Raise (HTTPException 500 ("Supabase error: " ++ msg)),
         mkWorld (store w) (tl (tl (tl (faults w)))) (replies w) (entropy w)
                 (S (S (S (entropy_pos w)))) (clock w)
                 (S (S (clock_pos w))) (dice w) (dice_pos w) (events w))
    end.
Proof.
  intros Hnone Hfound Honboarded Hup.
  pose proof (store_answers_hd _ _ Hup) as Hfirst.
  pose proof (store_answers_hd2 _ _ Hup) as Hsecond.
  unfold find_invitation in Hfound. rewrite <- filter_head_find in Hfound.
  unfold approve_membership, bind at 1.
  rewrite safe_get_run, Hfirst.
  cbn [collection String.eqb Ascii.eqb Bool.eqb].
  rewrite guard_query, (filter_existsb_false _ _ Hnone).
  unfold bind at 1. rewrite safe_get_run. cbn [faults set_faults store].
  rewrite Hsecond.
  cbn [collection String.eqb Ascii.eqb Bool.eqb].
  rewrite invitation_query.
  destruct (filter _ (invitations (store w))) as [|inv' rest];
    [discriminate|].
  cbn in Hfound. inversion Hfound; subst inv'.
  rewrite Honboarded. cbn [negb].
  unfold token_hex, token_bytes, utcnow, bind, ret.
  rewrite safe_post_run.
  cbn [faults set_faults set_entropy_pos set_clock_pos].
  destruct (hd Healthy (tl (tl (faults w)))); [|reflexivity].
  change (response_json _ _)
    with (response_json (hd Representation (replies w))
            (issued_row request inv w)).
  destruct (response_json _ _) as [insert_result|e]; [|reflexivity].
  destruct (truthy insert_result); reflexivity.
Qed.

Arguments approve_commit : clear implicits.

Lemma store_answers_three (v : World) :
  store_answers 3 v = true ->
  store_answers 2 v = true /\ hd Healthy (tl (tl (faults v))) = Healthy.
Proof.
  unfold store_answers.
  destruct (faults v) as [|[|m1] [|[|m2] [|[|m3] rest]]]; cbn;
    try discriminate; auto.
Qed.

Arguments store_answers_three : clear implicits.

Lemma store_answers_four (v : World) :
  store_answers 4 v = true ->
  store_answers 3 v = true
  /\ hd Healthy (tl (tl (tl (faults v)))) = Healthy.
Proof.
  unfold store_answers.
  destruct (faults v) as [|[|m1] [|[|m2] [|[|m3] [|[|m4] rest]]]]; cbn;
    try discriminate; auto.
Qed.

Arguments store_answers_four : clear implicits.

(** An approval that passes the guard and the invitation check, with the
    store answering its three requests and the insert acknowledged,
    succeeds. *)
Lemma approve_acknowledged (request : ApproveMembershipRequest) (w : World)
    (inv : Row) :
  has_active_membership (invitation_code request) (store w) = false ->
  find_invitation (invitation_code request) (store w) = Some inv ->
  is_str "onboarded" (dict_get "status" inv) = true ->
  store_answers 3 w = true ->
  insert_acknowledged w = true ->
  approve_membership request w
  = (Return (mkApproveMembershipResponse true "Membership approved."
               ("MEMBER-" ++ upper (hex (drawn_token w)) ++ "-"
                ++ str_of_int (drawn_timestamp w))
               ("MEMBER-" ++ upper (hex (drawn_token w)))),
     mkWorld (append_row "rest/v1/memberships" (issued_row request inv w)
                (store w))
             (tl (tl (tl (faults w)))) (tl (replies w)) (entropy w)
             (S (S (S (entropy_pos w)))) (clock w)
             (S (S (clock_pos w))) (dice w) (dice_pos w) (events w)).
Proof.
  intros Hnone Hfound Honboarded Hup Hack.
  destruct (store_answers_three _ Hup) as [Hup2 Hthird].
  rewrite (approve_commit request w inv Hnone Hfound Honboarded Hup2), Hthird.
  unfold insert_acknowledged in Hack.
  destruct (hd Representation (replies w)) as [|body|];
    cbn [response_json truthy]; [reflexivity| |discriminate].
  rewrite Hack. reflexivity.
Qed.

Arguments approve_acknowledged : clear implicits.

(** C1. Replay prevention: when an active membership already exists for the
    invitation code and the store answers the guard query, approval fails
    with 409 and leaves the store, the entropy source and the clock as they
    were.  Hence two approvals in sequence for the same invitation code
    give one success and one 409: when the code has no active membership
    and names an onboarded invitation, the store answers the four requests
    and acknowledges the insert, the first approval returns the issued
    credential and the second fails with 409, leaving the store as the
    first left it. *)
Theorem approve_replay_guard (request : ApproveMembershipRequest)
    (w : World) :
  (has_active_membership (invitation_code request) (store w) = true ->
   store_answers 1 w = true ->
   fst (approve_membership request w)
   = Raise (HTTPException 409
              "Membership already exists for this invitation code.")
   /\ store (snd (approve_membership request w)) = store w
   /\ entropy_pos (snd (approve_membership request w)) = entropy_pos w
   /\ clock_pos (snd (approve_membership request w)) = clock_pos w)
  /\
  (forall (inv : Row) (again : ApproveMembershipRequest),
      has_active_membership (invitation_code request) (store w) = false ->
      find_invitation (invitation_code request) (store w) = Some inv ->
      is_str "onboarded" (dict_get "status" inv) = true ->
      store_answers 4 w = true ->
      insert_acknowledged w = true ->
      invitation_code again = invitation_code request ->
      fst (approve_membership request w)
      = Return (mkApproveMembershipResponse true "Membership approved."
                  ("MEMBER-" ++ upper (hex (drawn_token w)) ++ "-"
                   ++ str_of_int (drawn_timestamp w))
                  ("MEMBER-" ++ upper (hex (drawn_token w))))
      /\ fst (approve_membership again (snd (approve_membership request w)))
         = Raise (HTTPException 409
                    "Membership already exists for this invitation code.")
      /\ store (snd (approve_membership again
                       (snd (approve_membership request w))))
         = store (snd (approve_membership request w))).
Proof.
  assert (guard : forall (rq : ApproveMembershipRequest) (v : World),
             has_active_membership (invitation_code rq) (store v) = true ->
             store_answers 1 v = true ->
             approve_membership rq v
             = (Raise (HTTPException 409
                  "Membership already exists for this invitation code."),
                set_faults (tl (faults v)) v)).
  { intros rq v Hactive Hup.
    unfold approve_membership, bind at 1.
    rewrite safe_get_run, (store_answers_hd _ _ Hup).
    cbn [collection String.eqb Ascii.eqb Bool.eqb].
    rewrite guard_query.
    destruct (filter_existsb_true _ _ Hactive) as (row & rest & ->).
    reflexivity. }
  split.
  - intros Hactive Hup. rewrite (guard request w Hactive Hup).
    repeat split.
  - intros inv again Hnone Hfound Honboarded Hup Hack Hsame.
    destruct (store_answers_four w Hup) as [Hup3 Hfourth].
    pose proof (approve_acknowledged request w inv Hnone Hfound Honboarded
                  Hup3 Hack) as Hfirst.
    pose proof (approve_success_leaves_membership _ _ Hfirst) as Hactive.
    rewrite <- Hsame in Hactive.
    rewrite Hfirst. cbn [fst snd]. split; [reflexivity|].
    rewrite (guard again _ Hactive).
    + split; reflexivity.
    + unfold store_answers. cbn [faults].
      destruct (tl (tl (tl (faults w)))) as [|t rest]; [reflexivity|].
      cbn in Hfourth. subst t. reflexivity.
Qed.

(** ** Approval preconditions *)

(** With no active membership and both queries answered, approval ends at
    the invitation check unless an onboarded invitation is found, and has
    then only consumed the two transport outcomes. *)
Lemma approve_precondition_run (request : ApproveMembershipRequest)
    (w : World) :
  has_active_membership (invitation_code request) (store w) = false ->
  store_answers 2 w = true ->
  (find_invitation (invitation_code request) (store w) = None ->
   approve_membership request w
   = (Raise (HTTPException 404 "Invitation not found."),
      set_faults (tl (tl (faults w))) w))
  /\
  (forall inv : Row,
      find_invitation (invitation_code request) (store w) = Some inv ->
      is_str "onboarded" (dict_get "status" inv) = false ->
      approve_membership request w
      = (Raise (HTTPException 400 "Invitation not onboarded yet."),
         set_faults (tl (tl (faults w))) w)).
Proof.
  intros Hnone Hup.
  pose proof (store_answers_hd _ _ Hup) as Hfirst.
  pose proof (store_answers_hd _ _ (store_answers_tl _ _ Hup)) as Hsecond.
  cbn [faults set_faults] in Hsecond.
  assert (Hstart : forall k : list Row -> M ApproveMembershipResponse,
             bind (safe_get_from_supabase "rest/v1/memberships"
                     [("invitation_code", "eq." ++ invitation_code request);
                      ("active", "eq.true")]) k w
             = k [] (set_faults (tl (faults w)) w)).
  { intros k. unfold bind. rewrite safe_get_run, Hfirst.
    cbn [collection String.eqb Ascii.eqb Bool.eqb].
    rewrite guard_query, (filter_existsb_false _ _ Hnone). reflexivity. }
  unfold find_invitation. rewrite <- filter_head_find.
  split.
  - intros Habsent. unfold approve_membership. rewrite Hstart.
    unfold bind. rewrite safe_get_run. cbn [faults set_faults store].
    rewrite Hsecond.
    cbn [collection String.eqb Ascii.eqb Bool.eqb].
    rewrite invitation_query.
    destruct (filter _ (invitations (store w))); [reflexivity|discriminate].
  - intros inv Hfound Hstatus. unfold approve_membership. rewrite Hstart.
    unfold bind. rewrite safe_get_run. cbn [faults set_faults store].
    rewrite Hsecond.
    cbn [collection String.eqb Ascii.eqb Bool.eqb].
    rewrite invitation_query.
    destruct (filter _ (invitations (store w))) as [|inv' rest];
      [discriminate|].
    cbn in Hfound. inversion Hfound; subst inv'.
    rewrite Hstatus. reflexivity.
Qed.

(** C2. Approval precondition and atomicity on error: with no active
    membership for the invitation code and the store answering, approval
    fails with 404 when the invitation is absent and with 400 when its
    status is not [onboarded]; in both cases the store is unchanged (no
    membership is created) and neither the entropy source nor the clock has
    been read (no code or key is generated). *)
Theorem approve_precondition (request : ApproveMembershipRequest)
    (w : World) :
  has_active_membership (invitation_code request) (store w) = false ->
  store_answers 2 w = true ->
  match find_invitation (invitation_code request) (store w) with
  | None =>
      fst (approve_membership request w)
      = Raise (HTTPException 404 "Invitation not found.")
      /\ store (snd (approve_membership request w)) = store w
      /\ entropy_pos (snd (approve_membership request w)) = entropy_pos w
      /\ clock_pos (snd (approve_membership request w)) = clock_pos w
  | Some inv =>
      is_str "onboarded" (dict_get "status" inv) = false ->
      fst (approve_membership request w)
      = Raise (HTTPException 400 "Invitation not onboarded yet.")
      /\ store (snd (approve_membership request w)) = store w
      /\ entropy_pos (snd (approve_membership request w)) = entropy_pos w
      /\ clock_pos (snd (approve_membership request w)) = clock_pos w
  end.
Proof.
  intros Hnone Hup.
  destruct (approve_precondition_run request w Hnone Hup) as [Habsent Hstate].
  destruct (find_invitation (invitation_code request) (store w)) as [inv|].
  - intros Hstatus. rewrite (Hstate inv eq_refl Hstatus). repeat split.
  - rewrite (Habsent eq_refl). repeat split.
Qed.

(** ** Key validation *)

Lemma validate_query (k : string) (rows : list Row) :
  select_rows [("membership_code", "eq." ++ k); ("status", "eq.active")] rows
  = filter (fun row => field_is "membership_code" k row
                       && field_is "status" "active" row) rows.
Proof.
  unfold select_rows. apply filter_ext. intros row.
  cbn. unfold field_is. now rewrite andb_true_r.
Qed.

Lemma validate_key_run (request : ValidateKeyRequest) (w : World) :
  store_answers 1 w = true ->
  fst (validate_key request w)
  = if existsb (fun row => field_is "membership_code" (key request) row
                           && field_is "status" "active" row)
               (memberships (store w))
    then Return (mkValidateKeyResponse true (key request))
    else Raise (HTTPException 404 "Invalid membership key").
Proof.
  intros Hup. unfold validate_key, bind.
  rewrite safe_get_run, (store_answers_hd _ _ Hup).
  cbn [collection String.eqb Ascii.eqb Bool.eqb].
  rewrite validate_query.
  destruct (existsb _ _) eqn:Hany.
  - destruct (filter_existsb_true _ _ Hany) as (row & rest & ->).
    reflexivity.
  - rewrite (filter_existsb_false _ _ Hany). reflexivity.
Qed.

(** C3, as the code has it.  On a store whose membership rows carry the
    status [active] exactly when their [active] flag is set, and which
    answers the query, [/validate-key] returns valid when at least one
    active membership has the presented key as its [membership_code], and
    404 when none has; several matches are accepted like one. *)
Theorem validate_key_some_match (request : ValidateKeyRequest) (w : World) :
  status_consistent (store w) = true ->
  store_answers 1 w = true ->
  fst (validate_key request w)
  = if existsb (active_member_with_code (key request))
               (memberships (store w))
    then Return (mkValidateKeyResponse true (key request))
    else Raise (HTTPException 404 "Invalid membership key").
Proof.
  intros Hcons Hup. rewrite (validate_key_run _ _ Hup).
  unfold status_consistent in Hcons. rewrite forallb_forall in Hcons.
  replace (existsb (active_member_with_code (key request))
                   (memberships (store w)))
    with (existsb (fun row => field_is "membership_code" (key request) row
                              && field_is "status" "active" row)
                  (memberships (store w))); [reflexivity|].
  induction (memberships (store w)) as [|row rows IH]; [reflexivity|].
  cbn [existsb]. rewrite IH by (intros r Hr; apply Hcons; now right).
  unfold active_member_with_code.
  rewrite (eqb_prop _ _ (Hcons row (or_introl eq_refl))). reflexivity.
Qed.

(** ** Onboarding *)

(** X29. Submitting onboarding responses never touches the invitations
    or the memberships, whatever the request and the world. *)
Lemma submit_onboarding_keeps_invitations (request : OnboardingRequest)
    (w : World) :
  invitations (store (snd (submit_onboarding request w)))
  = invitations (store w)
  /\ memberships (store (snd (submit_onboarding request w)))
     = memberships (store w).
Proof.
  unfold submit_onboarding, bind. rewrite safe_get_run.
  destruct (hd Healthy (faults w)); [|split; reflexivity].
  destruct (select_rows _ _); [split; reflexivity|].
  rewrite safe_post_run. cbn [faults set_faults].
  destruct (hd Healthy (tl (faults w))); [|split; reflexivity].
  destruct (response_json _ _); split; reflexivity.
Qed.

(** ** Credentials *)

Lemma unhex_byte (b : byte) :
  Byte.of_N (16 * hex_value (upper_ascii (hex_digit (Byte.to_N b / 16)))
             + hex_value (upper_ascii (hex_digit (Byte.to_N b mod 16))))
  = Some b.
Proof. destruct b; vm_compute; reflexivity. Qed.

Lemma upper_hex_digits (b : byte) :
  is_upper_hex (upper_ascii (hex_digit (Byte.to_N b / 16))) = true
  /\ is_upper_hex (upper_ascii (hex_digit (Byte.to_N b mod 16))) = true.
Proof. destruct b; vm_compute; split; reflexivity. Qed.

(** Reading back the upper-cased hexadecimal form of some bytes gives the
    bytes. *)
Lemma unhex_upper_hex (bs : list byte) : unhex (upper (hex bs)) = Some bs.
Proof.
  induction bs as [|b bs IH]; [reflexivity|].
  cbn [hex hex_of_byte append upper unhex].
  now rewrite unhex_byte, IH.
Qed.

Lemma upper_hex_inj (bs bs' : list byte) :
  upper (hex bs) = upper (hex bs') -> bs = bs'.
Proof.
  intros H. apply (f_equal unhex) in H.
  rewrite !unhex_upper_hex in H. congruence.
Qed.

Lemma upper_hex_shape (bs : list byte) :
  String.length (upper (hex bs)) = (2 * List.length bs)%nat
  /\ string_forallb is_upper_hex (upper (hex bs)) = true.
Proof.
  induction bs as [|b bs [IHlen IHhex]]; [split; reflexivity|].
  cbn [hex hex_of_byte append upper String.length string_forallb List.length].
  destruct (upper_hex_digits b) as [-> ->]. rewrite IHlen, IHhex.
  split; [lia|reflexivity].
Qed.

Lemma to_int_not_nil (n : Z) :
  Z.to_int n <> Decimal.Pos Decimal.Nil
  /\ Z.to_int n <> Decimal.Neg Decimal.Nil.
Proof.
  destruct n as [|p|p]; cbn; split; try discriminate;
    intros H; injection H as H; now apply Unsigned.to_uint_nonnil in H.
Qed.

(** Distinct integers print differently. *)
Lemma str_of_int_inj (a b : Z) : str_of_int a = str_of_int b -> a = b.
Proof.
  unfold str_of_int. intros H.
  apply (f_equal NilZero.int_of_string) in H.
  destruct (to_int_not_nil a) as [Ha1 Ha2].
  destruct (to_int_not_nil b) as [Hb1 Hb2].
  rewrite !NilZero.isi in H by assumption.
  injection H as H. apply (f_equal Z.of_int) in H.
  now rewrite !DecimalZ.of_to in H.
Qed.

Lemma append_inj_length (a b x y : string) :
  String.length a = String.length b ->
  (a ++ x = b ++ y)%string -> a = b /\ x = y.
Proof.
  revert b. induction a as [|c a IH]; intros [|d b] Hlen Heq;
    cbn in *; try discriminate.
  - now split.
  - injection Heq as -> Heq. injection Hlen as Hlen.
    destruct (IH b Hlen Heq) as [-> ->]. now split.
Qed.

(** What a successful approval returns is fixed by the three bytes and the
    clock reading it drew. *)
Lemma approve_success_credentials (request : ApproveMembershipRequest)
    (w w' : World) (resp : ApproveMembershipResponse) :
  approve_membership request w = (Return resp, w') ->
  membership_code resp = "MEMBER-" ++ upper (hex (drawn_token w))
  /\ membership_key resp
     = membership_code resp ++ "-" ++ str_of_int (drawn_timestamp w).
Proof.
  unfold approve_membership, bind at 1.
  rewrite safe_get_run.
  destruct (hd Healthy (faults w)); [|discriminate].
  destruct (select_rows _ _); [|discriminate].
  unfold bind at 1. rewrite safe_get_run. cbn [faults set_faults].
  destruct (hd Healthy (tl (faults w))); [|discriminate].
  destruct (select_rows _ _) as [|inv rest]; [discriminate|].
  destruct (negb _); [discriminate|].
  unfold token_hex, token_bytes, utcnow, bind, ret.
  rewrite safe_post_run. cbn [faults set_faults set_entropy_pos set_clock_pos].
  destruct (hd Healthy _); [|discriminate].
  destruct (response_json _ _) as [insert_result|e]; [|discriminate].
  destruct (truthy insert_result); [|discriminate].
  cbn [truthy negb]. intros H. inversion H; subst; clear H.
  split; reflexivity.
Qed.

(** C5, as the code has it.  A successful approval returns a code
    [MEMBER-] followed by six upper-case hexadecimal digits and a key made
    of the code, a dash and the issuance timestamp in decimal; two
    approvals return the same key only if they drew the same three random
    bytes and the same timestamp. *)
Theorem approve_credential_shape (request : ApproveMembershipRequest)
    (w w' : World) (resp : ApproveMembershipResponse) :
  approve_membership request w = (Return resp, w') ->
  (exists digits : string,
      membership_code resp = "MEMBER-" ++ digits
      /\ String.length digits = 6%nat
      /\ string_forallb is_upper_hex digits = true)
  /\ membership_key resp
     = membership_code resp ++ "-" ++ str_of_int (drawn_timestamp w)
  /\ (forall (request2 : ApproveMembershipRequest) (w2 w2' : World)
             (resp2 : ApproveMembershipResponse),
         approve_membership request2 w2 = (Return resp2, w2') ->
         membership_key resp2 = membership_key resp ->
         drawn_token w2 = drawn_token w
         /\ drawn_timestamp w2 = drawn_timestamp w).
Proof.
  intros Hok.
  destruct (approve_success_credentials _ _ Hok) as [Hcode Hkey].
  split; [|split; [exact Hkey|]].
  - exists (upper (hex (drawn_token w))).
    destruct (upper_hex_shape (drawn_token w)) as [Hlen Hhex].
    repeat split; assumption.
  - intros request2 w2 w2' resp2 Hok2 Hsame.
    destruct (approve_success_credentials _ _ Hok2) as [Hcode2 Hkey2].
    rewrite Hkey, Hkey2, Hcode, Hcode2 in Hsame.
    pose proof (proj1 (upper_hex_shape (drawn_token w))) as Hlen.
    pose proof (proj1 (upper_hex_shape (drawn_token w2))) as Hlen2.
    apply append_inj_length in Hsame.
    + destruct Hsame as [Hprefix Hts].
      apply append_inj_length in Hprefix; [|reflexivity].
      split; [apply upper_hex_inj, Hprefix|].
      injection Hts as Hts. now apply str_of_int_inj.
    + cbn [append String.length]. now rewrite Hlen, Hlen2.
Qed.

(** ** The chat endpoint behind a bearer key *)

Lemma gpt_chat_anonymous (request : ChatRequest) (w : World) :
  fst (gpt_chat request None w)
  = Return [("response",
             JStr (nth (dice w (dice_pos w)
                        mod List.length anonymous_responses)
                     anonymous_responses ""))].
Proof. reflexivity. Qed.

(** C10. A bearer key for which the validator returns nothing is treated
    like no key at all: [get_current_user] returns [None], and the route
    answers 200 with the very response an unauthenticated request gets, one
    of the anonymous texts; it never answers 401. *)
Theorem unknown_bearer_served_anonymously (supabase : SupabaseClient)
    (k : string) (request : ChatRequest) (w : World) :
  supabase_validate_key supabase (store w) (JStr k) = Return None ->
  fst (get_current_user supabase (Some k) w) = Return None
  /\ fst (gpt_chat_route supabase (Some k) request w)
     = fst (gpt_chat_route supabase None request w)
  /\ http_status (fst (gpt_chat_route supabase (Some k) request w)) = 200%Z
  /\ exists text : string,
       In text anonymous_responses
       /\ fst (gpt_chat_route supabase (Some k) request w)
          = Return [("response", JStr text)].
Proof.
  intros Hnone.
  assert (Huser : get_current_user supabase (Some k) w
                  = (Return None, log_event (ValidatorCalled (JStr k)) w)).
  { unfold get_current_user, call_validate_key, try_except, bind.
    now rewrite Hnone. }
  assert (Hroute : fst (gpt_chat_route supabase (Some k) request w)
                   = Return [("response",
                              JStr (nth (dice w (dice_pos w)
                                         mod List.length anonymous_responses)
                                      anonymous_responses ""))]).
  { unfold gpt_chat_route, bind. rewrite Huser. reflexivity. }
  rewrite Huser, Hroute.
  split; [reflexivity|]. split; [reflexivity|]. split; [reflexivity|].
  eexists. split; [|reflexivity].
  apply nth_In, Nat.mod_upper_bound. discriminate.
Qed.

(** ** Broadcast *)

(** A send that fails inside the critical section of [broadcast] suspends
    the loop for good: [disconnect] waits for the lock [broadcast] holds. *)
Lemma broadcast_loop_blocks (message : Json) (exclude : option string)
    (snapshot : list (string * WebSocket)) (g : Gateway) :
  locked g = true ->
  existsb (fun entry => addressed exclude entry && ws_broken (snd entry))
          snapshot = true ->
  exists g' : Gateway,
    broadcast_loop message exclude snapshot g = Blocked g'
    /\ locked g' = true
    /\ active_connections g' = active_connections g.
Proof.
  revert g. induction snapshot as [|[client_id connection] rest IH];
    intros g Hlocked Hbroken; [discriminate|].
  cbn [existsb snd] in Hbroken. unfold addressed at 1 in Hbroken.
  cbn [fst] in Hbroken. cbn [broadcast_loop]. unfold gbind.
  destruct (match exclude with
            | Some x => negb (String.eqb client_id x)
            | None => true
            end) eqn:Hincluded.
  - unfold gtry, send_text.
    destruct (ws_broken connection) eqn:Hconn.
    + unfold disconnect, with_lock. rewrite Hlocked. eauto.
    + cbn [andb orb] in Hbroken.
      destruct (IH (set_world (log_event (Sent (ws_id connection) message)
                                 (world g)) g) Hlocked Hbroken)
        as (g' & Hrun & Hl & Hc).
      exists g'. now rewrite Hrun.
  - cbn [andb orb] in Hbroken. unfold gret.
    destruct (IH g Hlocked Hbroken) as (g' & Hrun & Hl & Hc).
    exists g'. now rewrite Hrun.
Qed.

(** X28. Whenever a connection that is not excluded fails, [broadcast]
    never returns and removes nothing from the registry. *)
Lemma broadcast_blocks_on_failure (message : Json) (exclude : option string)
    (g : Gateway) :
  locked g = false ->
  existsb (fun entry => addressed exclude entry && ws_broken (snd entry))
          (active_connections g) = true ->
  exists g' : Gateway,
    broadcast message exclude g = Blocked g'
    /\ locked g' = true
    /\ active_connections g' = active_connections g.
Proof.
  intros Hfree Hbroken. unfold broadcast, with_lock. rewrite Hfree.
  destruct (broadcast_loop_blocks message exclude (active_connections g)
              (set_locked true g) eq_refl Hbroken) as (g' & Hrun & Hl & Hc).
  cbv beta. change (active_connections g)
    with (active_connections (set_locked true g)) in Hrun.
  rewrite Hrun. eauto.
Qed.

(** Over working connections the loop of [broadcast] sends the message to
    every addressed entry of the snapshot, in order, and returns. *)
Lemma broadcast_loop_healthy (message : Json) (exclude : option string)
    (snapshot : list (string * WebSocket)) (g : Gateway) :
  forallb (fun entry => negb (ws_broken (snd entry))) snapshot = true ->
  exists g' : Gateway,
    broadcast_loop message exclude snapshot g = Done tt g'
    /\ events (world g')
       = (events (world g)
          ++ map (fun entry => Sent (ws_id (snd entry)) message)
                 (filter (addressed exclude) snapshot))%list
    /\ active_connections g' = active_connections g
    /\ locked g' = locked g.
Proof.
  revert g. induction snapshot as [|[client_id connection] rest IH];
    intros g Hworking.
  - exists g. cbn. now rewrite app_nil_r.
  - cbn [forallb snd] in Hworking. apply andb_true_iff in Hworking.
    destruct Hworking as [Hconn Hrest]. apply negb_true_iff in Hconn.
    cbn [broadcast_loop filter]. unfold gbind, addressed at 1. cbn [fst].
    destruct (match exclude with
              | Some x => negb (String.eqb client_id x)
              | None => true
              end).
    + unfold gtry, send_text. rewrite Hconn.
      destruct (IH (set_world (log_event (Sent (ws_id connection) message)
                                 (world g)) g) Hrest)
        as (g' & Hrun & Hevents & Hconns & Hlock).
      exists g'. rewrite Hrun. repeat split; try assumption.
      rewrite Hevents. cbn [world set_world events log_event map snd].
      now rewrite <- app_assoc.
    + unfold gret. apply IH, Hrest.
Qed.

(** X27. With the lock free and every connection working, [broadcast]
    delivers to all addressed sessions, in registry order and to no one
    excluded, returns, and leaves registry and lock as they were. *)
Lemma broadcast_all_healthy (message : Json) (exclude : option string)
    (g : Gateway) :
  locked g = false ->
  forallb (fun entry => negb (ws_broken (snd entry)))
          (active_connections g) = true ->
  exists g' : Gateway,
    broadcast message exclude g = Done tt g'
    /\ events (world g')
       = (events (world g)
          ++ map (fun entry => Sent (ws_id (snd entry)) message)
                 (filter (addressed exclude) (active_connections g)))%list
    /\ active_connections g' = active_connections g
    /\ locked g' = false.
Proof.
  intros Hfree Hworking. unfold broadcast, with_lock. rewrite Hfree.
  destruct (broadcast_loop_healthy message exclude (active_connections g)
              (set_locked true g) Hworking)
    as (g' & Hrun & Hevents & Hconns & Hlock).
  cbv beta. change (active_connections g)
    with (active_connections (set_locked true g)) in Hrun.
  rewrite Hrun. exists (set_locked false g'). repeat split; assumption.
Qed.

(** ** Chat before authentication *)

(** C9. A [chat_message] on a registered session that holds no token, over
    a working connection, has exactly one effect: the frame
    [{"type": "error", "payload": {"error": "Authentication required"}}] is
    sent to that session.  No validator or responder call is logged, the
    registry and the lock are as before, the session still holds no token
    and its loop goes on. *)
Theorem unauthenticated_chat_rejected (supabase : SupabaseClient)
    (client_id : string) (message : Json) (websocket : WebSocket)
    (g : Gateway) :
  message_get "type" message = Return (Some (JStr "chat_message")) ->
  dict_get client_id (active_connections g) = Some websocket ->
  ws_broken websocket = false ->
  ws_message supabase client_id None (Text (Some message)) g
  = Done None
      (set_world
         (log_event
            (Sent (ws_id websocket)
               (envelope "error"
                  [("error", JStr "Authentication required")]))
            (world g)) g).
Proof.
  intros Htype Hregistered Halive.
  unfold ws_message, ws_turn, gtry, gbind, lift, of_result. rewrite Htype.
  cbn [is_str String.eqb Ascii.eqb Bool.eqb].
  unfold send_personal_message, gtry, send_text.
  cbn [active_connections set_world world].
  rewrite Hregistered, Halive. reflexivity.
Qed.

(** ** Session tokens *)

(** A personal message either returns or is suspended in [disconnect]; it
    never raises. *)
Lemma send_personal_message_outcome (message : Json) (client_id : string)
    (g : Gateway) :
  (exists g' : Gateway, send_personal_message message client_id g = Done tt g')
  \/ (exists g' : Gateway,
         send_personal_message message client_id g = Blocked g').
Proof.
  unfold send_personal_message.
  destruct (dict_get client_id (active_connections g)) as [websocket|];
    [|left; eauto].
  unfold gtry, send_text. destruct (ws_broken websocket); [|left; eauto].
  unfold disconnect, with_lock. destruct (locked g); [right; eauto|].
  destruct (dict_mem _ _); left; eauto.
Qed.

Lemma send_personal_message_store (message : Json) (client_id : string)
    (g g' : Gateway) :
  send_personal_message message client_id g = Done tt g' ->
  store (world g') = store (world g).
Proof.
  unfold send_personal_message.
  destruct (dict_get client_id (active_connections g)) as [websocket|];
    [|now intros [= <-]].
  unfold gtry, send_text. destruct (ws_broken websocket);
    [|now intros [= <-]].
  unfold disconnect, with_lock. destruct (locked g); [discriminate|].
  destruct (dict_mem _ _); now intros [= <-].
Qed.

Lemma send_then_continue {A : Type} (message : Json) (client_id : string)
    (x a : A) (g g' : Gateway) :
  (send_personal_message message client_id ~> gret x) g = Done a g' ->
  a = x /\ store (world g') = store (world g).
Proof.
  unfold gbind, gret.
  destruct (send_personal_message_outcome message client_id g)
    as [[g1 Hsend]|[g1 Hsend]]; rewrite Hsend; [|discriminate].
  intros [= <- <-]. split; [reflexivity|].
  now apply send_personal_message_store in Hsend.
Qed.

Lemma process_chat_message_store (supabase : SupabaseClient)
    (content tok : Json) (w : World) :
  store (snd (process_chat_message supabase content tok w)) = store w.
Proof.
  unfold process_chat_message, try_except, bind at 1, call_validate_key.
  destruct (supabase_validate_key supabase (store w) tok) as [[d|]|e];
    try reflexivity.
  destruct (ud_valid d); [|reflexivity].
  destruct content; try reflexivity.
  cbn [negb make_ChatRequest]. unfold bind at 1, of_result at 1.
  unfold bind at 1, gpt_chat, try_except, bind at 2.
  destruct (ud_user_name d); reflexivity.
Qed.

(** Closes a goal about a turn that ends by sending a frame. *)
Ltac after_send :=
  let H := fresh "Hsend" in
  intros H; apply send_then_continue in H; exact H.

(** The chat processor catches whatever is raised inside it. *)
Lemma process_chat_message_returns (supabase : SupabaseClient)
    (content tok : Json) (w : World) :
  exists payload : Row,
    fst (process_chat_message supabase content tok w) = Return payload.
Proof.
  unfold process_chat_message, try_except, bind at 1, call_validate_key.
  destruct (supabase_validate_key supabase (store w) tok) as [[d|]|e];
    try (eexists; reflexivity).
  destruct (ud_valid d); [|eexists; reflexivity].
  destruct content; try (eexists; reflexivity).
  cbn [negb make_ChatRequest]. unfold bind at 1, of_result at 1.
  unfold bind at 1, gpt_chat, try_except, bind at 2.
  destruct (ud_user_name d); eexists; reflexivity.
Qed.

(** The body of a turn returns: the token after it, and the store, which
    the loop never writes. *)
Lemma ws_turn_step (supabase : SupabaseClient) (client_id : string)
    (auth_token : option Json) (frame : Inbound) (g g' : Gateway)
    (a : option Json) :
  ws_turn supabase client_id auth_token frame g = Done a g' ->
  a = match accepted_auth supabase (store (world g)) frame with
      | Some t => Some t
      | None => auth_token
      end
  /\ store (world g') = store (world g).
Proof.
  destruct frame as [|[message|]]; cbn [ws_turn accepted_auth].
  - discriminate.
  - unfold gbind at 1, lift at 1, of_result at 1.
    destruct (message_get "type" message) as [type|e]; [|discriminate].
    destruct (is_str "auth" type) eqn:Hauth; cbn [andb].
    + unfold gbind at 1, lift at 1, of_result at 1.
      cbn [world set_world].
      destruct (payload_get "token" message) as [[t|]|e];
        [| after_send | discriminate].
      destruct (truthy t); [|after_send].
      unfold gbind at 1, lift at 1, call_validate_key at 1.
      cbn [world set_world].
      destruct (supabase_validate_key supabase (store (world g)) t)
        as [[d|]|e]; [| after_send | discriminate].
      destruct (ud_valid d); [|after_send].
      destruct (ud_user_name d); [after_send|discriminate].
    + destruct (payload_get "token" message) as [[t|]|e].
      all: destruct (is_str "chat_message" type).
      all: try (intros [= <- <-]; split; reflexivity).
      all: destruct auth_token as [tok|]; try after_send.
      all: destruct (truthy tok); cbn [negb]; try after_send.
      all: unfold gbind at 1, lift at 1, of_result at 1.
      all: destruct (payload_get "content" message) as [[c|]|?];
        try discriminate; try (intros [= <- <-]; split; reflexivity).
      all: destruct (truthy c);
        try (intros [= <- <-]; split; reflexivity).
      all: unfold gbind at 1, lift at 1; cbn [world set_world].
      all: pose proof (process_chat_message_store supabase c tok (world g))
        as Hstore.
      all: destruct (process_chat_message supabase c tok (world g))
        as [[response|?] w1]; try discriminate.
      all: intros Hsend; apply send_then_continue in Hsend.
      all: destruct Hsend as [-> Hsend]; split; [reflexivity|].
      all: cbn [world set_world snd] in *; congruence.
  - discriminate.
Qed.

(** Discards a goal in which a turn that ends by sending a frame is
    supposed to have raised. *)
Ltac no_raise_after_send :=
  let H := fresh "Hraised" in
  intros H; exfalso; revert H; unfold gbind, gret;
  match goal with
  | |- context [send_personal_message ?m ?c ?G] =>
      destruct (send_personal_message_outcome m c G) as [[? ->]|[? ->]]
  end; discriminate.

(** Closes a goal about a turn that raises where it stands, having logged
    [new]. *)
Ltac raised_here new :=
  let H := fresh "Hraised" in
  let He := fresh "Hdecode" in
  intros H; cbv beta iota delta [graise] in H; injection H as <- <-;
  split; [reflexivity|]; split; [reflexivity|]; split; [reflexivity|];
  split;
  [ exists new; split;
    [ cbn [world set_world events log_event]; rewrite ?app_nil_r; reflexivity
    | reflexivity ]
  | intros He; first [reflexivity | discriminate He] ].

(** The body of a turn raises: it has sent nothing and has left lock,
    registry and store alone; and when what it raises is
    [json.JSONDecodeError], the frame was no accepted [auth]. *)
Lemma ws_turn_raised (supabase : SupabaseClient) (client_id : string)
    (auth_token : option Json) (frame : Inbound) (g g1 : Gateway)
    (e : Exn) :
  ws_turn supabase client_id auth_token frame g = Raised e g1 ->
  locked g1 = locked g
  /\ active_connections g1 = active_connections g
  /\ store (world g1) = store (world g)
  /\ (exists new : list Event,
         events (world g1) = (events (world g) ++ new)%list
         /\ existsb is_sent new = false)
  /\ (e = JSONDecodeError ->
      accepted_auth supabase (store (world g)) frame = None).
Proof.
  destruct frame as [|[message|]]; cbn [ws_turn accepted_auth].
  - raised_here (@nil Event).
  - unfold gbind at 1, lift at 1, of_result at 1.
    destruct (message_get "type" message) as [type|e0];
      [|raised_here (@nil Event)].
    destruct (is_str "auth" type) eqn:Hauth; cbn [andb].
    + unfold gbind at 1, lift at 1, of_result at 1.
      cbn [world set_world].
      destruct (payload_get "token" message) as [[t|]|e0];
        [| no_raise_after_send | raised_here (@nil Event)].
      destruct (truthy t); [|no_raise_after_send].
      unfold gbind at 1, lift at 1, call_validate_key at 1.
      cbn [world set_world].
      destruct (supabase_validate_key supabase (store (world g)) t)
        as [[d|]|e0];
        [| no_raise_after_send | raised_here [ValidatorCalled t]].
      destruct (ud_valid d); [|no_raise_after_send].
      destruct (ud_user_name d);
        [no_raise_after_send|raised_here [ValidatorCalled t]].
    + destruct (payload_get "token" message) as [[t|]|e0].
      all: destruct (is_str "chat_message" type); [|discriminate].
      all: destruct auth_token as [tok|]; [|no_raise_after_send].
      all: destruct (truthy tok); cbn [negb]; [|no_raise_after_send].
      all: unfold gbind at 1, lift at 1, of_result at 1.
      all: destruct (payload_get "content" message) as [[c|]|e1];
        [| discriminate | raised_here (@nil Event)].
      all: destruct (truthy c); [|discriminate].
      all: unfold gbind at 1, lift at 1; cbn [world set_world].
      all: destruct (process_chat_message_returns supabase c tok (world g))
        as [payload Hreturns].
      all: destruct (process_chat_message supabase c tok (world g))
        as [r w1]; cbn [fst] in Hreturns; subst r.
      all: no_raise_after_send.
  - raised_here (@nil Event).
Qed.

(** One turn of the session loop: the token the next turn starts with, and
    the store, which the loop never writes. *)
Lemma ws_message_step (supabase : SupabaseClient) (client_id : string)
    (auth_token : option Json) (frame : Inbound) (g g' : Gateway)
    (a : option Json) :
  ws_message supabase client_id auth_token frame g = Done a g' ->
  a = match accepted_auth supabase (store (world g)) frame with
      | Some t => Some t
      | None => auth_token
      end
  /\ store (world g') = store (world g).
Proof.
  unfold ws_message, gtry.
  destruct (ws_turn supabase client_id auth_token frame g)
    as [a0 g0|e g1|g1] eqn:Hturn.
  - intros [= <- <-]. exact (ws_turn_step _ _ _ _ _ Hturn).
  - destruct (ws_turn_raised _ _ _ _ _ Hturn)
      as (_ & _ & Hstore & _ & Hnone).
    destruct e; try discriminate.
    intros Hsend. apply send_then_continue in Hsend.
    destruct Hsend as [-> Hsend]. rewrite (Hnone eq_refl).
    split; [reflexivity|congruence].
  - discriminate.
Qed.

(** C6, as the code has it.  Over any run of the session loop, the token
    the session holds at the end is the key of the last [auth] message the
    validator accepted, and the token it started with when there was none:
    messages other than an accepted [auth] never change the bound token,
    and an accepted [auth] rebinds the session, whatever it held before. *)
Theorem token_changes_on_accepted_auth (supabase : SupabaseClient)
    (client_id : string) (frames : list Inbound)
    (auth_token : option Json) (g g' : Gateway) (a : option Json) :
  ws_loop supabase client_id auth_token frames g = Done a g' ->
  a = fold_left
        (fun held frame =>
           match accepted_auth supabase (store (world g)) frame with
           | Some t => Some t
           | None => held
           end)
        frames auth_token.
Proof.
  revert auth_token g.
  induction frames as [|frame frames IH]; intros auth_token g.
  - cbn. now intros [= <- _].
  - cbn [ws_loop fold_left]. unfold gbind at 1.
    destruct (ws_message supabase client_id auth_token frame g)
      as [a1 g1| |] eqn:Hstep; try discriminate.
    destruct (ws_message_step _ _ _ _ _ Hstep) as [-> Hstore].
    intros Hrest. apply IH in Hrest. now rewrite Hstore in Hrest.
Qed.

(** ** Chat on an authenticated session *)

(** Processing a chat message always returns a payload, calls the
    validator first and exactly once, and answers with the token error
    when the validator rejects the cached token. *)
Lemma process_chat_message_run (supabase : SupabaseClient)
    (content tok : Json) (w : World) :
  exists (payload : Row) (mid : list Event) (w' : World),
    process_chat_message supabase content tok w = (Return payload, w')
    /\ events w' = (events w ++ ValidatorCalled tok :: mid)%list
    /\ existsb is_validator_call mid = false
    /\ (rejected supabase (store w) tok = true ->
        mid = []
        /\ payload = [("error", JStr "Invalid authentication token")]).
Proof.
  unfold process_chat_message, rejected, try_except, bind at 1,
    call_validate_key.
  destruct (supabase_validate_key supabase (store w) tok) as [[d|]|e].
  - destruct (ud_valid d) eqn:Hvalid; cbn [negb].
    + destruct content as [| | |s| |];
        try (exists [("error", JStr "Failed to process message")], [];
             eexists; repeat split; discriminate).
      cbn [make_ChatRequest]. unfold bind at 1, of_result at 1.
      unfold bind at 1, gpt_chat, try_except, bind at 2.
      destruct (ud_user_name d) as [name|].
      * exists [("error", JStr "Failed to process message")],
               [ResponderCalled s (Some d)].
        eexists. split; [reflexivity|]. cbn [events log_event set_dice_pos].
        rewrite <- app_assoc. repeat split; discriminate.
      * exists [("error", JStr "Failed to process message")],
               [ResponderCalled s (Some d)].
        eexists. split; [reflexivity|]. cbn [events log_event].
        rewrite <- app_assoc. repeat split; discriminate.
    + exists [("error", JStr "Invalid authentication token")], [].
      eexists. repeat split.
  - exists [("error", JStr "Invalid authentication token")], [].
    eexists. repeat split.
  - exists [("error", JStr "Failed to process message")], [].
    eexists. repeat split; discriminate.
Qed.

(** C7, as the code has it.  On a registered session that holds a token,
    over a working connection, every [chat_message] with content calls the
    credential validator again with the held token, once and before
    anything else, and ends with one [chat_response] frame to that session;
    the session keeps its token.  When the validator no longer vouches for
    the token, nothing else happens and the frame carries the error
    [Invalid authentication token]. *)
Theorem chat_message_revalidates (supabase : SupabaseClient)
    (client_id : string) (tok message content : Json)
    (websocket : WebSocket) (g : Gateway) :
  truthy tok = true ->
  message_get "type" message = Return (Some (JStr "chat_message")) ->
  payload_get "content" message = Return (Some content) ->
  truthy content = true ->
  dict_get client_id (active_connections g) = Some websocket ->
  ws_broken websocket = false ->
  exists (g' : Gateway) (mid : list Event) (payload : Row),
    ws_message supabase client_id (Some tok) (Text (Some message)) g
    = Done (Some tok) g'
    /\ events (world g')
       = (events (world g)
          ++ ValidatorCalled tok
             :: mid ++ [Sent (ws_id websocket)
                          (envelope "chat_response" payload)])%list
    /\ existsb is_validator_call mid = false
    /\ (rejected supabase (store (world g)) tok = true ->
        mid = []
        /\ payload = [("error", JStr "Invalid authentication token")]).
Proof.
  intros Htok Htype Hcontent Htruthy Hregistered Halive.
  destruct (process_chat_message_run supabase content tok (world g))
    as (payload & mid & w' & Hrun & Hevents & Hmid & Hrejected).
  exists (set_world (log_event (Sent (ws_id websocket)
                                  (envelope "chat_response" payload)) w') g),
         mid, payload.
  split; [|split; [|split; assumption]].
  - unfold ws_message, ws_turn, gtry, gbind, lift, of_result. rewrite Htype.
    cbn [is_str String.eqb Ascii.eqb Bool.eqb]. rewrite Htok. cbn [negb].
    cbn [world set_world]. rewrite Hcontent, Htruthy.
    cbn beta iota delta [world set_world]. rewrite Hrun.
    unfold send_personal_message, gtry, send_text.
    cbn [active_connections set_world world].
    rewrite Hregistered, Halive. reflexivity.
  - cbn [world set_world events log_event]. rewrite Hevents.
    rewrite <- app_assoc. reflexivity.
Qed.

(** * Worked instances *)

(** ** Issuance *)

(** The replay guard at work: approving [ABC123] succeeds once, then hits
    the guard. *)
Lemma approve_replay_guard_witness :
  fst (approve_membership (mkApproveMembershipRequest "ABC123" None)
         (world_of store_invited))
  = Return (mkApproveMembershipResponse true "Membership approved."
              "MEMBER-0A0A0A-1700000000" "MEMBER-0A0A0A")
  /\ fst (approve_membership (mkApproveMembershipRequest "ABC123" None)
            (snd (approve_membership
                    (mkApproveMembershipRequest "ABC123" None)
                    (world_of store_invited))))
     = Raise (HTTPException 409
                "Membership already exists for this invitation code.")
  /\ store (snd (approve_membership
                   (mkApproveMembershipRequest "ABC123" None)
                   (snd (approve_membership
                           (mkApproveMembershipRequest "ABC123" None)
                           (world_of store_invited)))))
     = store (snd (approve_membership
                     (mkApproveMembershipRequest "ABC123" None)
                     (world_of store_invited))).
Proof.
  apply (proj2 (approve_replay_guard
                  (mkApproveMembershipRequest "ABC123" None)
                  (world_of store_invited))
           (sample_invitation "ABC123" "onboarded")
           (mkApproveMembershipRequest "ABC123" None));
    vm_compute; reflexivity.
Defined.

(** The invitation check at work: [PPP000] is still pending. *)
Lemma approve_precondition_witness :
  let request := mkApproveMembershipRequest "PPP000" None in
  let w := world_of store_invited in
  fst (approve_membership request w)
  = Raise (HTTPException 400 "Invitation not onboarded yet.")
  /\ store (snd (approve_membership request w)) = store w
  /\ entropy_pos (snd (approve_membership request w)) = entropy_pos w
  /\ clock_pos (snd (approve_membership request w)) = clock_pos w.
Proof.
  intros request w.
  apply (approve_precondition request w); vm_compute; reflexivity.
Defined.

(** An unknown invitation code is reported as such. *)
Example approve_unknown_invitation :
  fst (approve_membership (mkApproveMembershipRequest "NOPE" None)
         (world_of store_invited))
  = Raise (HTTPException 404 "Invitation not found.").
Proof. vm_compute. reflexivity. Qed.

(** C3, as stated, fails: with two active memberships under one code the
    validator still answers valid. *)
Lemma validate_key_accepts_duplicates :
  List.length (filter (active_member_with_code "MEMBER-0A0A0A")
                      (memberships store_twins)) = 2%nat
  /\ fst (validate_key (mkValidateKeyRequest "MEMBER-0A0A0A")
            (world_of store_twins))
     = Return (mkValidateKeyResponse true "MEMBER-0A0A0A").
Proof. split; vm_compute; reflexivity. Qed.

Lemma validate_key_some_match_witness :
  fst (validate_key (mkValidateKeyRequest "MEMBER-AAAAAA")
         (world_of store_revoked))
  = Raise (HTTPException 404 "Invalid membership key")
  /\ fst (validate_key (mkValidateKeyRequest "MEMBER-BBBBBB")
            (world_of store_revoked))
     = Return (mkValidateKeyResponse true "MEMBER-BBBBBB").
Proof.
  split.
  - apply (validate_key_some_match (mkValidateKeyRequest "MEMBER-AAAAAA")
             (world_of store_revoked)); vm_compute; reflexivity.
  - apply (validate_key_some_match (mkValidateKeyRequest "MEMBER-BBBBBB")
             (world_of store_revoked)); vm_compute; reflexivity.
Defined.

(** A membership as [approve_membership] writes it has an [active] flag and
    no [status] column, and its code is not accepted by [/validate-key]. *)
Example validate_key_rejects_issued_code :
  let issued :=
    snd (approve_membership (mkApproveMembershipRequest "ABC123" None)
           (world_of store_invited)) in
  existsb (active_member_with_code "MEMBER-0A0A0A")
          (memberships (store issued)) = true
  /\ fst (validate_key (mkValidateKeyRequest "MEMBER-0A0A0A") issued)
     = Raise (HTTPException 404 "Invalid membership key").
Proof. split; vm_compute; reflexivity. Qed.

(** C4 on the code: a successful submission for the pending invitation
    [PPP000] stores the onboarding record and leaves the invitation
    [pending], so that the approval that follows is refused with 400. *)
Theorem submit_onboarding_leaves_pending :
  let request := mkOnboardingRequest "PPP000" true (JObj []) in
  let w := world_of store_invited in
  fst (submit_onboarding request w)
  = Return (mkOnboardingResponse "submitted" "PPP000")
  /\ find_invitation "PPP000" (store (snd (submit_onboarding request w)))
     = Some (sample_invitation "PPP000" "pending")
  /\ fst (approve_membership (mkApproveMembershipRequest "PPP000" None)
            (snd (submit_onboarding request w)))
     = Raise (HTTPException 400 "Invitation not onboarded yet.").
Proof. repeat apply conj; vm_compute; reflexivity. Qed.

(** C5, as stated, fails: two approvals that draw the same bytes within the
    same second issue the same key to two invitations. *)
Lemma approve_keys_can_collide :
  let first := approve_membership (mkApproveMembershipRequest "ABC123" None)
                 (world_of store_invited) in
  let second := approve_membership (mkApproveMembershipRequest "XYZ789" None)
                  (snd first) in
  fst first
  = Return (mkApproveMembershipResponse true "Membership approved."
              "MEMBER-0A0A0A-1700000000" "MEMBER-0A0A0A")
  /\ fst second
     = Return (mkApproveMembershipResponse true "Membership approved."
                 "MEMBER-0A0A0A-1700000000" "MEMBER-0A0A0A")
  /\ map (dict_get "membership_key") (memberships (store (snd second)))
     = [Some (JStr "MEMBER-0A0A0A-1700000000");
        Some (JStr "MEMBER-0A0A0A-1700000000")].
Proof. repeat apply conj; vm_compute; reflexivity. Qed.

Lemma approve_credential_shape_witness :
  let request := mkApproveMembershipRequest "ABC123" None in
  let w := world_of store_invited in
  membership_key
    (mkApproveMembershipResponse true "Membership approved."
       "MEMBER-0A0A0A-1700000000" "MEMBER-0A0A0A")
  = "MEMBER-0A0A0A" ++ "-" ++ str_of_int (drawn_timestamp w).
Proof.
  intros request w.
  apply (approve_credential_shape request w
           (w' := snd (approve_membership request w))).
  vm_compute. reflexivity.
Defined.

(** ** Gateway *)

(** C6, as stated, fails: a session bound to Ada's key by a first [auth]
    message is bound to Bob's key by a second one, and is told so. *)
Lemma second_auth_rebinds_session :
  exists g1 g2 : Gateway,
    ws_message spec_client "a" None (auth_frame "MEMBER-AAAAAA")
      (gateway_of store_members)
    = Done (Some (JStr "MEMBER-AAAAAA")) g1
    /\ ws_message spec_client "a" (Some (JStr "MEMBER-AAAAAA"))
         (auth_frame "MEMBER-BBBBBB") g1
       = Done (Some (JStr "MEMBER-BBBBBB")) g2
    /\ events (world g2)
       = [ValidatorCalled (JStr "MEMBER-AAAAAA");
          Sent 1 (envelope "auth_success" [("user_name", JStr "Ada")]);
          ValidatorCalled (JStr "MEMBER-BBBBBB");
          Sent 1 (envelope "auth_success" [("user_name", JStr "Bob")])].
Proof.
  eexists. eexists.
  split; [vm_compute; reflexivity|].
  split; vm_compute; reflexivity.
Qed.

Lemma token_changes_on_accepted_auth_witness :
  Some (JStr "MEMBER-BBBBBB")
  = fold_left
      (fun held frame =>
         match accepted_auth spec_client
                 (store (world (gateway_of store_members))) frame
         with
         | Some t => Some t
         | None => held
         end)
      [auth_frame "MEMBER-AAAAAA"; chat_frame "hi"; auth_frame "nobody";
       auth_frame "MEMBER-BBBBBB"; chat_frame "again"]
      None.
Proof.
  apply (@token_changes_on_accepted_auth spec_client "a"
           [auth_frame "MEMBER-AAAAAA"; chat_frame "hi"; auth_frame "nobody";
            auth_frame "MEMBER-BBBBBB"; chat_frame "again"]
           None (gateway_of store_members)
           (outcome_state
              (ws_loop spec_client "a" None
                 [auth_frame "MEMBER-AAAAAA"; chat_frame "hi";
                  auth_frame "nobody"; auth_frame "MEMBER-BBBBBB";
                  chat_frame "again"]
                 (gateway_of store_members)))
           (Some (JStr "MEMBER-BBBBBB"))).
  vm_compute. reflexivity.
Defined.

(** C7, as stated, fails: after the key of an authenticated session has
    been deactivated, the next chat message is checked against the
    validator and answered with the token error. *)
Lemma revoked_key_checked_on_chat :
  (exists g1 : Gateway,
      ws_message spec_client "a" None (auth_frame "MEMBER-AAAAAA")
        (gateway_of store_members)
      = Done (Some (JStr "MEMBER-AAAAAA")) g1)
  /\ exists g2 : Gateway,
       ws_message spec_client "a" (Some (JStr "MEMBER-AAAAAA"))
         (chat_frame "hi") (gateway_of store_revoked)
       = Done (Some (JStr "MEMBER-AAAAAA")) g2
       /\ events (world g2)
          = [ValidatorCalled (JStr "MEMBER-AAAAAA");
             Sent 1 (envelope "chat_response"
                       [("error", JStr "Invalid authentication token")])].
Proof.
  split; eexists; [vm_compute; reflexivity|].
  split; vm_compute; reflexivity.
Qed.

Lemma chat_message_revalidates_witness :
  exists (g' : Gateway) (mid : list Event) (payload : Row),
    ws_message spec_client "a" (Some (JStr "MEMBER-AAAAAA"))
      (chat_frame "hi") (gateway_of store_revoked)
    = Done (Some (JStr "MEMBER-AAAAAA")) g'
    /\ events (world g')
       = (events (world (gateway_of store_revoked))
          ++ ValidatorCalled (JStr "MEMBER-AAAAAA")
             :: mid ++ [Sent (ws_id peer_a)
                          (envelope "chat_response" payload)])%list
    /\ existsb is_validator_call mid = false
    /\ (rejected spec_client (store (world (gateway_of store_revoked)))
          (JStr "MEMBER-AAAAAA") = true ->
        mid = []
        /\ payload = [("error", JStr "Invalid authentication token")]).
Proof.
  apply (@chat_message_revalidates spec_client "a" (JStr "MEMBER-AAAAAA")
           (envelope "chat_message" [("content", JStr "hi")]) (JStr "hi")
           peer_a (gateway_of store_revoked));
    vm_compute; reflexivity.
Defined.

(** C8 on the code: with sessions [a], [b], [c] registered and [b]'s
    connection broken, [broadcast] delivers to [a] and is then suspended
    for ever inside [disconnect]: [c] receives nothing, [b] stays
    registered and the lock stays held. *)
Theorem broadcast_stops_at_broken_peer :
  exists g' : Gateway,
    broadcast (JStr "hello") None (gateway_of store_members) = Blocked g'
    /\ events (world g') = [Sent 1 (JStr "hello")]
    /\ map fst (active_connections g') = ["a"; "b"; "c"]
    /\ locked g' = true.
Proof.
  eexists. split; [vm_compute; reflexivity|].
  repeat apply conj; vm_compute; reflexivity.
Qed.

Lemma unauthenticated_chat_rejected_witness :
  ws_message spec_client "a" None (chat_frame "hi")
    (gateway_of store_members)
  = Done None
      (set_world
         (log_event
            (Sent (ws_id peer_a)
               (envelope "error"
                  [("error", JStr "Authentication required")]))
            (world (gateway_of store_members)))
         (gateway_of store_members)).
Proof.
  apply (@unauthenticated_chat_rejected spec_client "a"
           (envelope "chat_message" [("content", JStr "hi")]) peer_a
           (gateway_of store_members)); vm_compute; reflexivity.
Defined.

Lemma unknown_bearer_served_anonymously_witness :
  fst (gpt_chat_route spec_client (Some "MEMBER-AAAAAA")
         (mkChatRequest "hello") (world_of store_revoked))
  = fst (gpt_chat_route spec_client None (mkChatRequest "hello")
           (world_of store_revoked))
  /\ http_status
       (fst (gpt_chat_route spec_client (Some "MEMBER-AAAAAA")
               (mkChatRequest "hello") (world_of store_revoked))) = 200%Z.
Proof.
  destruct (unknown_bearer_served_anonymously spec_client "MEMBER-AAAAAA"
              (mkChatRequest "hello") (world_of store_revoked))
    as (_ & Hsame & Hstatus & _).
  - vm_compute. reflexivity.
  - split; assumption.
Defined.

(** A whole session: connect, authenticate, chat, lose the peer.  The chat
    is answered with the processing error, since [gpt_chat] returns a dict
    and [process_chat_message] reads [response.response] off it; the
    disconnect removes the session from the registry. *)
Example session_from_connect_to_close :
  exists g' : Gateway,
    websocket_endpoint spec_client (mkWebSocket 4 false) "d"
      [auth_frame "MEMBER-AAAAAA"; chat_frame "hi"; Disconnect]
      (gateway_of store_members)
    = Done Closed g'
    /\ events (world g')
       = [ValidatorCalled (JStr "MEMBER-AAAAAA");
          Sent 4 (envelope "auth_success" [("user_name", JStr "Ada")]);
          ValidatorCalled (JStr "MEMBER-AAAAAA");
          ResponderCalled "hi" (Some (mkUserData true (Some "Ada")));
          Sent 4 (envelope "chat_response"
                    [("error", JStr "Failed to process message")])]
    /\ map fst (active_connections g') = ["a"; "b"; "c"]
    /\ locked g' = false.
Proof.
  eexists. split; [vm_compute; reflexivity|].
  repeat apply conj; vm_compute; reflexivity.
Qed.

(** A frame that is not JSON is answered with a format error and the loop
    goes on; a JSON value that is not an object ends the session. *)
Example malformed_and_non_object_frames :
  (exists g' : Gateway,
      ws_message spec_client "a" None (Text None) (gateway_of store_members)
      = Done None g'
      /\ events (world g')
         = [Sent 1 (envelope "error"
                      [("error", JStr "Invalid message format")])])
  /\ exists g' : Gateway,
       websocket_endpoint spec_client peer_a "a" [Text (Some (JArr []))]
         (gateway_of store_members)
       = Done Closed g'
       /\ map fst (active_connections g') = ["b"; "c"].
Proof.
  split; eexists; (split; [vm_compute; reflexivity|]);
    vm_compute; reflexivity.
Qed.

(** A [json.JSONDecodeError] raised by the validator during an [auth]
    message is taken for a malformed frame: the session is answered with
    the format error, keeps its token and stays in its loop. *)
Example validator_decode_error_answered :
  exists g' : Gateway,
    ws_message garbled_client "a" None (auth_frame "MEMBER-AAAAAA")
      (gateway_of store_members)
    = Done None g'
    /\ events (world g')
       = [ValidatorCalled (JStr "MEMBER-AAAAAA");
          Sent 1 (envelope "error"
                    [("error", JStr "Invalid message format")])].
Proof.
  eexists. split; vm_compute; reflexivity.
Qed.

(** * Further properties *)

Unset Implicit Arguments.

(** ** Approval: the commit *)

(** Whatever the request and the world, an approval leaves the
    memberships as they are or appends the issued row, the latter only
    past an empty guard answer; invitations and onboarding records are
    never written. *)
Lemma approve_store_effect (request : ApproveMembershipRequest) (w : World) :
  invitations (store (snd (approve_membership request w)))
  = invitations (store w)
  /\ onboarding (store (snd (approve_membership request w)))
     = onboarding (store w)
  /\ (memberships (store (snd (approve_membership request w)))
      = memberships (store w)
      \/ (has_active_membership (invitation_code request) (store w) = false
          /\ exists inv : Row,
               memberships (store (snd (approve_membership request w)))
               = (memberships (store w) ++ [issued_row request inv w])%list)).
Proof.
  destruct (approve_membership request w) as [r w'] eqn:Hrun.
  cbn [snd]. revert Hrun.
  unfold approve_membership, bind at 1.
  rewrite safe_get_run.
  destruct (hd Healthy (faults w)); [|intros [= _ <-]; cbn; auto].
  cbn [collection String.eqb Ascii.eqb Bool.eqb].
  rewrite guard_query.
  destruct (has_active_membership (invitation_code request) (store w))
    eqn:Hguard.
  - destruct (filter_existsb_true _ _ Hguard) as (row & rest & ->).
    intros [= _ <-]; cbn; auto.
  - rewrite (filter_existsb_false _ _ Hguard).
    unfold bind at 1. rewrite safe_get_run. cbn [faults set_faults store].
    destruct (hd Healthy (tl (faults w))); [|intros [= _ <-]; cbn; auto].
    destruct (select_rows _ _) as [|inv rest]; [intros [= _ <-]; cbn; auto|].
    destruct (negb _); [intros [= _ <-]; cbn; auto|].
    unfold token_hex, token_bytes, utcnow, bind, ret.
    rewrite safe_post_run.
    cbn [faults set_faults set_entropy_pos set_clock_pos].
    destruct (hd Healthy _); [|intros [= _ <-]; cbn; auto].
    destruct (response_json _ _) as [insert_result|e];
      [destruct (truthy insert_result)|]; cbn [negb]; intros [= _ <-];
      (split; [reflexivity|]; split; [reflexivity|];
       right; split; [reflexivity|]; exists inv; reflexivity).
Qed.

Lemma issued_row_active (request : ApproveMembershipRequest) (inv : Row)
    (w : World) (code : string) :
  active_membership_of code (issued_row request inv w)
  = String.eqb (invitation_code request) code.
Proof.
  unfold active_membership_of, field_is, issued_row. cbn.
  now rewrite andb_true_r.
Qed.

(** X1. An onboarded invitation without an active membership is approved
    whenever the store answers the three requests and acknowledges the
    insert with a JSON body that is true in Python: the response carries
    the new code and key, exactly one membership row is appended (active,
    issued to the name of the request, else to the invited name, else to
    the empty string), and the approval has drawn three bytes and read the
    clock twice. *)
Theorem approve_issues_membership (request : ApproveMembershipRequest)
    (w : World) (inv : Row) :
  has_active_membership (invitation_code request) (store w) = false ->
  find_invitation (invitation_code request) (store w) = Some inv ->
  is_str "onboarded" (dict_get "status" inv) = true ->
  store_answers 3 w = true ->
  insert_acknowledged w = true ->
  fst (approve_membership request w)
  = Return (mkApproveMembershipResponse true "Membership approved."
              ("MEMBER-" ++ upper (hex (drawn_token w)) ++ "-"
               ++ str_of_int (drawn_timestamp w))
              ("MEMBER-" ++ upper (hex (drawn_token w))))
  /\ store (snd (approve_membership request w))
     = mkStore (invitations (store w)) (onboarding (store w))
               (memberships (store w) ++ [issued_row request inv w])
  /\ entropy_pos (snd (approve_membership request w)) = (3 + entropy_pos w)%nat
  /\ clock_pos (snd (approve_membership request w)) = (2 + clock_pos w)%nat.
Proof.
  intros Hnone Hfound Honboarded Hup Hack.
  rewrite (approve_acknowledged request w inv Hnone Hfound Honboarded Hup
             Hack).
  repeat split.
Qed.

(** X30. An insert that the store carries out without acknowledging it
    leaves the membership behind an error: when the reply to the insert is
    a JSON value that is false in Python the approval fails with 500
    "Error saving membership record.", when it is not JSON the approval
    raises [json.JSONDecodeError]; either way the issued row is stored, and
    the approval tried again for the same invitation code fails with
    409. *)
Theorem approve_unacknowledged_insert (request : ApproveMembershipRequest)
    (w : World) (inv : Row) (again : ApproveMembershipRequest) :
  has_active_membership (invitation_code request) (store w) = false ->
  find_invitation (invitation_code request) (store w) = Some inv ->
  is_str "onboarded" (dict_get "status" inv) = true ->
  store_answers 4 w = true ->
  insert_acknowledged w = false ->
  invitation_code again = invitation_code request ->
  fst (approve_membership request w)
  = match hd Representation (replies w) with
    | NoBody => Raise JSONDecodeError
    | _ => Raise (HTTPException 500 "Error saving membership record.")
    end
  /\ store (snd (approve_membership request w))
     = mkStore (invitations (store w)) (onboarding (store w))
               (memberships (store w) ++ [issued_row request inv w])
  /\ fst (approve_membership again (snd (approve_membership request w)))
     = Raise (HTTPException 409
                "Membership already exists for this invitation code.").
Proof.
  intros Hnone Hfound Honboarded Hup Hack Hsame.
  destruct (store_answers_four w Hup) as [Hup3 Hfourth].
  destruct (store_answers_three w Hup3) as [Hup2 Hthird].
  rewrite (approve_commit request w inv Hnone Hfound Honboarded Hup2), Hthird.
  cbn [fst snd store]. split; [|split; [reflexivity|]].
  - unfold insert_acknowledged in Hack.
    destruct (hd Representation (replies w)) as [|body|];
      cbn [response_json]; [discriminate| |reflexivity].
    rewrite Hack. reflexivity.
  - unfold approve_membership, bind at 1.
    rewrite safe_get_run. cbn [faults store]. rewrite Hfourth.
    cbn [collection String.eqb Ascii.eqb Bool.eqb append_row memberships].
    rewrite guard_query, filter_app. cbn [filter].
    rewrite Hsame, issued_row_active, String.eqb_refl.
    destruct (filter _ (memberships (store w))); reflexivity.
Qed.

(** X2. No approval, whatever its outcome, writes to the invitations or to
    the onboarding records, and the memberships it leaves are those it
    found, with at most one row added at the end. *)
Theorem approve_only_appends (request : ApproveMembershipRequest)
    (w : World) :
  invitations (store (snd (approve_membership request w)))
  = invitations (store w)
  /\ onboarding (store (snd (approve_membership request w)))
     = onboarding (store w)
  /\ exists added : list Row,
       memberships (store (snd (approve_membership request w)))
       = (memberships (store w) ++ added)%list
       /\ (List.length added <= 1)%nat.
Proof.
  destruct (approve_store_effect request w) as (Hinv & Honb & Hmem).
  split; [exact Hinv|]. split; [exact Honb|].
  destruct Hmem as [Hsame|(_ & inv & Hadded)].
  - exists []. rewrite Hsame, app_nil_r. split; [reflexivity|cbn; lia].
  - exists [issued_row request inv w]. split; [exact Hadded|cbn; lia].
Qed.

(** X3. Approval keeps the invariant of the data model: if the store holds
    at most one active membership for each invitation code, it still does
    after any approval. *)
Theorem approve_keeps_single_active (request : ApproveMembershipRequest)
    (w : World) :
  single_active (store w) ->
  single_active (store (snd (approve_membership request w))).
Proof.
  intros Hinv code.
  destruct (approve_store_effect request w)
    as (_ & _ & [Hsame|(Hguard & inv & Hadded)]).
  - rewrite Hsame. apply Hinv.
  - rewrite Hadded, filter_app, length_app. cbn [filter].
    rewrite issued_row_active.
    destruct (String.eqb (invitation_code request) code) eqn:Hcode.
    + apply String.eqb_eq in Hcode. subst code.
      unfold has_active_membership in Hguard.
      rewrite (filter_existsb_false _ _ Hguard). cbn. lia.
    + cbn. rewrite Nat.add_0_r. apply Hinv.
Qed.

(** X4. When the store rejects the write of an approval, the caller gets
    the store error as a 500, no membership is stored, and the same
    approval retried against a store that answers and acknowledges the
    insert succeeds and appends its row: the failed attempt leaves nothing
    that blocks the retry. *)
Theorem approve_retry_after_store_error (request : ApproveMembershipRequest)
    (w : World) (inv : Row) (msg : string) :
  has_active_membership (invitation_code request) (store w) = false ->
  find_invitation (invitation_code request) (store w) = Some inv ->
  is_str "onboarded" (dict_get "status" inv) = true ->
  store_answers 2 w = true ->
  hd Healthy (tl (tl (faults w))) = Failing msg ->
  store_answers 3 (set_faults (tl (tl (tl (faults w)))) w) = true ->
  insert_acknowledged w = true ->
  fst (approve_membership request w)
  = Raise (HTTPException 500 ("Supabase error: " ++ msg))
  /\ store (snd (approve_membership request w)) = store w
  /\ fst (approve_membership request (snd (approve_membership request w)))
     = Return (mkApproveMembershipResponse true "Membership approved."
                 ("MEMBER-"
                  ++ upper (hex (drawn_token
                                   (snd (approve_membership request w))))
                  ++ "-"
                  ++ str_of_int (drawn_timestamp
                                   (snd (approve_membership request w))))
                 ("MEMBER-"
                  ++ upper (hex (drawn_token
                                   (snd (approve_membership request w))))))
  /\ memberships
       (store (snd (approve_membership request
                      (snd (approve_membership request w)))))
     = (memberships (store w)
        ++ [issued_row request inv
              (snd (approve_membership request w))])%list.
Proof.
  intros Hnone Hfound Honboarded Hup Hthird Hlater Hack.
  rewrite (approve_commit request w inv Hnone Hfound Honboarded Hup), Hthird.
  cbn [fst snd store]. split; [reflexivity|]. split; [reflexivity|].
  set (w1 := mkWorld (store w) (tl (tl (tl (faults w)))) (replies w)
               (entropy w) (S (S (S (entropy_pos w)))) (clock w)
               (S (S (clock_pos w))) (dice w) (dice_pos w) (events w)).
  rewrite (approve_acknowledged request w1 inv Hnone Hfound Honboarded
             Hlater Hack).
  split; reflexivity.
Qed.

(** X5. A store that cannot be reached is never reported as "not found":
    when the first store request of a handler fails, approval, onboarding
    submission, key validation and invitation validation all answer 500
    with the store's error, and the store is as it was. *)
Theorem store_error_is_500 (w : World) (msg : string)
    (approve : ApproveMembershipRequest) (submit : OnboardingRequest)
    (check_key : ValidateKeyRequest)
    (check_invitation : ValidateInvitationRequest) :
  hd Healthy (faults w) = Failing msg ->
  (approve_membership approve w
   = (Raise (HTTPException 500 ("Supabase error: " ++ msg)),
      set_faults (tl (faults w)) w))
  /\ (submit_onboarding submit w
      = (Raise (HTTPException 500 ("Supabase error: " ++ msg)),
         set_faults (tl (faults w)) w))
  /\ (validate_key check_key w
      = (Raise (HTTPException 500 ("Supabase error: " ++ msg)),
         set_faults (tl (faults w)) w))
  /\ (validate_invitation check_invitation w
      = (Raise (HTTPException 500 ("Supabase error: " ++ msg)),
         set_faults (tl (faults w)) w)).
Proof.
  intros Hdown.
  unfold approve_membership, submit_onboarding, validate_key,
    validate_invitation, bind.
  rewrite !safe_get_run, Hdown. repeat split.
Qed.

(** ** Onboarding submission *)

Lemma onboarding_query (code : string) (rows : list Row) :
  select_rows [("code", "eq." ++ code)] rows
  = filter (field_is "code" code) rows.
Proof.
  unfold select_rows. apply filter_ext. intros row.
  cbn. unfold field_is. now rewrite andb_true_r.
Qed.

(** A submission with both requests answered: the invitation lookup
    decides between 404 and the insert; the record is then stored, and the
    reply to the insert is only parsed. *)
Lemma submit_onboarding_run (request : OnboardingRequest) (w : World) :
  store_answers 2 w = true ->
  submit_onboarding request w
  = match find_invitation (ob_code request) (store w) with
    | None =>
        (Raise (HTTPException 404 "Invitation not found"),
         set_faults (tl (faults w)) w)
    | Some _ =>
        (if replies_parse 1 w
         then Return (mkOnboardingResponse "submitted" (ob_code request))
         else Raise JSONDecodeError,
         set_store
           (mkStore (invitations (store w))
              (onboarding (store w)
               ++ [[("invitation_code", JStr (ob_code request));
                    ("voice_consent", JBool (ob_voice_consent request));
                    ("responses", ob_responses request)]])
              (memberships (store w)))
           (set_replies (tl (replies w))
                        (set_faults (tl (tl (faults w))) w)))
    end.
Proof.
  intros Hup.
  pose proof (store_answers_hd _ _ Hup) as Hfirst.
  pose proof (store_answers_hd2 _ _ Hup) as Hsecond.
  unfold find_invitation. rewrite <- filter_head_find.
  unfold submit_onboarding, bind at 1.
  rewrite safe_get_run, Hfirst.
  cbn [collection String.eqb Ascii.eqb Bool.eqb].
  rewrite onboarding_query.
  destruct (filter _ (invitations (store w))) as [|inv rest];
    [reflexivity|].
  unfold bind, ret. rewrite safe_post_run. cbn [faults set_faults].
  rewrite Hsecond. unfold replies_parse. cbn [replies set_faults].
  destruct (replies w) as [|[|body|] later]; reflexivity.
Qed.

(** X6. With the store answering, a submission for an unknown code is
    answered 404 and stores nothing; a submission for a known code,
    whatever the status of its invitation, appends exactly one onboarding
    record carrying the code, the consent and the responses, and is
    answered [submitted] when the store's reply to the insert holds JSON;
    a reply that does not raises [json.JSONDecodeError] with the record
    stored. *)
Theorem submit_onboarding_outcome (request : OnboardingRequest) (w : World) :
  store_answers 2 w = true ->
  match find_invitation (ob_code request) (store w) with
  | None =>
      fst (submit_onboarding request w)
      = Raise (HTTPException 404 "Invitation not found")
      /\ store (snd (submit_onboarding request w)) = store w
  | Some _ =>
      fst (submit_onboarding request w)
      = (if replies_parse 1 w
         then Return (mkOnboardingResponse "submitted" (ob_code request))
         else Raise JSONDecodeError)
      /\ store (snd (submit_onboarding request w))
         = mkStore (invitations (store w))
             (onboarding (store w)
              ++ [[("invitation_code", JStr (ob_code request));
                   ("voice_consent", JBool (ob_voice_consent request));
                   ("responses", ob_responses request)]])
             (memberships (store w))
  end.
Proof.
  intros Hup. rewrite (submit_onboarding_run request w Hup).
  destruct (find_invitation (ob_code request) (store w)); split; reflexivity.
Qed.

(** X7. Nothing limits onboarding to one record per invitation: with the
    store answering and its replies to the two inserts holding JSON, two
    submissions for the same known code both succeed and leave two
    records, in the order submitted. *)
Theorem submit_onboarding_twice (first second : OnboardingRequest)
    (w : World) (inv : Row) :
  ob_code second = ob_code first ->
  find_invitation (ob_code first) (store w) = Some inv ->
  store_answers 4 w = true ->
  replies_parse 2 w = true ->
  fst (submit_onboarding first w)
  = Return (mkOnboardingResponse "submitted" (ob_code first))
  /\ fst (submit_onboarding second (snd (submit_onboarding first w)))
     = Return (mkOnboardingResponse "submitted" (ob_code first))
  /\ onboarding
       (store (snd (submit_onboarding second
                      (snd (submit_onboarding first w)))))
     = (onboarding (store w)
        ++ [[("invitation_code", JStr (ob_code first));
             ("voice_consent", JBool (ob_voice_consent first));
             ("responses", ob_responses first)];
            [("invitation_code", JStr (ob_code first));
             ("voice_consent", JBool (ob_voice_consent second));
             ("responses", ob_responses second)]])%list.
Proof.
  intros Hsame Hfound Hup Hparse.
  assert (Hup2 : store_answers 2 w = true).
  { revert Hup. unfold store_answers.
    destruct (faults w) as [|[|m1] [|[|m2] rest]]; cbn;
      try discriminate; auto. }
  assert (Hparse1 : replies_parse 1 w = true).
  { revert Hparse. unfold replies_parse.
    destruct (replies w) as [|[|b1|] rest]; cbn;
      try discriminate; auto. }
  assert (Hup3 : store_answers 2 (snd (submit_onboarding first w)) = true).
  { rewrite (submit_onboarding_run first w Hup2), Hfound.
    revert Hup. unfold store_answers.
    cbn [snd faults set_store set_faults set_replies].
    destruct (faults w) as [|[|m1] [|[|m2] [|[|m3] [|[|m4] rest]]]]; cbn;
      try discriminate; auto. }
  assert (Hparse2 : replies_parse 1 (snd (submit_onboarding first w)) = true).
  { rewrite (submit_onboarding_run first w Hup2), Hfound.
    revert Hparse. unfold replies_parse.
    cbn [snd replies set_store set_faults set_replies].
    destruct (replies w) as [|[|b1|] [|[|b2|] rest]]; cbn;
      try discriminate; auto. }
  rewrite (submit_onboarding_run second _ Hup3), Hparse2.
  rewrite (submit_onboarding_run first w Hup2), Hfound, Hparse1.
  cbn [snd store set_store set_faults set_replies invitations onboarding
       memberships].
  unfold find_invitation in *. cbn [invitations].
  rewrite Hsame, Hfound. cbn [fst snd store set_store onboarding].
  rewrite <- app_assoc. split; [reflexivity|]. split; reflexivity.
Qed.

(** ** Invitations *)

Lemma random_choices_run (population : string) (k : nat) (w : World) :
  random_choices population k w
  = (Return (picked population k (dice w) (dice_pos w)),
     set_dice_pos (k + dice_pos w) w).
Proof.
  revert w. induction k as [|k IH]; intros w.
  - destruct w; reflexivity.
  - cbn [random_choices picked]. unfold bind at 1, random_char.
    unfold bind at 1. rewrite IH. unfold ret.
    cbn [dice dice_pos set_dice_pos]. unfold set_dice_pos.
    cbn [store faults entropy entropy_pos clock clock_pos dice events].
    now rewrite Nat.add_succ_r.
Qed.

Lemma get_mem (s : string) (i : nat) (c : ascii) :
  String.get i s = Some c -> string_mem c s = true.
Proof.
  revert i. induction s as [|d s IH]; intros i; [discriminate|].
  destruct i as [|i]; cbn.
  - intros [= ->]. now rewrite Ascii.eqb_refl.
  - intros H. rewrite (IH _ H). apply orb_true_r.
Qed.

Lemma get_in_range (s : string) (i : nat) :
  (i < String.length s)%nat -> exists c : ascii, String.get i s = Some c.
Proof.
  revert i. induction s as [|d s IH]; intros i Hi; cbn in *; [lia|].
  destruct i as [|i]; [eauto|]. apply IH. lia.
Qed.

(** Draws from a non-empty population give as many characters as asked
    for, each one of the population. *)
Lemma picked_shape (population : string) (k : nat) (draws : nat -> nat)
    (pos : nat) :
  population <> EmptyString ->
  String.length (picked population k draws pos) = k
  /\ string_forallb (fun c => string_mem c population)
       (picked population k draws pos) = true.
Proof.
  intros Hne. revert pos. induction k as [|k IH]; intros pos;
    [split; reflexivity|].
  destruct (IH (S pos)) as [Hlen Hmem].
  cbn [picked String.length string_forallb]. rewrite Hlen, Hmem.
  split; [reflexivity|]. rewrite andb_true_r.
  destruct (@get_in_range population
              (draws pos mod String.length population)) as [c Hc].
  - apply Nat.mod_upper_bound. destruct population; [congruence|discriminate].
  - rewrite Hc. exact (@get_mem _ _ _ Hc).
Qed.

Lemma create_invitation_run (request : InvitationRequest) (w : World) :
  store_answers 1 w = true ->
  create_invitation request w
  = (if replies_parse 1 w
     then Return (mkInvitationResponse
                    (picked (ascii_letters ++ digits) 18 (dice w)
                       (dice_pos w))
                    (picked digits 4 (dice w) (18 + dice_pos w))
                    (ir_invited_name request))
     else Raise JSONDecodeError,
     mkWorld
       (mkStore
          (invitations (store w)
           ++ [[("code",
                 JStr (picked (ascii_letters ++ digits) 18 (dice w)
                         (dice_pos w)));
                ("pin", JStr (picked digits 4 (dice w) (18 + dice_pos w)));
                ("invited_name", JStr (ir_invited_name request));
                ("status", JStr "pending")]])
          (onboarding (store w)) (memberships (store w)))
       (tl (faults w)) (tl (replies w)) (entropy w) (entropy_pos w)
       (clock w) (clock_pos w) (dice w) (4 + (18 + dice_pos w)) (events w)).
Proof.
  intros Hup. pose proof (store_answers_hd _ _ Hup) as Hfirst.
  unfold create_invitation, bind at 1. rewrite random_choices_run.
  unfold bind at 1. rewrite random_choices_run.
  unfold bind, ret. rewrite safe_post_run.
  cbn [faults set_dice_pos dice dice_pos]. rewrite Hfirst.
  unfold replies_parse. cbn [replies set_dice_pos].
  destruct (replies w) as [|[|body|] later]; reflexivity.
Qed.

(** X8. With the store answering, creating an invitation draws a code of
    18 letters and digits and a PIN of 4 digits and appends exactly one
    invitation row that carries them, the invited name and the status
    [pending]; it returns the code and the PIN when the store's reply to
    the insert holds JSON, and raises [json.JSONDecodeError] with the row
    stored when it does not.  It reads neither the entropy source nor the
    clock. *)
Theorem create_invitation_outcome (request : InvitationRequest) (w : World) :
  store_answers 1 w = true ->
  exists code pin : string,
    fst (create_invitation request w)
    = (if replies_parse 1 w
       then Return (mkInvitationResponse code pin (ir_invited_name request))
       else Raise JSONDecodeError)
    /\ store (snd (create_invitation request w))
       = mkStore
           (invitations (store w)
            ++ [[("code", JStr code); ("pin", JStr pin);
                 ("invited_name", JStr (ir_invited_name request));
                 ("status", JStr "pending")]])
           (onboarding (store w)) (memberships (store w))
    /\ String.length code = 18%nat
    /\ string_forallb (fun c => string_mem c (ascii_letters ++ digits)) code
       = true
    /\ String.length pin = 4%nat
    /\ string_forallb (fun c => string_mem c digits) pin = true
    /\ entropy_pos (snd (create_invitation request w)) = entropy_pos w
    /\ clock_pos (snd (create_invitation request w)) = clock_pos w.
Proof.
  intros Hup. rewrite (create_invitation_run request w Hup).
  eexists. eexists. split; [reflexivity|]. split; [reflexivity|].
  destruct (@picked_shape (ascii_letters ++ digits) 18 (dice w)
              (dice_pos w)) as [Hlen Hmem]; [discriminate|].
  destruct (@picked_shape digits 4 (dice w) (18 + dice_pos w))
    as [Hlen' Hmem']; [discriminate|].
  repeat split; assumption.
Qed.

Lemma invitation_check_query (code pin : string) (rows : list Row) :
  select_rows [("code", "eq." ++ code); ("pin", "eq." ++ pin);
               ("status", "eq.pending")] rows
  = filter (pending_invitation code pin) rows.
Proof.
  unfold select_rows. apply filter_ext. intros row.
  cbn. unfold pending_invitation, field_is.
  now rewrite andb_true_r, andb_assoc.
Qed.

Lemma validate_invitation_run (request : ValidateInvitationRequest)
    (w : World) :
  store_answers 1 w = true ->
  validate_invitation request w
  = (if existsb (pending_invitation (vi_code request) (vi_pin request))
                (invitations (store w))
     then Return (mkValidateInvitationResponse true (vi_code request))
     else Raise (HTTPException 404 "Invalid or expired invitation"),
     set_faults (tl (faults w)) w).
Proof.
  intros Hup. unfold validate_invitation, bind.
  rewrite safe_get_run, (store_answers_hd _ _ Hup).
  cbn [collection String.eqb Ascii.eqb Bool.eqb].
  rewrite invitation_check_query.
  destruct (existsb _ _) eqn:Hany.
  - destruct (filter_existsb_true _ _ Hany) as (row & rest & ->).
    reflexivity.
  - rewrite (filter_existsb_false _ _ Hany). reflexivity.
Qed.

(** X9. With the store answering, an invitation is validated exactly when
    the store holds an invitation with that code and that PIN whose status
    is [pending]; otherwise the answer is 404.  Validation writes nothing,
    so it can be repeated. *)
Theorem validate_invitation_outcome (request : ValidateInvitationRequest)
    (w : World) :
  store_answers 1 w = true ->
  fst (validate_invitation request w)
  = (if existsb (pending_invitation (vi_code request) (vi_pin request))
                (invitations (store w))
     then Return (mkValidateInvitationResponse true (vi_code request))
     else Raise (HTTPException 404 "Invalid or expired invitation"))
  /\ store (snd (validate_invitation request w)) = store w.
Proof.
  intros Hup. rewrite (validate_invitation_run request w Hup).
  split; reflexivity.
Qed.

Lemma pending_row_validates (code pin : string) (row : Row) (v : World) :
  store_answers 1 v = true ->
  In row (invitations (store v)) ->
  pending_invitation code pin row = true ->
  fst (validate_invitation (mkValidateInvitationRequest code pin) v)
  = Return (mkValidateInvitationResponse true code).
Proof.
  intros Hup Hin Hrow. rewrite (validate_invitation_run _ v Hup).
  cbn [fst vi_code vi_pin].
  replace (existsb (pending_invitation code pin) (invitations (store v)))
    with true; [reflexivity|].
  symmetry. apply existsb_exists. exists row. now split.
Qed.

Lemma created_row_pending (code pin : string) (name : Json) :
  pending_invitation code pin
    [("code", JStr code); ("pin", JStr pin); ("invited_name", name);
     ("status", JStr "pending")] = true.
Proof.
  unfold pending_invitation, field_is. cbn.
  now rewrite !String.eqb_refl.
Qed.

(** X10. The code and PIN returned by a created invitation validate: with
    the store answering both requests, [validate_invitation] on what
    [create_invitation] returned succeeds. *)
Theorem created_invitation_validates (request : InvitationRequest)
    (w : World) (resp : InvitationResponse) (w' : World) :
  store_answers 2 w = true ->
  create_invitation request w = (Return resp, w') ->
  fst (validate_invitation
         (mkValidateInvitationRequest (ires_code resp) (ires_pin resp)) w')
  = Return (mkValidateInvitationResponse true (ires_code resp)).
Proof.
  intros Hup.
  assert (Hup1 : store_answers 1 w = true).
  { revert Hup. unfold store_answers.
    destruct (faults w) as [|[|m1] rest]; cbn [firstn forallb];
      try discriminate; reflexivity. }
  assert (Hup' : store_answers 1 (set_faults (tl (faults w)) w) = true)
    by exact (store_answers_tl 1 w Hup).
  intros Hcreate.
  rewrite (create_invitation_run request w Hup1) in Hcreate.
  destruct (replies_parse 1 w); [|discriminate].
  injection Hcreate as <- <-.
  apply (pending_row_validates _ _
           [("code",
             JStr (picked (ascii_letters ++ digits) 18 (dice w) (dice_pos w)));
            ("pin", JStr (picked digits 4 (dice w) (18 + dice_pos w)));
            ("invited_name", JStr (ir_invited_name request));
            ("status", JStr "pending")]).
  - exact Hup'.
  - cbn [store invitations]. apply in_or_app. right. left. reflexivity.
  - apply created_row_pending.
Qed.

(** ** The administrator gate *)

Lemma compare_digest_true (a b : string) :
  compare_digest a b = Return true -> a = b.
Proof.
  unfold compare_digest. destruct (_ && _); [|discriminate].
  intros [= H]. now apply String.eqb_eq.
Qed.

Lemma compare_digest_ascii (a b : string) :
  string_forallb is_ascii_char a = true ->
  string_forallb is_ascii_char b = true ->
  compare_digest a b = Return (String.eqb a b).
Proof. intros Ha Hb. unfold compare_digest. now rewrite Ha, Hb. Qed.

(** X11. The administrator check lets through nothing but the configured
    pair: whenever [verify_admin] returns, the presented user name and
    password equal the configured ones, the name returned is the
    configured name, and the world is untouched. *)
Theorem verify_admin_sound (settings : Settings)
    (credentials : HTTPBasicCredentials) (w w' : World) (admin : string) :
  verify_admin settings credentials w = (Return admin, w') ->
  username credentials = ADMIN_USERNAME settings
  /\ password credentials = ADMIN_PASSWORD settings
  /\ admin = ADMIN_USERNAME settings
  /\ w' = w.
Proof.
  unfold verify_admin, bind, of_result, raise, ret.
  destruct (compare_digest (username credentials) (ADMIN_USERNAME settings))
    as [[|]|e] eqn:Huser; try discriminate.
  - destruct (compare_digest (password credentials)
                (ADMIN_PASSWORD settings)) as [[|]|e] eqn:Hpass;
      try discriminate.
    cbn. intros [= <- <-].
    apply compare_digest_true in Huser. apply compare_digest_true in Hpass.
    now rewrite Huser.
  - destruct (compare_digest (password credentials)
                (ADMIN_PASSWORD settings)) as [[|]|e]; discriminate.
Qed.

(** X12. The [/admin] routes run their handler only behind the check.  With
    a wrong user name or a wrong password, approval and invitation
    creation both fail before their handler starts and leave the world
    exactly as it was, with 401 when the strings compared are ASCII; with
    the configured ASCII pair, each route behaves as its handler. *)
Theorem admin_routes_gate (settings : Settings)
    (credentials : HTTPBasicCredentials) (w : World)
    (approve : ApproveMembershipRequest) (create : InvitationRequest) :
  ((username credentials <> ADMIN_USERNAME settings
    \/ password credentials <> ADMIN_PASSWORD settings) ->
   exists e : Exn,
     approve_membership_route settings credentials approve w = (Raise e, w)
     /\ create_invitation_route settings credentials create w = (Raise e, w)
     /\ (string_forallb is_ascii_char (username credentials) = true ->
         string_forallb is_ascii_char (password credentials) = true ->
         string_forallb is_ascii_char (ADMIN_USERNAME settings) = true ->
         string_forallb is_ascii_char (ADMIN_PASSWORD settings) = true ->
         e = HTTPException 401 "Incorrect username or password"))
  /\
  (username credentials = ADMIN_USERNAME settings ->
   password credentials = ADMIN_PASSWORD settings ->
   string_forallb is_ascii_char (ADMIN_USERNAME settings) = true ->
   string_forallb is_ascii_char (ADMIN_PASSWORD settings) = true ->
   approve_membership_route settings credentials approve w
   = approve_membership approve w
   /\ create_invitation_route settings credentials create w
      = create_invitation create w).
Proof.
  split.
  - intros Hwrong.
    assert (Hgate : exists e : Exn,
               verify_admin settings credentials w = (Raise e, w)
               /\ (string_forallb is_ascii_char (username credentials) = true ->
                   string_forallb is_ascii_char (password credentials) = true ->
                   string_forallb is_ascii_char (ADMIN_USERNAME settings)
                   = true ->
                   string_forallb is_ascii_char (ADMIN_PASSWORD settings)
                   = true ->
                   e = HTTPException 401 "Incorrect username or password")).
    { unfold verify_admin, bind, of_result, raise, ret, compare_digest.
      destruct (string_forallb is_ascii_char (username credentials));
        destruct (string_forallb is_ascii_char (ADMIN_USERNAME settings));
        cbn [andb]; try (eexists; split; [reflexivity|intros; discriminate]).
      destruct (string_forallb is_ascii_char (password credentials));
        destruct (string_forallb is_ascii_char (ADMIN_PASSWORD settings));
        cbn [andb]; try (eexists; split; [reflexivity|intros; discriminate]).
      destruct (String.eqb_spec (username credentials)
                  (ADMIN_USERNAME settings)) as [Hu|Hu];
        destruct (String.eqb_spec (password credentials)
                    (ADMIN_PASSWORD settings)) as [Hp|Hp];
        cbn [andb negb]; try (eexists; split; reflexivity).
      tauto. }
    destruct Hgate as (e & Hrun & Hcode). exists e.
    unfold approve_membership_route, create_invitation_route, bind.
    rewrite Hrun. repeat split. exact Hcode.
  - intros Hu Hp Hau Hap.
    assert (Hrun : verify_admin settings credentials w
                   = (Return (username credentials), w)).
    { unfold verify_admin, bind, of_result, raise, ret.
      rewrite !compare_digest_ascii by (rewrite ?Hu, ?Hp; assumption).
      rewrite Hu, Hp, !String.eqb_refl. reflexivity. }
    unfold approve_membership_route, create_invitation_route, bind.
    rewrite Hrun. split; reflexivity.
Qed.

(** ** The chat endpoint and the chat processor *)

(** X13. When the validator raises, [/gpt-chat] answers 500 with
    [Supabase validation failed] and the responder is never called. *)
Theorem gpt_chat_validator_error (supabase : SupabaseClient) (k : string)
    (request : ChatRequest) (w : World) (e : Exn) :
  supabase_validate_key supabase (store w) (JStr k) = Raise e ->
  gpt_chat_route supabase (Some k) request w
  = (Raise (HTTPException 500 "Supabase validation failed"),
     log_event (ValidatorCalled (JStr k)) w).
Proof.
  intros Hraise.
  unfold gpt_chat_route, get_current_user, call_validate_key, try_except,
    bind, raise.
  now rewrite Hraise.
Qed.

(** X14. Whatever user data the validator returns for a bearer key is
    taken as the caller's identity, whether or not it is flagged valid:
    with a user name in it the route answers 200 with one of the five
    texts addressed to that name, and without one it answers 500 for the
    missing key. *)
Theorem gpt_chat_with_user_data (supabase : SupabaseClient) (k : string)
    (request : ChatRequest) (w : World) (d : UserData) :
  supabase_validate_key supabase (store w) (JStr k) = Return (Some d) ->
  match ud_user_name d with
  | Some name =>
      http_status (fst (gpt_chat_route supabase (Some k) request w)) = 200%Z
      /\ exists text : string,
           In text (personal_responses name)
           /\ fst (gpt_chat_route supabase (Some k) request w)
              = Return [("response", JStr text)]
  | None =>
      fst (gpt_chat_route supabase (Some k) request w)
      = Raise (HTTPException 500
                 "Failed to generate chat response: 'user_name'")
  end.
Proof.
  intros Hdata.
  assert (Huser : get_current_user supabase (Some k) w
                  = (Return (Some d), log_event (ValidatorCalled (JStr k)) w)).
  { unfold get_current_user, call_validate_key, try_except, bind.
    now rewrite Hdata. }
  unfold gpt_chat_route, bind. rewrite Huser.
  unfold gpt_chat, try_except, bind.
  destruct (ud_user_name d) as [name|]; [|reflexivity].
  unfold ret, random_choice. cbn [fst http_status].
  split; [reflexivity|]. eexists. split; [|reflexivity].
  apply nth_In, Nat.mod_upper_bound. discriminate.
Qed.

(** X15. The chat processor of the WebSocket path never returns content:
    for every validator, token and message its payload is a single
    [error], either the token error or the processing error, because the
    reply of [gpt_chat] is a dict and has no attribute [response].  It
    never raises and never writes to the store. *)
Theorem process_chat_message_only_errors (supabase : SupabaseClient)
    (content tok : Json) (w : World) :
  (fst (process_chat_message supabase content tok w)
   = Return [("error", JStr "Invalid authentication token")]
   \/ fst (process_chat_message supabase content tok w)
      = Return [("error", JStr "Failed to process message")])
  /\ store (snd (process_chat_message supabase content tok w)) = store w.
Proof.
  split; [|apply process_chat_message_store].
  assert (Hcases : forall r : Result Row,
             fst (process_chat_message supabase content tok w) = r ->
             r = Return [("error", JStr "Invalid authentication token")]
             \/ r = Return [("error", JStr "Failed to process message")]).
  { intros r.
    unfold process_chat_message, try_except, bind at 1, call_validate_key.
    destruct (supabase_validate_key supabase (store w) tok) as [[d|]|e];
      [|intros <-; now left|intros <-; now right].
    destruct (ud_valid d); [|intros <-; now left].
    destruct content as [| | |s| |]; try (intros <-; now right).
    cbn [negb make_ChatRequest]. unfold bind at 1, of_result at 1.
    unfold bind at 1, gpt_chat, try_except, bind at 2.
    destruct (ud_user_name d); intros <-; now right. }
  destruct (Hcases _ eq_refl) as [H|H]; rewrite H; auto.
Qed.

(** ** The registry as a dict *)

Lemma dict_get_set_same {V : Type} (k : string) (v : V)
    (d : list (string * V)) :
  dict_get k (dict_set k v d) = Some v.
Proof.
  induction d as [|[k' v'] d IH]; cbn.
  - now rewrite String.eqb_refl.
  - destruct (String.eqb k' k) eqn:Hk; cbn.
    + now rewrite String.eqb_refl.
    + now rewrite Hk.
Qed.

Lemma dict_get_set_other {V : Type} (k k' : string) (v : V)
    (d : list (string * V)) :
  k' <> k -> dict_get k' (dict_set k v d) = dict_get k' d.
Proof.
  intros Hne. induction d as [|[k0 v0] d IH]; cbn.
  - destruct (String.eqb_spec k k'); [congruence|reflexivity].
  - destruct (String.eqb_spec k0 k) as [->|Hk0]; cbn.
    + destruct (String.eqb_spec k k'); [congruence|reflexivity].
    + now rewrite IH.
Qed.

Lemma dict_get_del_other {V : Type} (k k' : string)
    (d : list (string * V)) :
  k' <> k -> dict_get k' (dict_del k d) = dict_get k' d.
Proof.
  intros Hne. induction d as [|[k0 v0] d IH]; cbn; [reflexivity|].
  destruct (String.eqb_spec k0 k) as [->|Hk0]; cbn.
  - destruct (String.eqb_spec k k'); [congruence|reflexivity].
  - now rewrite IH.
Qed.

Lemma dict_get_absent {V : Type} (k : string) (d : list (string * V)) :
  ~ In k (map fst d) -> dict_get k d = None.
Proof.
  induction d as [|[k0 v0] d IH]; cbn; [reflexivity|].
  intros Hnot. destruct (String.eqb_spec k0 k) as [->|Hk0]; [tauto|].
  apply IH. tauto.
Qed.

Lemma dict_get_del_same {V : Type} (k : string) (d : list (string * V)) :
  NoDup (map fst d) -> dict_get k (dict_del k d) = None.
Proof.
  induction d as [|[k0 v0] d IH]; cbn; [reflexivity|].
  intros Hnodup. inversion Hnodup as [|? ? Hnotin Hrest]; subst.
  destruct (String.eqb_spec k0 k) as [->|Hk0]; cbn.
  - now apply dict_get_absent.
  - destruct (String.eqb_spec k0 k); [congruence|]. now apply IH.
Qed.

Lemma dict_del_absent {V : Type} (k : string) (d : list (string * V)) :
  dict_get k d = None -> dict_del k d = d.
Proof.
  induction d as [|[k0 v0] d IH]; cbn; [reflexivity|].
  destruct (String.eqb k0 k); [discriminate|].
  intros H. now rewrite IH.
Qed.

Lemma dict_set_keys {V : Type} (k k' : string) (v : V)
    (d : list (string * V)) :
  In k' (map fst (dict_set k v d)) -> k' = k \/ In k' (map fst d).
Proof.
  induction d as [|[k0 v0] d IH]; cbn.
  - intros [<-|[]]. now left.
  - destruct (String.eqb_spec k0 k) as [->|Hk0]; cbn.
    + intros [<-|H]; auto.
    + intros [<-|H]; auto. destruct (IH H); auto.
Qed.

Lemma dict_set_nodup {V : Type} (k : string) (v : V)
    (d : list (string * V)) :
  NoDup (map fst d) -> NoDup (map fst (dict_set k v d)).
Proof.
  induction d as [|[k0 v0] d IH]; cbn.
  - intros _. constructor; [tauto|constructor].
  - intros Hnodup. inversion Hnodup as [|? ? Hnotin Hrest]; subst.
    destruct (String.eqb_spec k0 k) as [->|Hk0]; cbn.
    + now constructor.
    + constructor; [|now apply IH].
      intros Hin. apply dict_set_keys in Hin. destruct Hin; congruence.
Qed.

Lemma dict_del_keys {V : Type} (k k' : string) (d : list (string * V)) :
  In k' (map fst (dict_del k d)) -> In k' (map fst d).
Proof.
  induction d as [|[k0 v0] d IH]; cbn; [tauto|].
  destruct (String.eqb k0 k); cbn; [tauto|]. intros [<-|H]; auto.
Qed.

Lemma dict_del_nodup {V : Type} (k : string) (d : list (string * V)) :
  NoDup (map fst d) -> NoDup (map fst (dict_del k d)).
Proof.
  induction d as [|[k0 v0] d IH]; cbn; [auto|].
  intros Hnodup. inversion Hnodup as [|? ? Hnotin Hrest]; subst.
  destruct (String.eqb k0 k); cbn; [assumption|].
  constructor; [|now apply IH].
  intros Hin. now apply dict_del_keys in Hin.
Qed.

(** ** Connecting and disconnecting *)

(** X16. With the lock free, [connect] registers the connection under its
    session id, replacing what the id held, and touches no other entry;
    session ids stay unique and the lock is free again. *)
Theorem connect_registers (websocket : WebSocket) (client_id : string)
    (g : Gateway) :
  locked g = false ->
  registry_ok g ->
  exists g' : Gateway,
    connect websocket client_id g = Done tt g'
    /\ dict_get client_id (active_connections g') = Some websocket
    /\ (forall other : string,
           other <> client_id ->
           dict_get other (active_connections g')
           = dict_get other (active_connections g))
    /\ registry_ok g'
    /\ locked g' = false
    /\ world g' = world g.
Proof.
  intros Hfree Hok. unfold connect, with_lock. rewrite Hfree.
  eexists. split; [reflexivity|].
  cbn [active_connections set_connections set_locked locked world].
  split; [apply dict_get_set_same|].
  split; [intros other Hother; now apply dict_get_set_other|].
  split; [apply dict_set_nodup, Hok|]. split; reflexivity.
Qed.

(** X17. With the lock free, [disconnect] removes the session id and
    nothing else; disconnecting an id that is not registered, and so
    disconnecting a second time, changes nothing. *)
Theorem disconnect_removes (client_id : string) (g : Gateway) :
  locked g = false ->
  registry_ok g ->
  exists g' : Gateway,
    disconnect client_id g = Done tt g'
    /\ dict_get client_id (active_connections g') = None
    /\ (forall other : string,
           other <> client_id ->
           dict_get other (active_connections g')
           = dict_get other (active_connections g))
    /\ (dict_get client_id (active_connections g) = None ->
        active_connections g' = active_connections g)
    /\ registry_ok g'
    /\ locked g' = false
    /\ world g' = world g
    /\ exists g'' : Gateway,
         disconnect client_id g' = Done tt g''
         /\ active_connections g'' = active_connections g'.
Proof.
  intros Hfree Hok. unfold disconnect at 1, with_lock. rewrite Hfree.
  cbn [active_connections set_locked]. unfold dict_mem.
  destruct (dict_get client_id (active_connections g)) as [ws|] eqn:Hget.
  - eexists. split; [reflexivity|].
    cbn [active_connections set_connections set_locked locked world].
    split; [now apply dict_get_del_same|].
    split; [intros other Hother; now apply dict_get_del_other|].
    split; [discriminate|].
    split; [apply dict_del_nodup, Hok|]. split; [reflexivity|].
    split; [reflexivity|].
    unfold disconnect, with_lock, dict_mem.
    cbn [active_connections set_connections set_locked locked].
    rewrite (dict_get_del_same _ _ Hok). eexists. split; reflexivity.
  - eexists. split; [reflexivity|].
    cbn [active_connections set_connections set_locked locked world].
    split; [exact Hget|]. split; [reflexivity|]. split; [reflexivity|].
    split; [exact Hok|]. split; [reflexivity|]. split; [reflexivity|].
    unfold disconnect, with_lock, dict_mem.
    cbn [active_connections set_connections set_locked locked].
    rewrite Hget. eexists. split; reflexivity.
Qed.

(** ** What a session does to the gateway *)

Lemma quiet_elsewhere (ws : nat) (new : list Event) :
  existsb is_sent new = false -> existsb (sent_elsewhere ws) new = false.
Proof.
  induction new as [|e new IH]; cbn; [reflexivity|].
  intros H. apply orb_false_iff in H as [He Hnew].
  rewrite (IH Hnew). destruct e; cbn in *; congruence.
Qed.

(** A state that differs from [g] by events that are no frames is a
    session effect of any session. *)
Lemma quiet_effect (client_id : string) (g G : Gateway)
    (new : list Event) :
  locked G = false ->
  active_connections G = active_connections g ->
  store (world G) = store (world g) ->
  events (world G) = (events (world g) ++ new)%list ->
  existsb is_sent new = false ->
  session_effect client_id g G.
Proof.
  intros Hfree Hconns Hstore Hevents Hquiet.
  split; [exact Hfree|]. split; [exact Hstore|].
  exists new. split; [exact Hevents|].
  destruct (dict_get client_id (active_connections g)).
  - split; [now left|now apply quiet_elsewhere].
  - now split.
Qed.

(** Sending one frame to the session after such a state. *)
Lemma send_effect {A : Type} (message : Json) (client_id : string) (x : A)
    (g G : Gateway) (new : list Event) :
  locked G = false ->
  active_connections G = active_connections g ->
  store (world G) = store (world g) ->
  events (world G) = (events (world g) ++ new)%list ->
  existsb is_sent new = false ->
  ends_with client_id g
    ((send_personal_message message client_id ~> gret x) G).
Proof.
  intros Hfree Hconns Hstore Hevents Hquiet.
  unfold gbind, gret, send_personal_message. rewrite Hconns.
  destruct (dict_get client_id (active_connections g)) as [ws|] eqn:Hget.
  - unfold gtry, send_text. destruct (ws_broken ws).
    + unfold disconnect, with_lock, dict_mem. rewrite Hfree.
      cbn [active_connections set_locked]. rewrite Hconns, Hget.
      split; [reflexivity|]. cbn [outcome_state].
      split; [reflexivity|]. split; [exact Hstore|].
      exists new. split; [exact Hevents|]. rewrite Hget.
      split; [now right|now apply quiet_elsewhere].
    + split; [reflexivity|]. cbn [outcome_state].
      split; [exact Hfree|]. split; [exact Hstore|].
      exists (new ++ [Sent (ws_id ws) message])%list.
      cbn [world set_world events log_event]. rewrite Hevents, app_assoc.
      split; [reflexivity|]. rewrite Hget.
      split; [left; exact Hconns|].
      rewrite existsb_app, (quiet_elsewhere _ _ Hquiet). cbn.
      now rewrite Nat.eqb_refl.
  - split; [reflexivity|]. cbn [outcome_state].
    split; [exact Hfree|]. split; [exact Hstore|].
    exists new. split; [exact Hevents|]. rewrite Hget. now split.
Qed.

Lemma process_chat_message_quiet (supabase : SupabaseClient)
    (content tok : Json) (w : World) :
  exists (payload : Row) (w' : World) (new : list Event),
    process_chat_message supabase content tok w = (Return payload, w')
    /\ store w' = store w
    /\ events w' = (events w ++ new)%list
    /\ existsb is_sent new = false.
Proof.
  destruct (process_chat_message_run supabase content tok w)
    as (payload & mid & w' & Hrun & Hevents & _ & _).
  pose proof (process_chat_message_store supabase content tok w) as Hstore.
  rewrite Hrun in Hstore. cbn [snd] in Hstore.
  exists payload, w', (ValidatorCalled tok :: mid).
  split; [exact Hrun|]. split; [exact Hstore|]. split; [exact Hevents|].
  assert (Hmid : mid = [] \/ exists s d, mid = [ResponderCalled s d]).
  { revert Hrun Hevents.
    unfold process_chat_message, try_except, bind at 1, call_validate_key.
    destruct (supabase_validate_key supabase (store w) tok) as [[d|]|e].
    - destruct (ud_valid d); cbn [negb].
      + destruct content as [| | |s| |].
        4: { cbn [make_ChatRequest]. unfold bind at 1, of_result at 1.
             unfold bind at 1, gpt_chat, try_except, bind at 2.
             destruct (ud_user_name d); intros [= _ <-];
               cbn [events log_event set_dice_pos]; rewrite <- app_assoc;
               intros Heq; apply app_inv_head in Heq;
               injection Heq as <-; right; eauto. }
        all: intros [= _ <-]; cbn [events log_event]; intros Heq;
          apply app_inv_head in Heq; injection Heq as <-; now left.
      + intros [= _ <-]; cbn [events log_event]; intros Heq;
          apply app_inv_head in Heq; injection Heq as <-; now left.
    - intros [= _ <-]; cbn [events log_event]; intros Heq;
        apply app_inv_head in Heq; injection Heq as <-; now left.
    - intros [= _ <-]; cbn [events log_event]; intros Heq;
        apply app_inv_head in Heq; injection Heq as <-; now left. }
  destruct Hmid as [-> | (s & d & ->)]; reflexivity.
Qed.

(** The body of a turn, started with the lock free, returns or raises, and
    its effect is a session effect. *)
Lemma ws_turn_effect (supabase : SupabaseClient) (client_id : string)
    (auth_token : option Json) (frame : Inbound) (g : Gateway) :
  locked g = false ->
  ends_with client_id g (ws_turn supabase client_id auth_token frame g).
Proof.
  intros Hfree.
  assert (Hnil : events (world g) = (events (world g) ++ [])%list)
    by now rewrite app_nil_r.
  assert (Hsame : forall (A : Type) (o : Outcome A),
             is_blocked o = false -> outcome_state o = g \/
             outcome_state o = set_world (world g) g \/
             outcome_state o = set_world (world g) (set_world (world g) g) ->
             ends_with client_id g o).
  { intros A o Hnb Hstate. split; [exact Hnb|].
    apply (@quiet_effect client_id g _ []); try reflexivity;
      destruct Hstate as [->|[->| ->]]; try reflexivity; assumption. }
  assert (Hsend : forall (message : Json) (x : option Json) (G : Gateway),
             G = g \/ G = set_world (world g) g \/
             G = set_world (world g) (set_world (world g) g) ->
             ends_with client_id g
               ((send_personal_message message client_id ~> gret x) G)).
  { intros message x G HG.
    apply (@send_effect _ message client_id x g G []); try reflexivity;
      destruct HG as [->|[->| ->]]; try reflexivity; assumption. }
  destruct frame as [|[message|]]; cbn [ws_turn].
  - apply Hsame; [reflexivity|now left].
  - unfold gbind at 1, lift at 1, of_result at 1.
    destruct (message_get "type" message) as [type|e];
      [|apply Hsame; [reflexivity|right; now left]].
    destruct (is_str "auth" type).
    + unfold gbind at 1, lift at 1, of_result at 1.
      cbn [world set_world].
      destruct (payload_get "token" message) as [[t|]|e];
        [| apply Hsend; right; now right
         | apply Hsame; [reflexivity|right; now right]].
      destruct (truthy t); [|apply Hsend; right; now right].
      unfold gbind at 1, lift at 1, call_validate_key at 1.
      cbn [world set_world].
      assert (Hcall : forall (message0 : Json) (x : option Json),
                 ends_with client_id g
                   ((send_personal_message message0 client_id ~> gret x)
                      (set_world (log_event (ValidatorCalled t) (world g))
                         (set_world (world g) (set_world (world g) g))))).
      { intros message0 x.
        apply (@send_effect _ message0 client_id x g _ [ValidatorCalled t]);
          try reflexivity; assumption. }
      destruct (supabase_validate_key supabase (store (world g)) t)
        as [[d|]|e]; [| apply Hcall | ].
      * destruct (ud_valid d); [|apply Hcall].
        destruct (ud_user_name d); [apply Hcall|].
        split; [reflexivity|].
        apply (@quiet_effect client_id g _ [ValidatorCalled t]);
          try reflexivity; assumption.
      * split; [reflexivity|].
        apply (@quiet_effect client_id g _ [ValidatorCalled t]);
          try reflexivity; assumption.
    + destruct (is_str "chat_message" type);
        [|apply Hsame; [reflexivity|right; now left]].
      destruct auth_token as [tok|]; [|apply Hsend; right; now left].
      destruct (truthy tok); cbn [negb]; [|apply Hsend; right; now left].
      unfold gbind at 1, lift at 1, of_result at 1.
      destruct (payload_get "content" message) as [[c|]|e];
        try (apply Hsame; [reflexivity|right; now right]).
      destruct (truthy c);
        [|apply Hsame; [reflexivity|right; now right]].
      unfold gbind at 1, lift at 1. cbn [world set_world].
      destruct (process_chat_message_quiet supabase c tok (world g))
        as (payload & w1 & new & Hrun & Hstore & Hevents & Hquiet).
      rewrite Hrun.
      apply (@send_effect _ _ client_id (Some tok) g _ new);
        try reflexivity; assumption.
  - apply Hsame; [reflexivity|now left].
Qed.

(** One turn of the session loop, started with the lock free, returns or
    raises, and its effect is a session effect. *)
Lemma ws_message_effect (supabase : SupabaseClient) (client_id : string)
    (auth_token : option Json) (frame : Inbound) (g : Gateway) :
  locked g = false ->
  ends_with client_id g (ws_message supabase client_id auth_token frame g).
Proof.
  intros Hfree.
  pose proof (ws_turn_effect supabase client_id auth_token frame g Hfree)
    as Hturn_effect.
  unfold ws_message, gtry.
  destruct (ws_turn supabase client_id auth_token frame g)
    as [a0 g0|e g1|g1] eqn:Hturn; [exact Hturn_effect| |exact Hturn_effect].
  destruct (@ws_turn_raised _ _ _ _ _ _ _ Hturn)
    as (Hlock & Hconns & Hstore & (new & Hevents & Hquiet) & _).
  destruct e; try exact Hturn_effect.
  apply (@send_effect _ _ client_id auth_token g g1 new);
    congruence || assumption.
Qed.

Lemma session_effect_trans (client_id : string) (g g1 g2 : Gateway) :
  registry_ok g ->
  session_effect client_id g g1 ->
  session_effect client_id g1 g2 ->
  session_effect client_id g g2.
Proof.
  intros Hok (Hfree1 & Hstore1 & new1 & Hev1 & Hreg1)
         (Hfree2 & Hstore2 & new2 & Hev2 & Hreg2).
  split; [exact Hfree2|]. split; [congruence|].
  exists (new1 ++ new2)%list.
  split; [rewrite Hev2, Hev1; now rewrite app_assoc|].
  destruct (dict_get client_id (active_connections g)) as [ws|] eqn:Hget.
  - destruct Hreg1 as [[Hsame|Hgone] Hquiet1].
    + rewrite Hsame, Hget in Hreg2. destruct Hreg2 as [Hreg2 Hquiet2].
      split; [exact Hreg2|].
      now rewrite existsb_app, Hquiet1, Hquiet2.
    + rewrite Hgone, (dict_get_del_same _ _ Hok) in Hreg2.
      destruct Hreg2 as [Hreg2 Hquiet2].
      split; [right; congruence|].
      now rewrite existsb_app, Hquiet1, (quiet_elsewhere _ _ Hquiet2).
  - destruct Hreg1 as [Hsame Hquiet1].
    rewrite Hsame, Hget in Hreg2. destruct Hreg2 as [Hreg2 Hquiet2].
    split; [congruence|]. now rewrite existsb_app, Hquiet1, Hquiet2.
Qed.

Lemma session_effect_registry_ok (client_id : string) (g g' : Gateway) :
  registry_ok g -> session_effect client_id g g' -> registry_ok g'.
Proof.
  intros Hok (_ & _ & new & _ & Hreg). unfold registry_ok in *.
  destruct (dict_get client_id (active_connections g)).
  - destruct Hreg as [[-> | ->] _]; [exact Hok|now apply dict_del_nodup].
  - destruct Hreg as [-> _]. exact Hok.
Qed.

(** The whole loop, started with the lock free, returns or raises with a
    session effect. *)
Lemma ws_loop_effect (supabase : SupabaseClient) (client_id : string)
    (frames : list Inbound) (auth_token : option Json) (g : Gateway) :
  locked g = false ->
  registry_ok g ->
  ends_with client_id g (ws_loop supabase client_id auth_token frames g).
Proof.
  revert auth_token g.
  induction frames as [|frame frames IH]; intros auth_token g Hfree Hok.
  - split; [reflexivity|].
    apply (quiet_effect client_id g g []); try reflexivity;
      try assumption.
    symmetry. apply app_nil_r.
  - cbn [ws_loop]. unfold gbind.
    destruct (ws_message_effect supabase client_id auth_token frame g Hfree)
      as [Hnb Heffect].
    destruct (ws_message supabase client_id auth_token frame g)
      as [a g1|e g1|g1]; cbn [outcome_state is_blocked] in *;
      [|split; [reflexivity|exact Heffect]|discriminate].
    destruct (IH a g1 (proj1 Heffect)
                (session_effect_registry_ok client_id g g1 Hok Heffect))
      as [Hnb2 Heffect2].
    split; [exact Hnb2|].
    exact (session_effect_trans client_id g g1 _ Hok Heffect Heffect2).
Qed.

(** X18. Session isolation, turn by turn.  Whatever a session receives and
    whatever token it holds, one turn of its loop started with the lock
    free ends without leaving the lock held, sends frames to no connection
    but the one registered under its own id, leaves every other entry of
    the registry alone and never writes to the store. *)
Theorem ws_message_isolated (supabase : SupabaseClient)
    (client_id : string) (auth_token : option Json) (frame : Inbound)
    (g : Gateway) (websocket : WebSocket) :
  locked g = false ->
  dict_get client_id (active_connections g) = Some websocket ->
  is_blocked (ws_message supabase client_id auth_token frame g) = false
  /\ locked (outcome_state
               (ws_message supabase client_id auth_token frame g)) = false
  /\ store (world (outcome_state
                     (ws_message supabase client_id auth_token frame g)))
     = store (world g)
  /\ (forall other : string,
         other <> client_id ->
         dict_get other
           (active_connections
              (outcome_state
                 (ws_message supabase client_id auth_token frame g)))
         = dict_get other (active_connections g))
  /\ exists new : list Event,
       events (world (outcome_state
                        (ws_message supabase client_id auth_token frame g)))
       = (events (world g) ++ new)%list
       /\ existsb (sent_elsewhere (ws_id websocket)) new = false.
Proof.
  intros Hfree Hget.
  destruct (ws_message_effect supabase client_id auth_token frame g Hfree)
    as (Hnb & Hfree' & Hstore & new & Hevents & Hreg).
  rewrite Hget in Hreg. destruct Hreg as [Hconns Hquiet].
  split; [exact Hnb|]. split; [exact Hfree'|]. split; [exact Hstore|].
  split; [|exists new; now split].
  intros other Hother. destruct Hconns as [-> | ->]; [reflexivity|].
  now apply dict_get_del_other.
Qed.

(** X19. A session from connect to close.  Started with the lock free on a
    registry with unique ids, [websocket_endpoint] always returns, with
    the lock free; it sends frames to its own connection only, never
    writes to the store and leaves the other sessions registered as they
    were; and when it has ended the session, the session id is no longer
    registered. *)
Theorem websocket_endpoint_returns (supabase : SupabaseClient)
    (websocket : WebSocket) (client_id : string) (frames : list Inbound)
    (g : Gateway) :
  locked g = false ->
  registry_ok g ->
  exists (session : Session) (g' : Gateway),
    websocket_endpoint supabase websocket client_id frames g
    = Done session g'
    /\ locked g' = false
    /\ store (world g') = store (world g)
    /\ (session = Closed ->
        dict_get client_id (active_connections g') = None)
    /\ (forall other : string,
           other <> client_id ->
           dict_get other (active_connections g')
           = dict_get other (active_connections g))
    /\ exists new : list Event,
         events (world g') = (events (world g) ++ new)%list
         /\ existsb (sent_elsewhere (ws_id websocket)) new = false.
Proof.
  intros Hfree Hok.
  unfold websocket_endpoint, gtry, gbind at 1, connect, with_lock.
  rewrite Hfree.
  set (g1 := set_locked false
               (set_connections
                  (dict_set client_id websocket
                     (active_connections (set_locked true g)))
                  (set_locked true g))).
  assert (Hok1 : registry_ok g1) by (apply dict_set_nodup, Hok).
  assert (Hget1 : dict_get client_id (active_connections g1)
                  = Some websocket) by apply dict_get_set_same.
  assert (Hother1 : forall other : string,
             other <> client_id ->
             dict_get other (active_connections g1)
             = dict_get other (active_connections g))
    by (intros other Hother; now apply dict_get_set_other).
  destruct (ws_loop_effect supabase client_id frames None g1 eq_refl Hok1)
    as (Hnb & Hfree2 & Hstore2 & new & Hevents & Hreg).
  rewrite Hget1 in Hreg. destruct Hreg as [Hconns Hquiet].
  unfold gbind.
  destruct (ws_loop supabase client_id None frames g1) as [a g2|e g2|g2];
    cbn [outcome_state is_blocked] in *; [| |discriminate].
  - exists (Open a), g2. unfold gret.
    split; [reflexivity|]. split; [exact Hfree2|]. split; [exact Hstore2|].
    split; [discriminate|].
    split; [|exists new; now split].
    intros other Hother. rewrite <- (Hother1 other Hother).
    destruct Hconns as [-> | ->]; [reflexivity|].
    now apply dict_get_del_other.
  - assert (Hothers : forall other : string,
               other <> client_id ->
               dict_get other (active_connections g2)
               = dict_get other (active_connections g)).
    { intros other Hother. rewrite <- (Hother1 other Hother).
      destruct Hconns as [Hc|Hc]; rewrite Hc; [reflexivity|].
      apply dict_get_del_other, Hother. }
    assert (Hok2 : NoDup (map fst (active_connections g2))).
    { destruct Hconns as [Hc|Hc]; rewrite Hc;
        [exact Hok1|apply dict_del_nodup, Hok1]. }
    unfold disconnect, with_lock, dict_mem, gret. rewrite Hfree2.
    cbn [active_connections set_locked].
    destruct (dict_get client_id (active_connections g2)) as [ws|] eqn:Hget2.
    + eexists Closed, _. split; [reflexivity|].
      cbn [locked world active_connections set_locked set_connections].
      split; [reflexivity|]. split; [exact Hstore2|].
      split; [intros _; apply dict_get_del_same, Hok2|].
      split; [|exists new; now split].
      intros other Hother.
      rewrite (dict_get_del_other client_id other _ Hother).
      now apply Hothers.
    + eexists Closed, _. split; [reflexivity|].
      cbn [locked world active_connections set_locked set_connections].
      split; [reflexivity|]. split; [exact Hstore2|].
      split; [intros _; exact Hget2|].
      split; [exact Hothers|exists new; now split].
Qed.

(** ** Personal messages and the replies of the session loop *)

(** Closes a goal in which the turn ends by sending one frame to a
    registered session over a working connection. *)
Ltac reply_sent Hregistered Halive :=
  unfold send_personal_message, gtry, send_text;
  cbn [active_connections set_world world];
  rewrite Hregistered, Halive; reflexivity.

(** X20. With the lock free, a personal message never raises and never
    blocks.  To an id that is not registered it does nothing; over a
    working connection it delivers the frame to that session and changes
    nothing else; over a broken connection it delivers nothing and removes
    that session, and only that one, from the registry. *)
Theorem send_personal_message_outcome_free (message : Json)
    (client_id : string) (g : Gateway) :
  locked g = false ->
  registry_ok g ->
  exists g' : Gateway,
    send_personal_message message client_id g = Done tt g'
    /\ locked g' = false
    /\ match dict_get client_id (active_connections g) with
       | None => g' = g
       | Some websocket =>
           if ws_broken websocket
           then world g' = world g
                /\ dict_get client_id (active_connections g') = None
                /\ (forall other : string,
                       other <> client_id ->
                       dict_get other (active_connections g')
                       = dict_get other (active_connections g))
           else g' = set_world
                       (log_event (Sent (ws_id websocket) message) (world g))
                       g
       end.
Proof.
  intros Hfree Hok. unfold send_personal_message.
  destruct (dict_get client_id (active_connections g)) as [ws|] eqn:Hget.
  - unfold gtry, send_text. destruct (ws_broken ws).
    + unfold disconnect, with_lock, dict_mem. rewrite Hfree.
      cbn [active_connections set_locked]. rewrite Hget.
      eexists. split; [reflexivity|].
      cbn [locked world active_connections set_locked set_connections].
      split; [reflexivity|]. split; [reflexivity|].
      split; [apply dict_get_del_same, Hok|].
      intros other Hother. now apply dict_get_del_other.
    + eexists. split; [reflexivity|]. split; [exact Hfree|reflexivity].
  - exists g. split; [reflexivity|]. split; [exact Hfree|reflexivity].
Qed.

(** X21. A text frame that is not JSON is answered, on a registered
    session over a working connection, by exactly one [error] frame with
    [Invalid message format]; the session keeps its token and its loop
    goes on. *)
Theorem malformed_frame_answered (supabase : SupabaseClient)
    (client_id : string) (auth_token : option Json)
    (websocket : WebSocket) (g : Gateway) :
  dict_get client_id (active_connections g) = Some websocket ->
  ws_broken websocket = false ->
  ws_message supabase client_id auth_token (Text None) g
  = Done auth_token
      (set_world
         (log_event
            (Sent (ws_id websocket)
               (envelope "error" [("error", JStr "Invalid message format")]))
            (world g)) g).
Proof.
  intros Hregistered Halive.
  unfold ws_message, ws_turn, graise, gbind, send_personal_message, gtry,
    send_text.
  rewrite Hregistered, Halive. reflexivity.
Qed.

(** X22. A JSON object whose type is neither [auth] nor [chat_message] is
    ignored: no frame is sent, no validator or responder is called, and
    token, registry, lock and world are as before. *)
Theorem other_type_ignored (supabase : SupabaseClient) (client_id : string)
    (auth_token : option Json) (message : Json) (type : option Json)
    (g : Gateway) :
  message_get "type" message = Return type ->
  is_str "auth" type = false ->
  is_str "chat_message" type = false ->
  exists g' : Gateway,
    ws_message supabase client_id auth_token (Text (Some message)) g
    = Done auth_token g'
    /\ world g' = world g
    /\ active_connections g' = active_connections g
    /\ locked g' = locked g.
Proof.
  intros Htype Hauth Hchat.
  unfold ws_message, ws_turn, gtry, gbind, lift, of_result.
  rewrite Htype, Hauth, Hchat.
  eexists. split; [reflexivity|]. repeat split.
Qed.

(** X23. A frame that parses to JSON but not to an object ends the
    session: the lookup of its type raises, no reply is sent, and the
    endpoint, started with the lock free, closes and deregisters the
    session whatever frames would have followed. *)
Theorem non_object_frame_closes (supabase : SupabaseClient)
    (websocket : WebSocket) (client_id : string) (message : Json)
    (rest : list Inbound) (g : Gateway) :
  match message with JObj _ => False | _ => True end ->
  locked g = false ->
  registry_ok g ->
  exists g' : Gateway,
    websocket_endpoint supabase websocket client_id
      (Text (Some message) :: rest) g
    = Done Closed g'
    /\ world g' = world g
    /\ dict_get client_id (active_connections g') = None
    /\ (forall other : string,
           other <> client_id ->
           dict_get other (active_connections g')
           = dict_get other (active_connections g))
    /\ locked g' = false.
Proof.
  intros Hshape Hfree Hok.
  assert (Htype : message_get "type" message = Raise (AttributeError "get"))
    by (destruct message; try reflexivity; contradiction).
  unfold websocket_endpoint, gtry, gbind at 1, connect, with_lock.
  rewrite Hfree. cbn [ws_loop].
  unfold ws_message, ws_turn, gtry, lift, of_result, gbind.
  rewrite Htype.
  unfold disconnect, with_lock, dict_mem, gret, graise.
  cbn [locked world active_connections set_locked set_connections set_world].
  rewrite dict_get_set_same.
  eexists. split; [reflexivity|].
  cbn [locked world active_connections set_locked set_connections set_world].
  split; [reflexivity|].
  split; [apply dict_get_del_same, dict_set_nodup, Hok|].
  split; [|reflexivity].
  intros other Hother.
  rewrite (dict_get_del_other client_id other _ Hother).
  now apply dict_get_set_other.
Qed.

(** X24. An [auth] message whose key the validator accepts, on a registered
    session over a working connection: the validator is called once, the
    session is told [auth_success] with the user's name, and the key
    becomes the session's token. *)
Theorem auth_accepted_reply (supabase : SupabaseClient) (client_id : string)
    (auth_token : option Json) (message t : Json) (d : UserData)
    (name : string) (websocket : WebSocket) (g : Gateway) :
  message_get "type" message = Return (Some (JStr "auth")) ->
  payload_get "token" message = Return (Some t) ->
  truthy t = true ->
  supabase_validate_key supabase (store (world g)) t = Return (Some d) ->
  ud_valid d = true ->
  ud_user_name d = Some name ->
  dict_get client_id (active_connections g) = Some websocket ->
  ws_broken websocket = false ->
  ws_message supabase client_id auth_token (Text (Some message)) g
  = Done (Some t)
      (set_world
         (log_event
            (Sent (ws_id websocket)
               (envelope "auth_success" [("user_name", JStr name)]))
            (log_event (ValidatorCalled t) (world g))) g).
Proof.
  intros Htype Htoken Htruthy Hvalidate Hvalid Hname Hregistered Halive.
  unfold ws_message, ws_turn, gtry, gbind, lift, of_result. rewrite Htype.
  cbn [is_str String.eqb Ascii.eqb Bool.eqb]. cbn [world set_world].
  rewrite Htoken, Htruthy. unfold call_validate_key.
  cbn [world set_world]. rewrite Hvalidate, Hvalid, Hname.
  unfold send_personal_message, gtry, send_text.
  cbn [active_connections set_world world].
  rewrite Hregistered, Halive. reflexivity.
Qed.

(** X25. An [auth] message that fails, on a registered session over a
    working connection, is answered by one [auth_failed] frame and leaves
    the session with the token it had; the validator is called only when
    the message carries a truthy token, and failing means that there is no
    such token or that the validator returns nothing or data not flagged
    valid. *)
Theorem auth_rejected_reply (supabase : SupabaseClient) (client_id : string)
    (auth_token : option Json) (message : Json) (token : option Json)
    (websocket : WebSocket) (g : Gateway) :
  message_get "type" message = Return (Some (JStr "auth")) ->
  payload_get "token" message = Return token ->
  (forall t : Json,
      token = Some t -> truthy t = true ->
      rejected supabase (store (world g)) t = true) ->
  dict_get client_id (active_connections g) = Some websocket ->
  ws_broken websocket = false ->
  ws_message supabase client_id auth_token (Text (Some message)) g
  = Done auth_token
      (set_world
         (log_event
            (Sent (ws_id websocket)
               (envelope "auth_failed"
                  [("error", JStr "Invalid authentication token")]))
            (match token with
             | Some t =>
                 if truthy t then log_event (ValidatorCalled t) (world g)
                 else world g
             | None => world g
             end)) g).
Proof.
  intros Htype Htoken Hrejected Hregistered Halive.
  unfold ws_message, ws_turn, gtry, gbind, lift, of_result. rewrite Htype.
  cbn [is_str String.eqb Ascii.eqb Bool.eqb]. cbn [world set_world].
  rewrite Htoken.
  destruct token as [t|].
  - destruct (truthy t) eqn:Htruthy.
    + specialize (Hrejected t eq_refl Htruthy). unfold rejected in Hrejected.
      unfold call_validate_key. cbn [world set_world].
      destruct (supabase_validate_key supabase (store (world g)) t)
        as [[d|]|e]; [|reply_sent Hregistered Halive|discriminate].
      apply negb_true_iff in Hrejected. rewrite Hrejected.
      reply_sent Hregistered Halive.
    + reply_sent Hregistered Halive.
  - reply_sent Hregistered Halive.
Qed.

(** ** A code just issued, presented to [/validate-key] *)

(** X26. [/validate-key] looks for a [status] column that approval never
    writes: right after a successful approval, the code it returned is not
    accepted by [/validate-key] (the request fails), unless an older row
    already carried that code with the status [active]. *)
Theorem issued_code_not_validated (request : ApproveMembershipRequest)
    (w w' : World) (resp : ApproveMembershipResponse) :
  approve_membership request w = (Return resp, w') ->
  existsb (fun row => field_is "membership_code" (membership_code resp) row
                      && field_is "status" "active" row)
          (memberships (store w)) = false ->
  store_answers 1 w' = true ->
  exists e : Exn,
    fst (validate_key (mkValidateKeyRequest (membership_code resp)) w')
    = Raise e.
Proof.
  intros Hok Hold Hup. rewrite (validate_key_run _ _ Hup). cbn [key].
  destruct (approve_store_effect request w) as (_ & _ & Hmem).
  rewrite Hok in Hmem. cbn [snd] in Hmem.
  exists (HTTPException 404 "Invalid membership key").
  destruct Hmem as [-> | (_ & inv & ->)].
  - now rewrite Hold.
  - rewrite existsb_app, Hold. cbn [existsb orb].
    unfold field_is at 2. unfold issued_row. cbn [dict_get String.eqb
      Ascii.eqb Bool.eqb eq_filter]. now rewrite andb_false_r.
Qed.

(** * Further instances *)

Lemma gateway_of_registry_ok (s : Store) : registry_ok (gateway_of s).
Proof.
  unfold registry_ok. cbn.
  repeat constructor; cbn; intuition discriminate.
Qed.

Lemma gateway_healthy_registry_ok (s : Store) :
  registry_ok (gateway_healthy s).
Proof.
  unfold registry_ok. cbn.
  repeat constructor; cbn; intuition discriminate.
Qed.

Lemma approve_issues_membership_witness :
  fst (approve_membership (mkApproveMembershipRequest "ABC123" None)
         (world_replying store_invited [Body (JArr [JObj [("id", JNum 7)]])]))
  = Return (mkApproveMembershipResponse true "Membership approved."
              "MEMBER-0A0A0A-1700000000" "MEMBER-0A0A0A")
  /\ store (snd (approve_membership
                   (mkApproveMembershipRequest "ABC123" None)
                   (world_replying store_invited
                      [Body (JArr [JObj [("id", JNum 7)]])])))
     = mkStore (invitations store_invited) (onboarding store_invited)
         [[("invitation_code", JStr "ABC123");
           ("membership_code", JStr "MEMBER-0A0A0A");
           ("membership_key", JStr "MEMBER-0A0A0A-1700000000");
           ("issued_to", JStr "Ada");
           ("active", JBool true);
           ("issued_at", JStr "2023-11-14T22:13:20")]].
Proof.
  destruct (approve_issues_membership
              (mkApproveMembershipRequest "ABC123" None)
              (world_replying store_invited
                 [Body (JArr [JObj [("id", JNum 7)]])])
              (sample_invitation "ABC123" "onboarded"))
    as (Hresp & Hstore & _); [vm_compute; reflexivity ..|].
  split; [exact Hresp|exact Hstore].
Defined.

(** A store that carries the insert out and replies with an empty body:
    the approval raises, the membership is stored, the retry is refused. *)
Lemma approve_unacknowledged_insert_witness :
  fst (approve_membership (mkApproveMembershipRequest "ABC123" None)
         (world_replying store_invited [NoBody]))
  = Raise JSONDecodeError
  /\ memberships
       (store (snd (approve_membership
                      (mkApproveMembershipRequest "ABC123" None)
                      (world_replying store_invited [NoBody]))))
     = [[("invitation_code", JStr "ABC123");
         ("membership_code", JStr "MEMBER-0A0A0A");
         ("membership_key", JStr "MEMBER-0A0A0A-1700000000");
         ("issued_to", JStr "Ada");
         ("active", JBool true);
         ("issued_at", JStr "2023-11-14T22:13:20")]]
  /\ fst (approve_membership (mkApproveMembershipRequest "ABC123" None)
            (snd (approve_membership
                    (mkApproveMembershipRequest "ABC123" None)
                    (world_replying store_invited [NoBody]))))
     = Raise (HTTPException 409
                "Membership already exists for this invitation code.").
Proof.
  destruct (approve_unacknowledged_insert
              (mkApproveMembershipRequest "ABC123" None)
              (world_replying store_invited [NoBody])
              (sample_invitation "ABC123" "onboarded")
              (mkApproveMembershipRequest "ABC123" None))
    as (Hresp & Hstore & Hagain); [vm_compute; reflexivity ..|].
  split; [exact Hresp|]. split; [|exact Hagain].
  rewrite Hstore. reflexivity.
Defined.

(** The same with a reply that holds the empty list. *)
Example approve_empty_list_reply :
  fst (approve_membership (mkApproveMembershipRequest "ABC123" None)
         (world_replying store_invited [Body (JArr [])]))
  = Raise (HTTPException 500 "Error saving membership record.")
  /\ has_active_membership "ABC123"
       (store (snd (approve_membership
                      (mkApproveMembershipRequest "ABC123" None)
                      (world_replying store_invited [Body (JArr [])]))))
     = true.
Proof. vm_compute. split; reflexivity. Qed.

Lemma approve_keeps_single_active_witness :
  single_active
    (store (snd (approve_membership
                   (mkApproveMembershipRequest "ABC123" None)
                   (world_of store_invited)))).
Proof.
  apply (approve_keeps_single_active
           (mkApproveMembershipRequest "ABC123" None)
           (world_of store_invited)).
  intros code. simpl. lia.
Defined.

Lemma approve_retry_after_store_error_witness :
  fst (approve_membership (mkApproveMembershipRequest "ABC123" None)
         (world_with store_invited [Healthy; Healthy; Failing "timeout"]))
  = Raise (HTTPException 500 ("Supabase error: " ++ "timeout"))
  /\ fst (approve_membership (mkApproveMembershipRequest "ABC123" None)
            (snd (approve_membership
                    (mkApproveMembershipRequest "ABC123" None)
                    (world_with store_invited
                       [Healthy; Healthy; Failing "timeout"]))))
     = Return (mkApproveMembershipResponse true "Membership approved."
                 "MEMBER-0A0A0A-1700000000" "MEMBER-0A0A0A").
Proof.
  destruct (approve_retry_after_store_error
              (mkApproveMembershipRequest "ABC123" None)
              (world_with store_invited
                 [Healthy; Healthy; Failing "timeout"])
              (sample_invitation "ABC123" "onboarded") "timeout")
    as (Hfirst & _ & Hretry & _); [vm_compute; reflexivity ..|].
  split; [exact Hfirst|exact Hretry].
Defined.

Lemma store_error_is_500_witness :
  validate_key (mkValidateKeyRequest "MEMBER-AAAAAA")
    (world_with store_members [Failing "timeout"])
  = (Raise (HTTPException 500 ("Supabase error: " ++ "timeout")),
     set_faults (tl (faults (world_with store_members [Failing "timeout"])))
       (world_with store_members [Failing "timeout"])).
Proof.
  refine (proj1 (proj2 (proj2 (store_error_is_500
                                 (world_with store_members
                                    [Failing "timeout"]) "timeout"
                                 (mkApproveMembershipRequest "ABC123" None)
                                 (mkOnboardingRequest "ABC123" true JNull)
                                 (mkValidateKeyRequest "MEMBER-AAAAAA")
                                 (mkValidateInvitationRequest "ABC123" "4821")
                                 _)))).
  vm_compute. reflexivity.
Defined.

Lemma submit_onboarding_outcome_witness :
  (fst (submit_onboarding (mkOnboardingRequest "NOPE" true JNull)
          (world_of store_invited))
   = Raise (HTTPException 404 "Invitation not found")
   /\ store (snd (submit_onboarding (mkOnboardingRequest "NOPE" true JNull)
                    (world_of store_invited)))
      = store (world_of store_invited))
  /\ (fst (submit_onboarding (mkOnboardingRequest "PPP000" true JNull)
             (world_replying store_invited [Body (JArr [])]))
      = Return (mkOnboardingResponse "submitted" "PPP000")
      /\ store (snd (submit_onboarding
                       (mkOnboardingRequest "PPP000" true JNull)
                       (world_replying store_invited [Body (JArr [])])))
         = mkStore (invitations store_invited)
             [[("invitation_code", JStr "PPP000");
               ("voice_consent", JBool true);
               ("responses", JNull)]]
             (memberships store_invited)).
Proof.
  split.
  - apply (submit_onboarding_outcome (mkOnboardingRequest "NOPE" true JNull)
             (world_of store_invited)).
    vm_compute. reflexivity.
  - apply (submit_onboarding_outcome
             (mkOnboardingRequest "PPP000" true JNull)
             (world_replying store_invited [Body (JArr [])])).
    vm_compute. reflexivity.
Defined.

(** An onboarding insert answered with an empty body: the record is
    stored and the submission raises. *)
Example submit_onboarding_empty_reply :
  fst (submit_onboarding (mkOnboardingRequest "PPP000" true JNull)
         (world_replying store_invited [NoBody]))
  = Raise JSONDecodeError
  /\ List.length
       (onboarding
          (store (snd (submit_onboarding
                         (mkOnboardingRequest "PPP000" true JNull)
                         (world_replying store_invited [NoBody])))))
     = 1%nat.
Proof. vm_compute. split; reflexivity. Qed.

Lemma submit_onboarding_twice_witness :
  fst (submit_onboarding (mkOnboardingRequest "PPP000" true JNull)
         (world_of store_invited))
  = Return (mkOnboardingResponse "submitted" "PPP000")
  /\ fst (submit_onboarding (mkOnboardingRequest "PPP000" false JNull)
            (snd (submit_onboarding
                    (mkOnboardingRequest "PPP000" true JNull)
                    (world_of store_invited))))
     = Return (mkOnboardingResponse "submitted" "PPP000").
Proof.
  destruct (submit_onboarding_twice
              (mkOnboardingRequest "PPP000" true JNull)
              (mkOnboardingRequest "PPP000" false JNull)
              (world_of store_invited)
              (sample_invitation "PPP000" "pending"))
    as (Hfirst & Hsecond & _); [vm_compute; reflexivity ..|].
  split; [exact Hfirst|exact Hsecond].
Defined.

Lemma create_invitation_outcome_witness :
  exists code pin : string,
    fst (create_invitation (mkInvitationRequest "Grace")
           (world_of store_invited))
    = Return (mkInvitationResponse code pin "Grace")
    /\ String.length code = 18%nat
    /\ String.length pin = 4%nat.
Proof.
  destruct (create_invitation_outcome (mkInvitationRequest "Grace")
              (world_of store_invited))
    as (code & pin & Hresp & _ & Hcode & _ & Hpin & _).
  - vm_compute. reflexivity.
  - exists code, pin. repeat split; assumption.
Defined.

Lemma validate_invitation_outcome_witness :
  fst (validate_invitation (mkValidateInvitationRequest "PPP000" "4821")
         (world_of store_invited))
  = Return (mkValidateInvitationResponse true "PPP000")
  /\ fst (validate_invitation (mkValidateInvitationRequest "PPP000" "0000")
            (world_of store_invited))
     = Raise (HTTPException 404 "Invalid or expired invitation")
  /\ fst (validate_invitation (mkValidateInvitationRequest "ABC123" "4821")
            (world_of store_invited))
     = Raise (HTTPException 404 "Invalid or expired invitation").
Proof.
  split; [|split].
  - apply (validate_invitation_outcome
             (mkValidateInvitationRequest "PPP000" "4821")
             (world_of store_invited)).
    vm_compute. reflexivity.
  - apply (validate_invitation_outcome
             (mkValidateInvitationRequest "PPP000" "0000")
             (world_of store_invited)).
    vm_compute. reflexivity.
  - apply (validate_invitation_outcome
             (mkValidateInvitationRequest "ABC123" "4821")
             (world_of store_invited)).
    vm_compute. reflexivity.
Defined.

Lemma created_invitation_validates_witness :
  fst (validate_invitation
         (mkValidateInvitationRequest "aaaaaaaaaaaaaaaaaa" "0000")
         (snd (create_invitation (mkInvitationRequest "Grace")
                 (world_of store_invited))))
  = Return (mkValidateInvitationResponse true "aaaaaaaaaaaaaaaaaa").
Proof.
  apply (created_invitation_validates (mkInvitationRequest "Grace")
           (world_of store_invited)
           (mkInvitationResponse "aaaaaaaaaaaaaaaaaa" "0000" "Grace")
           (snd (create_invitation (mkInvitationRequest "Grace")
                   (world_of store_invited))));
    vm_compute; reflexivity.
Defined.

Lemma issued_code_not_validated_witness :
  exists e : Exn,
    fst (validate_key (mkValidateKeyRequest "MEMBER-0A0A0A")
           (snd (approve_membership
                   (mkApproveMembershipRequest "ABC123" None)
                   (world_of store_invited))))
    = Raise e.
Proof.
  apply (issued_code_not_validated
           (mkApproveMembershipRequest "ABC123" None)
           (world_of store_invited)
           (snd (approve_membership (mkApproveMembershipRequest "ABC123" None)
                   (world_of store_invited)))
           (mkApproveMembershipResponse true "Membership approved."
              "MEMBER-0A0A0A-1700000000" "MEMBER-0A0A0A"));
    vm_compute; reflexivity.
Defined.

Lemma verify_admin_sound_witness :
  username (mkHTTPBasicCredentials "admin" "Str0ng!Passw0rd")
  = ADMIN_USERNAME sample_settings
  /\ password (mkHTTPBasicCredentials "admin" "Str0ng!Passw0rd")
     = ADMIN_PASSWORD sample_settings
  /\ "admin" = ADMIN_USERNAME sample_settings
  /\ world_of store_invited = world_of store_invited.
Proof.
  apply (verify_admin_sound sample_settings
           (mkHTTPBasicCredentials "admin" "Str0ng!Passw0rd")
           (world_of store_invited) (world_of store_invited) "admin").
  vm_compute. reflexivity.
Defined.

Lemma admin_routes_gate_witness :
  exists e : Exn,
    approve_membership_route sample_settings
      (mkHTTPBasicCredentials "admin" "guess")
      (mkApproveMembershipRequest "ABC123" None) (world_of store_invited)
    = (Raise e, world_of store_invited)
    /\ e = HTTPException 401 "Incorrect username or password".
Proof.
  destruct (proj1 (admin_routes_gate sample_settings
                     (mkHTTPBasicCredentials "admin" "guess")
                     (world_of store_invited)
                     (mkApproveMembershipRequest "ABC123" None)
                     (mkInvitationRequest "Grace")))
    as (e & Happrove & _ & Hcode).
  - right. vm_compute. discriminate.
  - exists e. split; [exact Happrove|].
    apply Hcode; vm_compute; reflexivity.
Defined.

Lemma gpt_chat_validator_error_witness :
  gpt_chat_route failing_client (Some "MEMBER-AAAAAA")
    (mkChatRequest "hello") (world_of store_members)
  = (Raise (HTTPException 500 "Supabase validation failed"),
     log_event (ValidatorCalled (JStr "MEMBER-AAAAAA"))
       (world_of store_members)).
Proof.
  apply (gpt_chat_validator_error failing_client "MEMBER-AAAAAA"
           (mkChatRequest "hello") (world_of store_members)
           (HTTPError "connection refused")).
  vm_compute. reflexivity.
Defined.

Lemma gpt_chat_with_user_data_witness :
  http_status
    (fst (gpt_chat_route spec_client (Some "MEMBER-AAAAAA")
            (mkChatRequest "hello") (world_of store_members))) = 200%Z
  /\ exists text : string,
       In text (personal_responses "Ada")
       /\ fst (gpt_chat_route spec_client (Some "MEMBER-AAAAAA")
                 (mkChatRequest "hello") (world_of store_members))
          = Return [("response", JStr text)].
Proof.
  apply (gpt_chat_with_user_data spec_client "MEMBER-AAAAAA"
           (mkChatRequest "hello") (world_of store_members)
           (mkUserData true (Some "Ada"))).
  vm_compute. reflexivity.
Defined.

Lemma connect_registers_witness :
  exists g' : Gateway,
    connect (mkWebSocket 4 false) "d" (gateway_of store_members)
    = Done tt g'
    /\ dict_get "d" (active_connections g') = Some (mkWebSocket 4 false).
Proof.
  destruct (connect_registers (mkWebSocket 4 false) "d"
              (gateway_of store_members))
    as (g' & Hrun & Hget & _).
  - vm_compute. reflexivity.
  - apply gateway_of_registry_ok.
  - exists g'. split; assumption.
Defined.

Lemma disconnect_removes_witness :
  exists g' : Gateway,
    disconnect "b" (gateway_of store_members) = Done tt g'
    /\ dict_get "b" (active_connections g') = None.
Proof.
  destruct (disconnect_removes "b" (gateway_of store_members))
    as (g' & Hrun & Hget & _).
  - vm_compute. reflexivity.
  - apply gateway_of_registry_ok.
  - exists g'. split; assumption.
Defined.

Lemma ws_message_isolated_witness :
  is_blocked (ws_message spec_client "a" None (chat_frame "hi")
                (gateway_of store_members)) = false.
Proof.
  refine (proj1 (ws_message_isolated spec_client "a" None (chat_frame "hi")
                   (gateway_of store_members) peer_a _ _));
    vm_compute; reflexivity.
Defined.

Lemma websocket_endpoint_returns_witness :
  exists (session : Session) (g' : Gateway),
    websocket_endpoint spec_client (mkWebSocket 4 false) "d"
      [auth_frame "MEMBER-AAAAAA"; chat_frame "hi"; Disconnect]
      (gateway_of store_members)
    = Done session g'
    /\ locked g' = false.
Proof.
  destruct (websocket_endpoint_returns spec_client (mkWebSocket 4 false) "d"
              [auth_frame "MEMBER-AAAAAA"; chat_frame "hi"; Disconnect]
              (gateway_of store_members))
    as (session & g' & Hrun & Hfree & _).
  - vm_compute. reflexivity.
  - apply gateway_of_registry_ok.
  - exists session, g'. split; assumption.
Defined.

Lemma send_personal_message_outcome_free_witness :
  exists g' : Gateway,
    send_personal_message (JStr "hello") "b" (gateway_of store_members)
    = Done tt g'
    /\ locked g' = false.
Proof.
  destruct (send_personal_message_outcome_free (JStr "hello") "b"
              (gateway_of store_members))
    as (g' & Hrun & Hfree & _).
  - vm_compute. reflexivity.
  - apply gateway_of_registry_ok.
  - exists g'. split; assumption.
Defined.

Lemma malformed_frame_answered_witness :
  ws_message spec_client "a" None (Text None) (gateway_of store_members)
  = Done None
      (set_world
         (log_event
            (Sent (ws_id peer_a)
               (envelope "error" [("error", JStr "Invalid message format")]))
            (world (gateway_of store_members)))
         (gateway_of store_members)).
Proof.
  apply (malformed_frame_answered spec_client "a" None peer_a
           (gateway_of store_members)); vm_compute; reflexivity.
Defined.

Lemma other_type_ignored_witness :
  exists g' : Gateway,
    ws_message spec_client "a" None
      (Text (Some (envelope "ping" []))) (gateway_of store_members)
    = Done None g'
    /\ world g' = world (gateway_of store_members).
Proof.
  destruct (other_type_ignored spec_client "a" None (envelope "ping" [])
              (Some (JStr "ping")) (gateway_of store_members))
    as (g' & Hrun & Hworld & _).
  - vm_compute. reflexivity.
  - vm_compute. reflexivity.
  - vm_compute. reflexivity.
  - exists g'. split; assumption.
Defined.

Lemma non_object_frame_closes_witness :
  exists g' : Gateway,
    websocket_endpoint spec_client (mkWebSocket 4 false) "d"
      [Text (Some (JArr [])); chat_frame "hi"] (gateway_of store_members)
    = Done Closed g'
    /\ world g' = world (gateway_of store_members).
Proof.
  destruct (non_object_frame_closes spec_client (mkWebSocket 4 false) "d"
              (JArr []) [chat_frame "hi"] (gateway_of store_members))
    as (g' & Hrun & Hworld & _).
  - exact I.
  - vm_compute. reflexivity.
  - apply gateway_of_registry_ok.
  - exists g'. split; assumption.
Defined.

Lemma auth_accepted_reply_witness :
  ws_message spec_client "a" None (auth_frame "MEMBER-AAAAAA")
    (gateway_of store_members)
  = Done (Some (JStr "MEMBER-AAAAAA"))
      (set_world
         (log_event
            (Sent (ws_id peer_a)
               (envelope "auth_success" [("user_name", JStr "Ada")]))
            (log_event (ValidatorCalled (JStr "MEMBER-AAAAAA"))
               (world (gateway_of store_members))))
         (gateway_of store_members)).
Proof.
  apply (auth_accepted_reply spec_client "a" None
           (envelope "auth" [("token", JStr "MEMBER-AAAAAA")])
           (JStr "MEMBER-AAAAAA") (mkUserData true (Some "Ada")) "Ada"
           peer_a (gateway_of store_members)); vm_compute; reflexivity.
Defined.

Lemma auth_rejected_reply_witness :
  ws_message spec_client "a" None (auth_frame "MEMBER-AAAAAA")
    (gateway_of store_revoked)
  = Done None
      (set_world
         (log_event
            (Sent (ws_id peer_a)
               (envelope "auth_failed"
                  [("error", JStr "Invalid authentication token")]))
            (log_event (ValidatorCalled (JStr "MEMBER-AAAAAA"))
               (world (gateway_of store_revoked))))
         (gateway_of store_revoked)).
Proof.
  apply (auth_rejected_reply spec_client "a" None
           (envelope "auth" [("token", JStr "MEMBER-AAAAAA")])
           (Some (JStr "MEMBER-AAAAAA")) peer_a (gateway_of store_revoked)).
  - vm_compute. reflexivity.
  - vm_compute. reflexivity.
  - intros t [= <-] _. vm_compute. reflexivity.
  - vm_compute. reflexivity.
  - vm_compute. reflexivity.
Defined.

Lemma broadcast_all_healthy_witness :
  exists g' : Gateway,
    broadcast (JStr "hello") (Some "a") (gateway_healthy store_members)
    = Done tt g'
    /\ events (world g') = [Sent 3 (JStr "hello")].
Proof.
  destruct (@broadcast_all_healthy (JStr "hello") (Some "a")
              (gateway_healthy store_members))
    as (g' & Hrun & Hevents & _).
  - vm_compute. reflexivity.
  - vm_compute. reflexivity.
  - exists g'. split; [exact Hrun|exact Hevents].
Defined.

Lemma broadcast_blocks_on_failure_witness :
  exists g' : Gateway,
    broadcast (JStr "hello") None (gateway_of store_members) = Blocked g'
    /\ locked g' = true.
Proof.
  destruct (@broadcast_blocks_on_failure (JStr "hello") None
              (gateway_of store_members))
    as (g' & Hrun & Hlocked & _).
  - vm_compute. reflexivity.
  - vm_compute. reflexivity.
  - exists g'. split; assumption.
Defined.
